(* ===== verification/_CoqProject ===== *)
-Q . S2P
Prelude.v
Cache.v
Session.v
Preload.v
PyRe.v
Dom.v
DateFormat.v
Quote.v
SearchRows.v
Orchestrator.v
Pages.v
Server.v
