(* ===== verification/Prelude.v ===== *)
(** * A verification library for the Metal Archives proxy (Mp3tag web source)

    The repository is a local HTTP proxy (Python, three files under src/):
    - [src/cache_ma.py]: a shelve file [ma_cache.db] mapping cache keys to
      [{"timestamp": isoformat, "data": value}] with a 15-day expiry;
    - [src/playwright_session.py]: the class [PlaywrightSessionManager],
      a process-wide singleton holding the Playwright engine, browser,
      context and default page, a last-used time and a background
      inactivity monitor thread, plus the request filter [_handle_route];
    - [src/proxy_ma.py]: the HTTP handler [MAProxyHandler.do_GET], the six
      fetch operations ([search_albums], [search_artists],
      [search_albums_with_info], [get_album], [get_artist_info],
      [get_album_with_artist_info]), the helpers [format_date] and
      [contains_unicode], the BeautifulSoup extraction of album and band
      pages, the start-up check [preload_with_validation] and [__main__].

    A request goes through [do_GET] to one fetch operation.  The
    operation reads the cache (the album, band and composite ones sweep
    it first), on a miss drives the session to load a page or to capture
    the AJAX answer of a search, builds a record, writes it back to the
    cache, and on any exception closes the session and answers
    [{"error": ...}].  [__main__] runs the start-up check, sweeps the
    cache, serves requests one at a time while the inactivity monitor may
    close the session between them, and closes the session at the end.

    ** Files of the development (in dependency order)

    - [Prelude] (this file): the Python string primitives the code calls
      ([str.strip], [str.lower], [str.replace], [str.zfill], the [in]
      operator, [ord]) on Latin-1 text; a state-and-exception monad [PyM]
      with [try]/[finally] and the notations [let!]/[do!] in [py_scope]
      (mutations made before an exception persist, as in Python); frame
      reasoning ([keeps]: a state predicate a computation preserves, with
      the tactic [keeps_solve] and the hint database [keeps]); the
      inversion tactic [run_inv]; the [pyproxy] and [pyrw] hint databases;
      and the exhaustive check [forall_chars] over the 256 characters.
    - [Cache]: [cache_ma.py].  The shelve file is a stdpp
      [gmap string entry]; [save_in_cache], [get_data_from_cache],
      [delete_from_cache] and [cleanup_expired_cache] are functions of the
      store and of the clock reading.  Theorems C1-C6: read after write
      within the TTL, expiry deletes physically, the sweep is a filter,
      the operations refine the abstract map of live values, and a store
      of live entries stays live.
    - [Session]: [playwright_session.py].  The class attributes form a
      record [world]; [start], [get_page], [is_active], [close],
      [_start_monitor], the body of the monitor loop and [_handle_route]
      are [PyM] computations whose engine calls raise when a failure
      oracle says so.  The step relation [sys_step] runs whole method
      calls and monitor iterations one after another; [start_begin] and
      [start_resume] cut [start()] where it blocks in [launch()], so
      that a monitor iteration can run inside it ([start_split] proves
      the two halves are [start()]).  Theorems C7, C8, C10-C14: [start]
      reuses a live session, [close] always resets every handle and never
      raises, the teardown steps are isolated for every failure pattern,
      the monitor closes an idle session, and three findings: a monitor
      loop closing the session inside [start()] leaves it half open
      (C12), a failed launch leaves a half-open session (C13), and every
      close/start cycle leaves one more monitor loop (C14).
    - [Preload]: [preload_proxy] and [preload_with_validation] over the
      session, the site's answer to attempt [k] being an [attempt_env].
      Theorems C35-C37: the first clean attempt succeeds (liveness), the
      loop terminates without raising, and a launch failure at the first
      attempt makes every retry fail, whatever the engine and the site
      do later (finding).
    - [Dom]: the tree BeautifulSoup's [html.parser] builds (text,
      comments, elements with attributes and children) with the
      library calls the code makes: [.text], [get_text(strip=True)],
      [str(tag)], [find_all], [find(string=...)], [find_next_sibling],
      the CSS subset of its selectors ([select], [select_one]: tag, id,
      classes, [:-soup-contains], descendant and [+]; an unsupported
      pseudo-class raises), and the mutations [replace_with] of [br] and
      [unwrap].  The induction principle [node_ind2] for the nested tree,
      and the lemmas that [unwrap] keeps the strings and the [br]
      replacement keeps what [strip=True] keeps.
    - [PyRe]: the subset of Python's [re] the code uses (classes, counted,
      starred, lazy and greedy repetition, alternation, groups, [^], [$])
      as a backtracking matcher in continuation-passing style with the
      leftmost-first priority of [sre]; [re.search], [re.sub],
      [Match.group]; a declarative relation [Matches] with the soundness
      of the matcher for it, and the adequacy of its fuel.
    - [DateFormat]: [format_date] and [contains_unicode].  Theorems C17,
      C19: the result is [""] or [YYYY-MM-DD], and no range check: every
      month name with every day [00]-[99] and every ordinal suffix passes
      through, checked by computation over all the cases (finding);
      lemmas for the examples of the specification and the unicode test.
    - [Quote]: [urllib.parse.quote] (UTF-8, then percent-encoding of the
      unsafe bytes) and the [unquote_plus] that [parse_qs] applies.
    - [SearchRows]: the row loops of the three searches.  Theorems
      C21-C25: the rewritten result URL round-trips through the proxy's
      own query parsing and stays one parameter, the album loop is a
      filter and a map, a cell without double quotes (the
      specification's example row) gives no title and no URL (finding),
      the artist loop's [IndexError] (finding).
    - [Orchestrator]: JSON values; the world [proxy] = cache x session;
      the request environment [env] (clock, engine oracle, navigation
      failures, loaded pages, AJAX responses, debug-file failures); the
      interface [Extraction] for the BeautifulSoup records (the album
      record may raise), whose one law (a record has no ["error"] key) is
      all the client theorems use; the six operations and [do_GET].
      Theorems C15, C16, C26, C28-C34, C40:
      cache hits touch no session, fetches cache what they return,
      navigation failures close the session and write nothing, soft
      errors keep it, missing parameters change nothing, a failed
      composite writes no composite entry when the debug files can be
      written (specification, section 8), and findings: the artist/album
      key collision (C31), listeners accumulating on the shared page
      (C30), an error answered after the composite was cached whenever
      a debug write fails (C34), the route filter aborting the main
      document (C40).
    - [Pages]: the bodies of [get_album] (its [get_text], [get_attr],
      [extract_tracks], the [or] fallbacks, the two regular expressions)
      and [get_artist_info] ([get_dd_text]), and [extract_addtional_info],
      over [Dom]; [soup_extraction] is the instance of [Extraction] they
      make, so every theorem of [Orchestrator] holds of them.  Theorems
      C9, C18, C20, C27: an album page without a release date makes
      [get_album] fail with soupsieve's [SelectorSyntaxError] for the
      Playwright selector [:has-text] (finding), the line breaks of the
      notes are lost (finding), the tracks' shape and the year's bounds.
    - [Server]: [serve_forever] over a list of requests and monitor
      passes, and [__main__] with its [finally].  Theorems C38-C39: no
      error object is ever cached over a whole run, and no session is
      active at exit.

    ** Text, numbers and bounds

    A Python [str] is a Stdlib [string] whose characters are read as
    Latin-1 code points (0..255): [ord c] is [nat_of_ascii c].  On that
    range Python's [\d] is exactly 0-9, [\s] and [str.isspace] are
    9-13, 28-31, 32, 133 and 160, and [str.lower] maps 65-90 and
    192-222 (except 215) up by 32; the definitions below are those
    tables.  Characters above 255 are not modelled.  Times are integers
    ([Z]) in microseconds, the resolution of [datetime.isoformat]; one
    request reads the clock once (the sweep of [cleanup_expired_cache]
    reads it per entry; the readings of one request are taken as equal).
    The matcher runs its repetitions with
    fuel [S (length s)] and [re.sub] with fuel [S (length s)]: each
    iteration that continues consumes a character, so that fuel is never
    exhausted ([rep_fuel_enough], [sub_fuel_enough] prove any larger
    fuel gives the same answer).  The retry loop of the start-up check
    is structural in the number of retries.

    ** Not modelled

    BeautifulSoup's HTML parser (text to tree) is not modelled: a page is
    the tree it builds, entity decoding and the tree repair of
    [html.parser] included.  [Dom.render] is [str(tag)] for the trees the
    code tests with [in] (attribute values quoted and [&], [<], [>]
    escaped as the [minimal] formatter does); the CSS selectors are the
    ones the code writes.  HTTP
    serving and JSON encoding ([_send_json]), logging, the contents of
    the debug files, sleeps and prints carry no state the code reads;
    whether a debug write raises is a bit of the environment.  The
    monitor thread runs between method calls ([sys_step]) and, for the
    race of C12, inside [start()] while it waits for [launch()]; its
    other interleavings inside a request are not modelled.
*)

From Stdlib Require Import String Ascii List Bool Arith Lia.
Import ListNotations.

Declare Scope py_scope.
Delimit Scope py_scope with py.
Create HintDb pyproxy.
Create Rewrite HintDb pyrw.

(** ** Characters *)

Definition ord (c : ascii) : nat := nat_of_ascii c.

Definition chr (n : nat) : ascii := ascii_of_nat n.

(** [str.isspace] on one Latin-1 character. *)
Definition py_isspace (c : ascii) : bool :=
  let n := ord c in
  ((9 <=? n) && (n <=? 13)) || ((28 <=? n) && (n <=? 32))
  || (n =? 133) || (n =? 160).

(** Python's [\d] on Latin-1 text. *)
Definition py_isdigit (c : ascii) : bool :=
  let n := ord c in (48 <=? n) && (n <=? 57).

(** [str.lower] on one Latin-1 character. *)
Definition py_lower_char (c : ascii) : ascii :=
  let n := ord c in
  if ((65 <=? n) && (n <=? 90)) || ((192 <=? n) && (n <=? 222) && negb (n =? 215))
  then chr (n + 32) else c.

Definition ceqb (a b : ascii) : bool := Ascii.eqb a b.

(** ** Strings as character lists *)

Definition chars (s : string) : list ascii := list_ascii_of_string s.
Definition str (l : list ascii) : string := string_of_list_ascii l.

Fixpoint drop_while {A} (p : A -> bool) (l : list A) : list A :=
  match l with
  | [] => []
  | x :: l' => if p x then drop_while p l' else l
  end.

(** [str.strip()], [str.lstrip()] and [str.rstrip()]. *)
Definition py_lstrip (s : string) : string := str (drop_while py_isspace (chars s)).
Definition py_rstrip (s : string) : string :=
  str (rev (drop_while py_isspace (rev (chars s)))).
Definition py_strip (s : string) : string := py_rstrip (py_lstrip s).

Definition py_lower (s : string) : string := str (map py_lower_char (chars s)).

Fixpoint lprefix (p l : list ascii) : bool :=
  match p, l with
  | [], _ => true
  | a :: p', b :: l' => ceqb a b && lprefix p' l'
  | _ :: _, [] => false
  end.

Fixpoint lcontains (p l : list ascii) : bool :=
  lprefix p l || match l with [] => false | _ :: l' => lcontains p l' end.

(** The [in] operator on strings: [needle in hay]. *)
Definition py_in (needle hay : string) : bool := lcontains (chars needle) (chars hay).

(** [str.replace(old, new)] with a non-empty [old]: every occurrence,
    left to right, without overlap.  The scan is bounded by the length of
    the subject, which it consumes at each step. *)
Fixpoint lreplace_go (fuel : nat) (old new l : list ascii) : list ascii :=
  match fuel with
  | 0 => l
  | S f =>
      match l with
      | [] => []
      | c :: l' =>
          if lprefix old l
          then new ++ lreplace_go f old new (skipn (length old) l)
          else c :: lreplace_go f old new l'
      end
  end.

(** With an empty [old], Python inserts [new] before every character
    and at the end. *)
Definition lreplace (old new l : list ascii) : list ascii :=
  match old with
  | [] => concat (map (fun c => new ++ [c]) l) ++ new
  | _ :: _ => lreplace_go (length l) old new l
  end.

Definition py_replace (old new s : string) : string :=
  str (lreplace (chars old) (chars new) (chars s)).

(** [str.zfill(width)]: pad with zeros on the left, after a sign. *)
Definition py_zfill (width : nat) (s : string) : string :=
  let l := chars s in
  let pad := repeat "0"%char (width - length l) in
  match l with
  | c :: l' => if ceqb c "+"%char || ceqb c "-"%char
               then str (c :: pad ++ l') else str (pad ++ l)
  | [] => str pad
  end.

(** Python truthiness of a string. *)
Definition py_truthy_str (s : string) : bool :=
  match s with EmptyString => false | _ => true end.

(** ** A state and exception monad

    A Python function that mutates state and may raise is a [PyM S A]:
    from the state before the call it returns the outcome and the state
    after it.  On an exception the state keeps every mutation made before
    the raise, as Python does. *)

Inductive outcome (A : Type) : Type :=
| Ok (a : A)
| Exc (msg : string).
Arguments Ok {A} a.
Arguments Exc {A} msg.

Definition PyM (S A : Type) : Type := S -> outcome A * S.

Definition py_ret {S A} (a : A) : PyM S A := fun s => (Ok a, s).
Definition py_raise {S A} (msg : string) : PyM S A := fun s => (Exc msg, s).
Definition py_bind {S A B} (c : PyM S A) (k : A -> PyM S B) : PyM S B :=
  fun s => match c s with
           | (Ok a, s') => k a s'
           | (Exc e, s') => (Exc e, s')
           end.
Definition py_get {S} : PyM S S := fun s => (Ok s, s).
Definition py_put {S} (s : S) : PyM S unit := fun _ => (Ok tt, s).
Definition py_modify {S} (f : S -> S) : PyM S unit := fun s => (Ok tt, f s).

(** [try: c except Exception as e: h e]. *)
Definition py_try {S A} (c : PyM S A) (h : string -> PyM S A) : PyM S A :=
  fun s => match c s with
           | (Ok a, s') => (Ok a, s')
           | (Exc e, s') => h e s'
           end.

(** [try: c finally: f]: [f] runs after [c] whatever its outcome; an
    exception of [f] replaces the outcome of [c]. *)
Definition py_finally {S A B} (c : PyM S A) (f : PyM S B) : PyM S A :=
  fun s => match c s with
           | (r, s') => match f s' with
                        | (Ok _, s'') => (r, s'')
                        | (Exc e, s'') => (Exc e, s'')
                        end
           end.

Notation "'let!' x := c 'in' k" := (py_bind c (fun x => k))
  (at level 10, x name, c at level 100, k at level 200) : py_scope.
Notation "'do!' c 'in' k" := (py_bind c (fun _ => k))
  (at level 10, c at level 100, k at level 200) : py_scope.

(** A computation without state: a Python expression that may raise. *)
Definition res_bind {A B} (o : outcome A) (f : A -> outcome B) : outcome B :=
  match o with Ok a => f a | Exc e => Exc e end.

Definition res_map {A B} (f : A -> B) (o : outcome A) : outcome B :=
  match o with Ok a => Ok (f a) | Exc e => Exc e end.

Notation "'let?' x := o 'in' k" := (res_bind o (fun x => k))
  (at level 10, x name, o at level 100, k at level 200) : py_scope.

(** Raise or return what a pure expression gives. *)
Definition py_lift {S A} (o : outcome A) : PyM S A := fun s => (o, s).

(** Run a computation for its outcome or its final state. *)
Definition run_out {S A} (c : PyM S A) (s : S) : outcome A := fst (c s).
Definition run_st {S A} (c : PyM S A) (s : S) : S := snd (c s).

(** ** Tactics *)

Ltac inv H := inversion H; subst; clear H.

(** Destruct the outcome of a monadic step named in the goal. *)
Ltac py_step :=
  unfold py_bind, py_ret, py_raise, py_get, py_put, py_modify, py_try in *;
  simpl in *.

(** Close the boolean comparisons left by the character tables. *)
Ltac bool_lia :=
  repeat match goal with
  | |- context [Nat.leb ?a ?b] => destruct (Nat.leb_spec a b)
  | |- context [Nat.eqb ?a ?b] => destruct (Nat.eqb_spec a b)
  end; simpl; try lia; try reflexivity.

(** ** Shared lemmas *)

Lemma py_bind_ret {S A B} (a : A) (k : A -> PyM S B) (s : S) :
  py_bind (py_ret a) k s = k a s.
Proof. reflexivity. Qed.

Lemma py_bind_assoc {S A B C} (c : PyM S A) (k : A -> PyM S B) (h : B -> PyM S C) (s : S) :
  py_bind (py_bind c k) h s = py_bind c (fun a => py_bind (k a) h) s.
Proof. unfold py_bind. destruct (c s) as [[a|e] s']; reflexivity. Qed.

Lemma py_try_ok {S A} (c : PyM S A) h s a s' :
  c s = (Ok a, s') -> py_try c h s = (Ok a, s').
Proof. intros E. unfold py_try. now rewrite E. Qed.

Lemma py_try_exc {S A} (c : PyM S A) h s e s' :
  c s = (Exc e, s') -> py_try c h s = h e s'.
Proof. intros E. unfold py_try. now rewrite E. Qed.

Lemma chars_str (l : list ascii) : chars (str l) = l.
Proof. apply list_ascii_of_string_of_list_ascii. Qed.

Lemma str_chars (s : string) : str (chars s) = s.
Proof. apply string_of_list_ascii_of_string. Qed.

Lemma chars_app (a b : string) : chars (a ++ b) = chars a ++ chars b.
Proof. induction a as [|x a IH]; simpl; [reflexivity|]. unfold chars in *. now rewrite IH. Qed.

Lemma str_app (l1 l2 : list ascii) : str (l1 ++ l2) = (str l1 ++ str l2)%string.
Proof. induction l1 as [|x l1 IH]; simpl; [reflexivity|]. unfold str in *. now rewrite IH. Qed.

Lemma ceqb_eq (a b : ascii) : ceqb a b = true <-> a = b.
Proof. apply Ascii.eqb_eq. Qed.

Lemma ceqb_refl (a : ascii) : ceqb a a = true.
Proof. apply Ascii.eqb_refl. Qed.

Lemma drop_while_suffix {A} (p : A -> bool) (l : list A) :
  exists pre, l = pre ++ drop_while p l /\ Forall (fun x => p x = true) pre.
Proof.
  induction l as [|x l IH]; simpl.
  - exists []. auto.
  - destruct (p x) eqn:E.
    + destruct IH as [pre [Hl Hf]]. exists (x :: pre). simpl. rewrite <- Hl. auto.
    + exists []. auto.
Qed.

Lemma drop_while_head {A} (p : A -> bool) (l : list A) :
  match drop_while p l with [] => True | x :: _ => p x = false end.
Proof. induction l as [|x l IH]; simpl; auto. destruct (p x) eqn:E; simpl; auto. Qed.

Lemma lprefix_app (p l : list ascii) : lprefix p (p ++ l) = true.
Proof. induction p as [|a p IH]; simpl; auto. now rewrite ceqb_refl, IH. Qed.

Lemma lprefix_spec (p l : list ascii) : lprefix p l = true <-> exists r, l = p ++ r.
Proof.
  split.
  - revert l. induction p as [|a p IH]; intros [|b l]; simpl; try discriminate; eauto.
    intros H. apply andb_true_iff in H as [H1 H2]. apply ceqb_eq in H1. subst.
    destruct (IH l H2) as [r ->]. eauto.
  - intros [r ->]. apply lprefix_app.
Qed.

Lemma lcontains_spec (p l : list ascii) :
  lcontains p l = true <-> exists a b, l = a ++ p ++ b.
Proof.
  split.
  - induction l as [|c l IH]; simpl; intros H.
    + apply orb_true_iff in H as [H|H]; [|discriminate].
      apply lprefix_spec in H as [r Hr]. exists [], r. auto.
    + apply orb_true_iff in H as [H|H].
      * apply lprefix_spec in H as [r Hr]. exists [], r. auto.
      * destruct (IH H) as [a [b ->]]. exists (c :: a), b. reflexivity.
  - intros [a [b ->]]. induction a as [|c a IH]; simpl.
    + destruct (p ++ b) as [|x y] eqn:E; simpl; rewrite <- E, lprefix_app; reflexivity.
    + rewrite IH. apply orb_true_r.
Qed.

(** ** Frame reasoning: a state predicate that a computation keeps *)

Definition keeps {S A} (P : S -> Prop) (c : PyM S A) : Prop :=
  forall s, P s -> P (run_st c s).

Lemma keeps_ret {S A} (P : S -> Prop) (a : A) : keeps P (py_ret a).
Proof. intros s H. exact H. Qed.

Lemma keeps_raise {S A} (P : S -> Prop) msg : keeps P (@py_raise S A msg).
Proof. intros s H. exact H. Qed.

Lemma keeps_modify {S} (P : S -> Prop) (f : S -> S) :
  (forall s, P s -> P (f s)) -> keeps P (py_modify f).
Proof. intros Hf s H. exact (Hf s H). Qed.

Lemma keeps_bind {S A B} (P : S -> Prop) (c : PyM S A) (k : A -> PyM S B) :
  keeps P c -> (forall a, keeps P (k a)) -> keeps P (py_bind c k).
Proof.
  intros Hc Hk s H. unfold run_st, py_bind. specialize (Hc s H). unfold run_st in Hc.
  destruct (c s) as [[a|e] s']; [apply Hk|]; exact Hc.
Qed.

Lemma keeps_try {S A} (P : S -> Prop) (c : PyM S A) h :
  keeps P c -> (forall e, keeps P (h e)) -> keeps P (py_try c h).
Proof.
  intros Hc Hh s H. unfold run_st, py_try. specialize (Hc s H). unfold run_st in Hc.
  destruct (c s) as [[a|e] s']; [|apply Hh]; exact Hc.
Qed.

(** A computation whose handler never raises never raises. *)
Definition total {S A} (c : PyM S A) : Prop := forall s, exists a s', c s = (Ok a, s').

Lemma total_try {S A} (c : PyM S A) h : (forall e, total (h e)) -> total (py_try c h).
Proof.
  intros Hh s. unfold py_try. destruct (c s) as [[a|e] s']; [eauto|apply Hh].
Qed.

Lemma py_bind_ok {S A B} (c : PyM S A) (k : A -> PyM S B) s a s' :
  c s = (Ok a, s') -> py_bind c k s = k a s'.
Proof. intros E. unfold py_bind. now rewrite E. Qed.

Lemma py_bind_exc {S A B} (c : PyM S A) (k : A -> PyM S B) s e s' :
  c s = (Exc e, s') -> py_bind c k s = (Exc e, s').
Proof. intros E. unfold py_bind. now rewrite E. Qed.

Lemma py_bind_inv {S A B} (c : PyM S A) (k : A -> PyM S B) s r s' :
  py_bind c k s = (r, s') ->
  (exists a s1, c s = (Ok a, s1) /\ k a s1 = (r, s')) \/
  (exists e, c s = (Exc e, s') /\ r = Exc e).
Proof.
  unfold py_bind. destruct (c s) as [[a|e] s1]; intros H; [left; eauto|right; inversion H; eauto].
Qed.

Lemma py_try_inv {S A} (c : PyM S A) h s r s' :
  py_try c h s = (r, s') ->
  (exists a, c s = (Ok a, s') /\ r = Ok a) \/
  (exists e s1, c s = (Exc e, s1) /\ h e s1 = (r, s')).
Proof.
  unfold py_try. destruct (c s) as [[a|e] s1]; intros H; [left; inversion H; eauto|right; eauto].
Qed.

(** Split a run equation [c s = (r, s')] at its first bind or handler. *)
Ltac run_inv H :=
  first [ apply py_bind_inv in H as [(?a & ?s & ?Hc & H) | (?e & ?Hc & ?Hr)]
        | apply py_try_inv in H as [(?a & ?Hc & ?Hr) | (?e & ?s & ?Hc & H)] ].

Lemma keeps_lift {S A} (P : S -> Prop) (o : outcome A) : keeps P (py_lift o).
Proof. intros s H. exact H. Qed.

Lemma res_map_ok {A B} (f : A -> B) o b : res_map f o = Ok b -> exists a, o = Ok a /\ b = f a.
Proof. destruct o as [a|e]; simpl; intros H; inversion H; eauto. Qed.

Lemma keeps_bind_lift_ok {S A B} (P : S -> Prop) (a : A) (k : A -> PyM S B) :
  keeps P (k a) -> keeps P (py_bind (py_lift (Ok a)) k).
Proof. intros H. exact H. Qed.

Lemma keeps_bind_lift_exc {S A B} (P : S -> Prop) m (k : A -> PyM S B) :
  keeps P (py_bind (py_lift (Exc m)) k).
Proof. intros s H. exact H. Qed.

Create HintDb keeps.
#[export] Hint Resolve keeps_ret keeps_raise keeps_lift : keeps.

(** Prove [keeps P c] through the structure of [c]: binds, handlers,
    and the branches of the code's conditions. *)
Ltac keeps_solve :=
  repeat match goal with
  | |- keeps _ (py_bind (py_lift (Ok _)) _) => apply keeps_bind_lift_ok
  | |- keeps _ (py_bind (py_lift (Exc _)) _) => apply keeps_bind_lift_exc
  | |- keeps _ (py_bind _ _) => apply keeps_bind; [|intros ?]
  | |- keeps _ (py_try _ _) => apply keeps_try; [|intros ?]
  | |- keeps _ (match ?x with _ => _ end) => destruct x
  | |- keeps _ (if ?b then _ else _) => destruct b
  | |- keeps _ _ => solve [eauto with keeps]
  end.

Lemma py_in_spec (n h : string) :
  py_in n h = true <-> exists a b, chars h = a ++ chars n ++ b.
Proof. apply lcontains_spec. Qed.

Lemma py_in_app_l (n x y : string) : py_in n y = true -> py_in n (x ++ y) = true.
Proof.
  rewrite !py_in_spec, chars_app. intros (a & b & ->).
  exists (chars x ++ a), b. now rewrite <- app_assoc.
Qed.

Lemma py_in_app_r (n x y : string) : py_in n x = true -> py_in n (x ++ y) = true.
Proof.
  rewrite !py_in_spec, chars_app. intros (a & b & ->).
  exists a, (b ++ chars y). now rewrite <- !app_assoc.
Qed.

Lemma py_in_refl (n : string) : py_in n n = true.
Proof. apply py_in_spec. exists [], []. now rewrite app_nil_r. Qed.

(** A string that contains [n] is [a ++ n ++ b]. *)
Lemma py_in_split (n h : string) :
  py_in n h = true -> exists a b, h = (a ++ n ++ b)%string.
Proof.
  rewrite py_in_spec. intros (a & b & E). exists (str a), (str b).
  rewrite <- (str_chars h), E, !str_app, str_chars. reflexivity.
Qed.

#[export] Hint Resolve lprefix_app ceqb_refl : pyproxy.
#[export] Hint Rewrite chars_str str_chars : pyrw.

(** ** Finite enumerations

    A property of every Latin-1 character (or of every byte) that a
    boolean test decides is proved by running the test on all 256
    values. *)

Definition all_chars : list ascii := map ascii_of_nat (seq 0 256).

Lemma in_all_chars (c : ascii) : In c all_chars.
Proof.
  unfold all_chars. apply in_map_iff. exists (nat_of_ascii c). split.
  - apply ascii_nat_embedding.
  - apply in_seq. pose proof (nat_ascii_bounded c). lia.
Qed.

Lemma forall_chars (f : ascii -> bool) :
  forallb f all_chars = true -> forall c, f c = true.
Proof. intros H c. rewrite forallb_forall in H. apply H, in_all_chars. Qed.
