(* ===== verification/Cache.v ===== *)
(** * Cache: the shelve store of [src/cache_ma.py]

    The file [ma_cache.db] is a [gmap string entry]: one entry per key
    (a shelve is a dictionary), each entry the dictionary
    [{"timestamp": ..., "data": ...}] written by [save_in_cache].  The
    timestamp is stored as [datetime.now().isoformat()] and read back with
    [datetime.fromisoformat], which is exact to the microsecond, so the
    model keeps the instant itself ([Z] microseconds).

    [get_data_from_cache] and [cleanup_expired_cache] read the clock: the
    first once, the second once per entry of its loop, so the sweep takes
    a [clock : string -> Z] giving the reading made when each key is
    examined.  Every operation opens and closes the shelve; the proxy
    handles one request at a time, so each operation is one atomic step
    on the store.

    The abstract view of the store at a time [now] ([view]) is the map of
    unexpired values.  The theorems show that reading returns the view,
    that the lazy deletion in [get_data_from_cache] and the sweep do not
    change the view, that writing updates it, and the concrete facts of
    spec section 8: read after write, physical removal on expiry and the
    exact effect of the sweep. *)

From stdpp Require Import base gmap strings fin_maps list.
From Stdlib Require Import ZArith.
From S2P Require Import Prelude.

Open Scope Z_scope.

(** [DAYS_TO_EXPIRE = 15] and [timedelta(days = DAYS_TO_EXPIRE)]. *)
Definition DAYS_TO_EXPIRE : Z := 15.
Definition us_per_day : Z := 86400 * 1000000.
Definition ttl : Z := DAYS_TO_EXPIRE * us_per_day.

Section Store.
Context {V : Type}.

(** [{"timestamp": ..., "data": ...}] *)
Record entry := mk_entry { timestamp : Z; data : V }.

(** [datetime.now() - cache_key_date > timedelta(days = DAYS_TO_EXPIRE)] *)
Definition expired (now : Z) (e : entry) : bool := ttl <? now - timestamp e.

(** [save_in_cache(cache_key, cache_key_value)] at time [now]. *)
Definition save_in_cache (k : string) (v : V) (now : Z)
    (db : gmap string entry) : gmap string entry :=
  <[k := mk_entry now v]> db.

(** [delete_from_cache(cache_key)]: [if cache_key in cache: del cache[cache_key]]. *)
Definition delete_from_cache (k : string) (db : gmap string entry) : gmap string entry :=
  match db !! k with
  | Some _ => delete k db
  | None => db
  end.

(** [get_data_from_cache(cache_key)]: the value ([None] for Python's
    [None]) and the store after the call. *)
Definition get_data_from_cache (k : string) (now : Z)
    (db : gmap string entry) : option V * gmap string entry :=
  match db !! k with
  | None => (None, db)
  | Some item =>
      if expired now item then (None, delete_from_cache k db)
      else (Some (data item), db)
  end.

(** The first loop of [cleanup_expired_cache]: the keys whose entry is
    expired at the clock reading made for that key. *)
Definition keys_to_delete (clock : string -> Z) (db : gmap string entry) : list string :=
  map fst (List.filter (fun ki => expired (clock ki.1) ki.2) (map_to_list db)).

(** The second loop: [for cache_key in cache_keys_to_delete: del cache[cache_key]]. *)
Definition delete_all (ks : list string) (db : gmap string entry) : gmap string entry :=
  fold_left (fun acc k => delete k acc) ks db.

Definition cleanup_expired_cache (clock : string -> Z)
    (db : gmap string entry) : gmap string entry :=
  delete_all (keys_to_delete clock db) db.

(** The abstract view: the values a reader at time [now] can obtain. *)
Definition view (now : Z) (db : gmap string entry) : gmap string V :=
  omap (fun e => if expired now e then None else Some (data e)) db.

(** Every entry is unexpired at [now]. *)
Definition all_fresh (now : Z) (db : gmap string entry) : Prop :=
  forall k e, db !! k = Some e -> expired now e = false.

(** ** Lemmas *)

Lemma expired_false_iff now e : expired now e = false <-> now - timestamp e <= ttl.
Proof. unfold expired. rewrite Z.ltb_ge. reflexivity. Qed.

Lemma expired_true_iff now e : expired now e = true <-> ttl < now - timestamp e.
Proof. unfold expired. rewrite Z.ltb_lt. reflexivity. Qed.

Lemma delete_from_cache_delete k db : delete_from_cache k db = delete k db.
Proof.
  unfold delete_from_cache. destruct (db !! k) eqn:E; [done|].
  by rewrite delete_id.
Qed.

Lemma lookup_delete_all ks db j :
  delete_all ks db !! j = if decide (j ∈ ks) then None else db !! j.
Proof.
  unfold delete_all. revert db. induction ks as [|k ks IH]; intros db.
  - destruct (decide (j ∈ [])); [set_solver|done].
  - simpl. rewrite IH, lookup_delete.
    destruct (decide (j ∈ ks)) as [H1|H1], (decide (k = j)) as [H2|H2],
      (decide (j ∈ k :: ks)) as [H3|H3]; set_solver.
Qed.

Lemma elem_of_keys_to_delete clock db j :
  j ∈ keys_to_delete clock db <->
  exists e, db !! j = Some e /\ expired (clock j) e = true.
Proof.
  unfold keys_to_delete. rewrite list_elem_of_fmap. split.
  - intros [[k e] [-> Hin]]. apply list_elem_of_In, filter_In in Hin as [Hin He].
    apply list_elem_of_In, elem_of_map_to_list in Hin. eauto.
  - intros [e [Hl He]]. exists (j, e). split; [done|].
    apply list_elem_of_In, filter_In. split; [|done].
    by apply list_elem_of_In, elem_of_map_to_list.
Qed.

Lemma lookup_view now db k :
  view now db !! k = match db !! k with
                     | Some e => if expired now e then None else Some (data e)
                     | None => None
                     end.
Proof. unfold view. rewrite lookup_omap. by destruct (db !! k). Qed.

Lemma expired_mono t1 t2 e : t1 <= t2 -> expired t1 e = true -> expired t2 e = true.
Proof. rewrite !expired_true_iff. lia. Qed.

Lemma lookup_cleanup clock db j :
  cleanup_expired_cache clock db !! j =
  match db !! j with
  | Some e => if expired (clock j) e then None else Some e
  | None => None
  end.
Proof.
  unfold cleanup_expired_cache. rewrite lookup_delete_all.
  destruct (decide (j ∈ keys_to_delete clock db)) as [H|H];
    rewrite elem_of_keys_to_delete in H.
  - destruct H as [e [-> ->]]. done.
  - destruct (db !! j) as [e|] eqn:E; [|done].
    destruct (expired (clock j) e) eqn:X; [|done]. exfalso. eauto.
Qed.

(** A read of a live entry returns its data and leaves the store as it was. *)
Lemma get_live k now db e :
  db !! k = Some e -> expired now e = false ->
  get_data_from_cache k now db = (Some (data e), db).
Proof. intros Hk He. unfold get_data_from_cache. by rewrite Hk, He. Qed.

(** A read of an absent key returns [None] and leaves the store as it was. *)
Lemma get_absent k now db :
  db !! k = None -> get_data_from_cache k now db = (None, db).
Proof. intros Hk. unfold get_data_from_cache. by rewrite Hk. Qed.

(** A read changes the store at most at its own key, by deleting it. *)
Lemma get_other k now db v db' j :
  get_data_from_cache k now db = (v, db') -> j <> k -> db' !! j = db !! j.
Proof.
  unfold get_data_from_cache. intros H Hj.
  destruct (db !! k) as [e|]; [|by inversion H].
  destruct (expired now e); inversion H; subst;
    rewrite ?delete_from_cache_delete, ?lookup_delete_ne; congruence.
Qed.

(** ** Theorems *)

(** C1: read after write.  [get_data_from_cache(k)] right after
    [save_in_cache(k, v)] returns [v] and leaves the store unchanged, as
    long as at most [ttl] has elapsed since the write. *)
Theorem get_after_save k v t0 now db :
  now - t0 <= ttl ->
  get_data_from_cache k now (save_in_cache k v t0 db) = (Some v, save_in_cache k v t0 db).
Proof.
  intros Hle. unfold get_data_from_cache, save_in_cache.
  rewrite lookup_insert_eq. simpl.
  replace (expired now (mk_entry t0 v)) with false; [done|].
  symmetry. by apply expired_false_iff.
Qed.

(** C2: expiry.  When the entry stored under [k] is older than the TTL,
    [get_data_from_cache(k)] returns [None] and the entry is physically
    removed from the store, the other entries untouched. *)
Theorem get_expired_removes k e now db :
  db !! k = Some e -> ttl < now - timestamp e ->
  get_data_from_cache k now db = (None, delete k db) /\ delete k db !! k = None.
Proof.
  intros Hk Hold. unfold get_data_from_cache. rewrite Hk.
  apply expired_true_iff in Hold. rewrite Hold, delete_from_cache_delete.
  split; [done|]. apply lookup_delete_eq.
Qed.

(** C3: the two loops of [cleanup_expired_cache] keep exactly the
    entries that are unexpired at the reading of the clock made for their
    key: the result is the filter of the store by freshness. *)
Theorem cleanup_is_filter clock db :
  cleanup_expired_cache clock db =
  filter (fun ke => expired (clock ke.1) ke.2 = false) db.
Proof.
  apply map_eq. intros j. rewrite lookup_cleanup, map_lookup_filter.
  destruct (db !! j) as [e|]; simpl; [|done].
  by destruct (expired (clock j) e).
Qed.

(** C4: refinement of the abstract cache.  Reading returns the value of
    the abstract view, and the lazy deletion it may perform leaves the
    view unchanged; writing at time [now] sets the view at [k]; deleting
    removes [k] from the view. *)
Theorem cache_refines_view k v now db :
  fst (get_data_from_cache k now db) = view now db !! k /\
  view now (snd (get_data_from_cache k now db)) = view now db /\
  view now (save_in_cache k v now db) = <[k := v]> (view now db) /\
  view now (delete_from_cache k db) = delete k (view now db).
Proof.
  split; [|split; [|split]].
  - unfold get_data_from_cache. rewrite lookup_view.
    destruct (db !! k) as [e|]; [|done]. by destruct (expired now e).
  - apply map_eq. intros j. unfold get_data_from_cache.
    destruct (db !! k) as [e|] eqn:E; [|done].
    destruct (expired now e) eqn:X; [|done]. simpl.
    rewrite !lookup_view, delete_from_cache_delete, lookup_delete.
    case_decide; subst; [by rewrite E, X|done].
  - apply map_eq. intros j. unfold save_in_cache.
    rewrite lookup_view, !lookup_insert, lookup_view.
    case_decide; [|done]. simpl.
    replace (expired now (mk_entry now v)) with false; [done|].
    symmetry. apply expired_false_iff. simpl. unfold ttl, us_per_day, DAYS_TO_EXPIRE. lia.
  - apply map_eq. intros j.
    rewrite lookup_view, delete_from_cache_delete, !lookup_delete, lookup_view.
    by case_decide.
Qed.

(** C5: the sweep is invisible to readers.  If every clock reading of
    the sweep precedes [now], the view at [now] after
    [cleanup_expired_cache] is the view before it. *)
Theorem cleanup_preserves_view clock now db :
  (forall k, clock k <= now) ->
  view now (cleanup_expired_cache clock db) = view now db.
Proof.
  intros Hc. apply map_eq. intros j.
  rewrite !lookup_view, lookup_cleanup.
  destruct (db !! j) as [e|]; [|done].
  destruct (expired (clock j) e) eqn:X; [|done].
  rewrite (expired_mono (clock j) now e (Hc j) X). done.
Qed.

(** C6: freshness invariant.  After a sweep whose readings are all at
    [now], every entry is unexpired at [now]; a write at [now], a read at
    [now] and a delete preserve that invariant. *)
Theorem all_fresh_invariant now k v db :
  all_fresh now (cleanup_expired_cache (fun _ => now) db) /\
  (all_fresh now db ->
   all_fresh now (save_in_cache k v now db) /\
   all_fresh now (snd (get_data_from_cache k now db)) /\
   all_fresh now (delete_from_cache k db)).
Proof.
  split.
  - intros j e. rewrite lookup_cleanup.
    destruct (db !! j) as [e'|]; [|done].
    destruct (expired now e') eqn:X; [done|]. by intros [= <-].
  - intros Hf. split; [|split].
    + intros j e. unfold save_in_cache. rewrite lookup_insert.
      case_decide; [|apply Hf]. intros [= <-].
      apply expired_false_iff. simpl. unfold ttl, us_per_day, DAYS_TO_EXPIRE. lia.
    + unfold get_data_from_cache. destruct (db !! k) as [e|]; [|done].
      destruct (expired now e); [|done]. simpl.
      intros j e'. rewrite delete_from_cache_delete, lookup_delete.
      case_decide; [done|apply Hf].
    + intros j e. rewrite delete_from_cache_delete, lookup_delete.
      case_decide; [done|apply Hf].
Qed.

End Store.

Arguments entry : clear implicits.

#[export] Hint Resolve expired_mono : pyproxy.
#[export] Hint Rewrite @delete_from_cache_delete @lookup_delete_all @lookup_view : pyrw.

(** ** Witnesses on a concrete store *)

Definition db_example : gmap string (entry string) :=
  <["album:u1" := mk_entry 0 "old"]> (<["band:u2" := mk_entry (ttl + 5) "fresh"]> ∅).

Lemma get_after_save_witness :
  (ttl + 5) - ttl <= ttl /\
  get_data_from_cache "search:a|b" (ttl + 5) (save_in_cache "search:a|b" "rows" ttl db_example)
  = (Some "rows", save_in_cache "search:a|b" "rows" ttl db_example).
Proof.
  split; [unfold ttl, us_per_day, DAYS_TO_EXPIRE; lia|].
  apply get_after_save. unfold ttl, us_per_day, DAYS_TO_EXPIRE; lia.
Defined.

Lemma get_expired_removes_witness :
  db_example !! "album:u1" = Some (mk_entry 0 "old") /\
  get_data_from_cache "album:u1" (ttl + 1) db_example = (None, delete "album:u1" db_example) /\
  delete "album:u1" db_example !! "album:u1" = None.
Proof.
  split; [reflexivity|].
  apply (get_expired_removes "album:u1" (mk_entry 0 "old")); [reflexivity|].
  simpl. lia.
Defined.

Lemma cleanup_preserves_view_witness :
  view (ttl + 5) (cleanup_expired_cache (fun _ => ttl + 1) db_example) = view (ttl + 5) db_example.
Proof. apply cleanup_preserves_view. intros _. lia. Defined.

Lemma all_fresh_invariant_witness :
  all_fresh (ttl + 5) (cleanup_expired_cache (fun _ => ttl + 5) db_example) /\
  (all_fresh (ttl + 5) db_example ->
   all_fresh (ttl + 5) (save_in_cache "k" "v" (ttl + 5) db_example) /\
   all_fresh (ttl + 5) (snd (get_data_from_cache "k" (ttl + 5) db_example)) /\
   all_fresh (ttl + 5) (delete_from_cache "k" db_example)).
Proof. apply all_fresh_invariant. Defined.
