(* ===== verification/Session.v ===== *)
(** * Session: [PlaywrightSessionManager] of [src/playwright_session.py]

    The class attributes [_playwright], [_browser], [_context], [_page],
    [_last_used] and [_monitor_thread] are fields of [world]; handles are
    numbers drawn from [next_id].  Besides the class attributes, [world]
    records what the engine and the interpreter hold: the monitor loops
    that are running ([monitors], one thread id per loop), the engine
    objects whose close/stop succeeded ([closed]) and the pages on which a
    response listener was registered ([listeners]).

    Engine calls may raise.  An [oracle] says, for one operation, which
    engine calls raise; an operation is a [PyM world] computation, so the
    assignments made before a raise persist, as in Python.

    [start], [get_page], [is_active], [close], [_start_monitor] and
    [_handle_route] are translated line by line; the body of the monitor
    loop ([monitor_tick]) is one iteration of [while True] after its
    [time.sleep(60)].  [sys_step] interleaves whole operations called by
    request handlers with monitor iterations; [start_begin] and
    [start_resume] are [start()] cut where it blocks in [launch()], for
    the monitor iteration that runs there ([monitor_race_half_open]). *)

From Stdlib Require Import String List Bool ZArith Lia.
From S2P Require Import Prelude.
Import ListNotations.
Open Scope Z_scope.
Open Scope py_scope.

(** [_inactivity_limit = 900] seconds, in microseconds. *)
Definition inactivity_limit : Z := 900 * 1000000.

Record world := mk_world {
  pw : option nat;               (** [_playwright] *)
  browser : option nat;          (** [_browser] *)
  context : option nat;          (** [_context] *)
  page : option nat;             (** [_page] *)
  last_used : Z;                 (** [_last_used] *)
  monitor_thread : option nat;   (** [_monitor_thread] *)
  next_id : nat;
  monitors : list nat;
  closed : list nat;
  listeners : list nat
}.

(** The engine calls that can raise. *)
Inductive ecall :=
| EStart | ELaunch | ENewContext | ESetTimeout | ERoute | ENewPage
| ECloseContext | ECloseBrowser | EStop | EGoto.

Definition oracle := ecall -> bool.

(** No engine call raises. *)
Definition no_fail : oracle := fun _ => false.

Definition SM := PyM world.

(** ** Field updates *)

Definition set_pw (x : option nat) (w : world) : world :=
  mk_world x w.(browser) w.(context) w.(page) w.(last_used) w.(monitor_thread)
    w.(next_id) w.(monitors) w.(closed) w.(listeners).
Definition set_browser (x : option nat) (w : world) : world :=
  mk_world w.(pw) x w.(context) w.(page) w.(last_used) w.(monitor_thread)
    w.(next_id) w.(monitors) w.(closed) w.(listeners).
Definition set_context (x : option nat) (w : world) : world :=
  mk_world w.(pw) w.(browser) x w.(page) w.(last_used) w.(monitor_thread)
    w.(next_id) w.(monitors) w.(closed) w.(listeners).
Definition set_page (x : option nat) (w : world) : world :=
  mk_world w.(pw) w.(browser) w.(context) x w.(last_used) w.(monitor_thread)
    w.(next_id) w.(monitors) w.(closed) w.(listeners).
Definition set_last_used (t : Z) (w : world) : world :=
  mk_world w.(pw) w.(browser) w.(context) w.(page) t w.(monitor_thread)
    w.(next_id) w.(monitors) w.(closed) w.(listeners).
Definition set_monitor_thread (x : option nat) (w : world) : world :=
  mk_world w.(pw) w.(browser) w.(context) w.(page) w.(last_used) x
    w.(next_id) w.(monitors) w.(closed) w.(listeners).
Definition set_monitors (l : list nat) (w : world) : world :=
  mk_world w.(pw) w.(browser) w.(context) w.(page) w.(last_used) w.(monitor_thread)
    w.(next_id) l w.(closed) w.(listeners).
Definition set_listeners (l : list nat) (w : world) : world :=
  mk_world w.(pw) w.(browser) w.(context) w.(page) w.(last_used) w.(monitor_thread)
    w.(next_id) w.(monitors) w.(closed) l.

(** ** Engine primitives *)

(** A call that creates an engine object: raises, or returns a fresh handle. *)
Definition engine_new (o : oracle) (c : ecall) : SM nat :=
  fun w => if o c then (Exc "engine error", w)
           else (Ok w.(next_id),
                 mk_world w.(pw) w.(browser) w.(context) w.(page) w.(last_used)
                   w.(monitor_thread) (S w.(next_id)) w.(monitors) w.(closed)
                   w.(listeners)).

(** A call on an existing object that changes nothing we observe. *)
Definition engine_call (o : oracle) (c : ecall) : SM unit :=
  fun w => if o c then (Exc "engine error", w) else (Ok tt, w).

(** [obj.close()] / [obj.stop()]: raises, or records [h] as closed. *)
Definition engine_close (o : oracle) (c : ecall) (h : nat) : SM unit :=
  fun w => if o c then (Exc "engine error", w)
           else (Ok tt,
                 mk_world w.(pw) w.(browser) w.(context) w.(page) w.(last_used)
                   w.(monitor_thread) w.(next_id) w.(monitors) (h :: w.(closed))
                   w.(listeners)).

(** Calling a method on Python's [None]. *)
Definition attribute_error {A} : SM A := py_raise "AttributeError: 'NoneType'".

(** ** The class methods *)

(** [_start_monitor]: spawn a monitor loop unless [_monitor_thread] is set. *)
Definition _start_monitor : SM unit :=
  fun w => match w.(monitor_thread) with
           | Some _ => (Ok tt, w)
           | None =>
               let t := w.(next_id) in
               (Ok tt,
                mk_world w.(pw) w.(browser) w.(context) w.(page) w.(last_used)
                  (Some t) (S t) (t :: w.(monitors)) w.(closed) w.(listeners))
           end.

(** [start()]: returns [cls._page] (Python [None] is [None]). *)
Definition start (o : oracle) (now : Z) : SM (option nat) :=
  let! w := py_get in
  do! (match w.(pw) with
       | None =>
           let! p := engine_new o EStart in
           do! py_modify (set_pw (Some p)) in
           let! b := engine_new o ELaunch in
           do! py_modify (set_browser (Some b)) in
           let! c := engine_new o ENewContext in
           do! py_modify (set_context (Some c)) in
           do! engine_call o ESetTimeout in
           do! engine_call o ERoute in
           let! pg := engine_new o ENewPage in
           do! py_modify (set_page (Some pg)) in
           _start_monitor
       | Some _ => py_ret tt
       end) in
  do! py_modify (set_last_used now) in
  let! w' := py_get in
  py_ret w'.(page).

(** Reading [cls.<handle>] to call a method on it. *)
Definition need (h : option nat) : SM unit :=
  match h with Some _ => py_ret tt | None => attribute_error end.

(** [start()] as the thread running it executes it when [_playwright] is
    [None], cut where it blocks inside [launch()]: [start_begin] runs
    line 18 and the read of [cls._playwright] on line 19, [start_resume]
    the rest, each later line reading the class attribute it calls a
    method on.  Another thread may run between the two. *)
Definition start_begin (o : oracle) : SM unit :=
  let! p := engine_new o EStart in
  do! py_modify (set_pw (Some p)) in
  let! w := py_get in
  need w.(pw).

Definition start_resume (o : oracle) (now : Z) : SM (option nat) :=
  let! b := engine_new o ELaunch in
  do! py_modify (set_browser (Some b)) in
  let! w := py_get in do! need w.(browser) in
  let! c := engine_new o ENewContext in
  do! py_modify (set_context (Some c)) in
  let! w := py_get in do! need w.(context) in
  do! engine_call o ESetTimeout in
  let! w := py_get in do! need w.(context) in
  do! engine_call o ERoute in
  let! w := py_get in do! need w.(context) in
  let! pg := engine_new o ENewPage in
  do! py_modify (set_page (Some pg)) in
  do! _start_monitor in
  do! py_modify (set_last_used now) in
  let! w' := py_get in
  py_ret w'.(page).

(** [is_active()]: [_playwright], [_browser] and [_context] are set. *)
Definition is_active (w : world) : bool :=
  match w.(pw), w.(browser), w.(context) with
  | Some _, Some _, Some _ => true
  | _, _, _ => false
  end.

(** [get_page(new)]. *)
Definition get_page (o : oracle) (now : Z) (new : bool) : SM (option nat) :=
  let! w := py_get in
  do! (if is_active w then py_ret tt else do! start o now in py_ret tt) in
  do! py_modify (set_last_used now) in
  let! w' := py_get in
  if new then
    match w'.(context) with
    | Some _ => let! pg := engine_new o ENewPage in py_ret (Some pg)
    | None => attribute_error
    end
  else py_ret w'.(page).

(** One [try: if h: h.close() except Exception: print(...)] block. *)
Definition close_step (o : oracle) (c : ecall) (h : option nat) : SM unit :=
  match h with
  | Some x => py_try (engine_close o c x) (fun _ => py_ret tt)
  | None => py_ret tt
  end.

(** [close()]. *)
Definition close (o : oracle) : SM unit :=
  let! w := py_get in
  do! close_step o ECloseContext w.(context) in
  do! close_step o ECloseBrowser w.(browser) in
  do! close_step o EStop w.(pw) in
  do! py_modify (set_pw None) in
  do! py_modify (set_browser None) in
  do! py_modify (set_context None) in
  do! py_modify (set_page None) in
  py_modify (set_monitor_thread None).

(** One iteration of the monitor loop of thread [t], after its
    [time.sleep(60)]: [if cls._playwright and time.time() - cls._last_used
    > cls._inactivity_limit: cls.close(); break].  A thread that has left
    its loop does nothing. *)
Definition monitor_tick (o : oracle) (now : Z) (t : nat) : SM unit :=
  let! w := py_get in
  if existsb (Nat.eqb t) w.(monitors) then
    match w.(pw) with
    | Some _ =>
        if inactivity_limit <? now - w.(last_used)
        then do! close o in
             py_modify (fun w' => set_monitors (remove Nat.eq_dec t w'.(monitors)) w')
        else py_ret tt
    | None => py_ret tt
    end
  else py_ret tt.

(** [_handle_route(route, request)]: abort or continue one request. *)
Inductive route_action := Abort | Continue.

Definition blocked_types : list string := ["image"; "stylesheet"; "font"]%string.

Definition _handle_route (url resource_type : string) : route_action :=
  if existsb (String.eqb resource_type) blocked_types
     || py_in "google-analytics" url || py_in "doubleclick" url
  then Abort else Continue.

(** The class attributes before the first call ([_last_used = time.time()]
    at import). *)
Definition init_world (t0 : Z) : world :=
  mk_world None None None None t0 None 0 [] [] [].

(** ** Interleaving of requests and monitor loops *)

Inductive sys_step (o : oracle) : world -> world -> Prop :=
| step_start now w : sys_step o w (run_st (start o now) w)
| step_get_page now new w : sys_step o w (run_st (get_page o now new) w)
| step_close w : sys_step o w (run_st (close o) w)
| step_monitor now t w : In t w.(monitors) -> sys_step o w (run_st (monitor_tick o now t) w).

Inductive reachable (o : oracle) (t0 : Z) : world -> Prop :=
| reach_init : reachable o t0 (init_world t0)
| reach_step w w' : reachable o t0 w -> sys_step o w w' -> reachable o t0 w'.

(** All four handles are present, or all are absent. *)
Definition all_or_nothing (w : world) : Prop :=
  (exists a b c d, w.(pw) = Some a /\ w.(browser) = Some b /\
                   w.(context) = Some c /\ w.(page) = Some d) \/
  (w.(pw) = None /\ w.(browser) = None /\ w.(context) = None /\ w.(page) = None).

(** The [closed] list after one [try: if h: h.close()] block: [h] is
    added when it is set and its call does not raise. *)
Definition closed_by (o : oracle) (c : ecall) (h : option nat) (l : list nat) : list nat :=
  match h with
  | Some x => if o c then l else x :: l
  | None => l
  end.

(** ** Lemmas on the methods *)

Ltac sm_unfold :=
  cbv [run_st run_out py_bind py_ret py_raise py_get py_put py_modify py_try
       close_step engine_close engine_call engine_new _start_monitor
       set_pw set_browser set_context set_page set_last_used set_monitor_thread
       set_monitors set_listeners attribute_error no_fail
       start get_page close is_active need start_begin start_resume
       pw browser context page last_used monitor_thread next_id monitors closed
       listeners] in *.

Lemma start_reuse o now w x :
  w.(pw) = Some x -> start o now w = (Ok w.(page), set_last_used now w).
Proof. intros H. destruct w; simpl in *. subst. reflexivity. Qed.

Lemma start_fresh now w :
  w.(pw) = None -> w.(monitor_thread) = None ->
  start no_fail now w =
  (Ok (Some (w.(next_id) + 3)%nat),
   mk_world (Some w.(next_id)) (Some (w.(next_id) + 1)%nat) (Some (w.(next_id) + 2)%nat)
     (Some (w.(next_id) + 3)%nat) now (Some (w.(next_id) + 4)%nat) (w.(next_id) + 5)%nat
     ((w.(next_id) + 4)%nat :: w.(monitors)) w.(closed) w.(listeners)).
Proof.
  intros H1 H2. destruct w as [p b c pg lu mt n ms cl ls]; simpl in *. subst.
  rewrite ?Nat.add_succ_r, ?Nat.add_0_r. reflexivity.
Qed.

Lemma close_state o w :
  exists cl, run_st (close o) w =
    mk_world None None None None w.(last_used) None w.(next_id) w.(monitors)
      cl w.(listeners).
Proof.
  destruct w as [p b c pg lu mt n ms cl ls]; unfold close; sm_unfold.
  destruct c as [c|], b as [b|], p as [p|]; cbn;
    repeat match goal with |- context [o ?e] => destruct (o e) end; cbn;
    eexists; reflexivity.
Qed.

Lemma close_ok o w : run_out (close o) w = Ok tt.
Proof.
  destruct w as [p b c pg lu mt n ms cl ls]; unfold close; sm_unfold.
  destruct c as [c|], b as [b|], p as [p|]; cbn;
    repeat match goal with |- context [o ?e] => destruct (o e) end; reflexivity.
Qed.

Lemma is_active_closed w :
  w.(pw) = None -> is_active w = false.
Proof. intros H. unfold is_active. now rewrite H. Qed.

Ltac oracle_cases o :=
  repeat match goal with
  | |- context [o ?e] => destruct (o e)
  | H : context [o ?e] |- _ => destruct (o e)
  end.

Lemma start_ok_active o now w p w1 :
  start o now w = (Ok p, w1) ->
  (exists x, w1.(pw) = Some x) /\ w1.(page) = p /\
  (w.(pw) = None -> is_active w1 = true /\ exists y, w1.(monitor_thread) = Some y).
Proof.
  destruct w as [[x|] b c pg lu mt n ms cl ls].
  - rewrite (start_reuse _ _ _ x) by reflexivity. intros [= <- <-]. simpl.
    split; [eauto|split; [reflexivity|discriminate]].
  - unfold start; sm_unfold. destruct mt; oracle_cases o; cbv beta iota; intros [= <- <-];
      repeat split; eauto; discriminate.
Qed.

Ltac aon_solve :=
  first [ left; do 4 eexists; repeat split; first [eassumption | reflexivity]
        | right; repeat split; first [assumption | reflexivity] ].

Lemma start_no_fail_aon now w :
  all_or_nothing w -> all_or_nothing (run_st (start no_fail now) w).
Proof.
  intros [(a & b & c & d & Ha & Hb & Hc & Hd) | (Ha & Hb & Hc & Hd)].
  - unfold run_st. rewrite (start_reuse _ _ _ a Ha). destruct w; simpl in *; aon_solve.
  - destruct w as [p b c pg lu mt n ms cl ls]; simpl in *; subst.
    unfold start; sm_unfold. destruct mt; cbn; aon_solve.
Qed.

Lemma get_page_no_fail_aon now new w :
  all_or_nothing w -> all_or_nothing (run_st (get_page no_fail now new) w).
Proof.
  intros H. pose proof (start_no_fail_aon now w H) as H'.
  destruct H as [(a & b & c & d & Ha & Hb & Hc & Hd) | (Ha & Hb & Hc & Hd)].
  - destruct w as [p b' c' pg lu mt n ms cl ls]; simpl in *; subst.
    unfold get_page; sm_unfold. destruct new; cbn; aon_solve.
  - destruct w as [p b' c' pg lu mt n ms cl ls]; simpl in *; subst.
    unfold get_page, start; sm_unfold. destruct mt, new; cbn; aon_solve.
Qed.

Lemma close_aon o w : all_or_nothing (run_st (close o) w).
Proof. destruct (close_state o w) as [cl ->]. right. simpl. auto. Qed.

Lemma monitor_tick_spec o now t w :
  monitor_tick o now t w =
  if existsb (Nat.eqb t) w.(monitors) && (match w.(pw) with Some _ => true | None => false end)
     && (inactivity_limit <? now - w.(last_used))
  then (Ok tt, let w' := run_st (close o) w in set_monitors (remove Nat.eq_dec t w'.(monitors)) w')
  else (Ok tt, w).
Proof.
  unfold monitor_tick.
  cbv [py_bind py_get py_ret py_modify run_st].
  destruct (existsb (Nat.eqb t) (monitors w)); [|reflexivity].
  destruct (pw w); [|reflexivity].
  destruct (inactivity_limit <? now - last_used w); [|reflexivity].
  pose proof (close_ok o w) as Hok. unfold run_out in Hok.
  destruct (close o w) as [[] w']; [reflexivity|discriminate].
Qed.

Lemma monitor_tick_aon o now t w :
  all_or_nothing w -> all_or_nothing (run_st (monitor_tick o now t) w).
Proof.
  intros H. unfold run_st at 1. rewrite monitor_tick_spec.
  destruct (_ && _ && _); [|exact H].
  destruct (close_state o w) as [cl ->]. right. simpl. auto.
Qed.

(** ** Theorems *)

(** C7: [start()] called on a session it already started returns the same
    page and makes no engine call: the only change is [_last_used]. *)
Theorem start_idempotent o o' t1 t2 w p w1 :
  start o t1 w = (Ok p, w1) ->
  start o' t2 w1 = (Ok p, set_last_used t2 w1).
Proof.
  intros H. destruct (start_ok_active _ _ _ _ _ H) as [[x Hx] [Hp _]].
  rewrite (start_reuse _ _ _ x Hx). now rewrite Hp.
Qed.

(** C8: [close()] never raises, whatever engine call fails, and leaves
    every handle and [_monitor_thread] at [None], so [is_active()] is
    false. *)
Theorem close_resets o w :
  run_out (close o) w = Ok tt /\
  let w' := run_st (close o) w in
  w'.(pw) = None /\ w'.(browser) = None /\ w'.(context) = None /\
  w'.(page) = None /\ w'.(monitor_thread) = None /\ is_active w' = false.
Proof.
  split; [apply close_ok|]. destruct (close_state o w) as [cl ->]. simpl. auto 7.
Qed.

(** After [close()], a [start()] with no engine failure creates a new
    session from fresh handles and a new monitor loop. *)
Theorem close_then_start_fresh o now w :
  let w1 := run_st (close o) w in
  let n := w1.(next_id) in
  exists w2, start no_fail now w1 = (Ok (Some (n + 3)%nat), w2) /\
    w2.(pw) = Some n /\ w2.(browser) = Some (n + 1)%nat /\
    w2.(context) = Some (n + 2)%nat /\ is_active w2 = true /\
    w2.(monitors) = ((n + 4)%nat :: w1.(monitors)).
Proof.
  destruct (close_state o w) as [cl Hc]. simpl. rewrite Hc.
  rewrite start_fresh by reflexivity. simpl. eexists; repeat split.
Qed.

(** C10: the three teardown steps of [close()] are isolated: the
    objects it records as closed are, for every oracle, exactly the set
    handles whose own close/stop call succeeds; a failing step changes
    nothing for the steps after it. *)
Theorem close_steps_isolated o w :
  (run_st (close o) w).(closed) =
  closed_by o EStop w.(pw) (closed_by o ECloseBrowser w.(browser)
    (closed_by o ECloseContext w.(context) w.(closed))).
Proof.
  destruct w as [p b c pg lu mt n ms cl ls]; unfold close, closed_by; sm_unfold.
  destruct c, b, p; cbn; oracle_cases o; reflexivity.
Qed.

(** C11: the monitor loop closes an idle session by itself: an iteration of
    a running loop that finds the session idle for longer than
    [_inactivity_limit] closes it and leaves the loop. *)
Theorem monitor_closes_idle o now t w x :
  In t w.(monitors) -> w.(pw) = Some x ->
  inactivity_limit < now - w.(last_used) ->
  let w' := run_st (monitor_tick o now t) w in
  is_active w' = false /\ w'.(pw) = None /\ w'.(page) = None /\
  ~ In t w'.(monitors).
Proof.
  intros Hin Hp Hidle. unfold run_st at 1. rewrite monitor_tick_spec.
  replace (existsb (Nat.eqb t) (monitors w)) with true
    by (symmetry; apply existsb_exists; exists t; split; [auto|apply Nat.eqb_refl]).
  rewrite Hp. replace (inactivity_limit <? now - last_used w) with true
    by (symmetry; apply Z.ltb_lt; lia).
  destruct (close_state o w) as [cl ->]. simpl. repeat split; auto. apply remove_In.
Qed.

(** When each method runs as one atomic step ([sys_step]), every state
    reachable without engine failures has its four handles all present
    or all absent.  The monitor is a thread of its own, though:
    [monitor_race_half_open] shows what this atomicity hides. *)
Theorem reachable_all_or_nothing t0 w :
  reachable no_fail t0 w -> all_or_nothing w.
Proof.
  induction 1 as [|w w' _ IH Hs].
  - right. simpl. auto.
  - inv Hs; eauto using start_no_fail_aon, get_page_no_fail_aon, close_aon,
      monitor_tick_aon.
Qed.

(** Run to its end with no other thread in between, the two halves are
    [start()]. *)
Lemma start_split o now w :
  w.(pw) = None -> start o now w = py_bind (start_begin o) (fun _ => start_resume o now) w.
Proof.
  destruct w as [p b c pg lu mt n ms cl ls]; simpl; intros ->.
  unfold start, start_begin, start_resume; sm_unfold.
  destruct mt; oracle_cases o; reflexivity.
Qed.

(** C12 (finding): the handles are not all present or all absent once
    the monitor thread runs inside [start()].  A request starts a session
    after more than [_inactivity_limit] of idleness while a monitor loop
    left over from an earlier session is still running (C14); while
    [start()] is blocked in [launch()], the loop sees [_playwright] set
    and [_last_used] old and calls [close()], which stops the new
    Playwright object and resets every handle.  With a healthy engine,
    [start()] then completes and returns a page, but [_playwright] is
    [None] while [_browser], [_context] and [_page] are set: the session
    is half open, [is_active()] is false, and the browser left running
    belongs to a stopped Playwright. *)
Theorem monitor_race_half_open o now now' t w :
  w.(pw) = None -> w.(browser) = None -> w.(context) = None ->
  In t w.(monitors) -> inactivity_limit < now' - w.(last_used) ->
  (forall c, o c = false) ->
  let w2 := run_st (monitor_tick o now' t) (run_st (start_begin o) w) in
  let w3 := run_st (start_resume o now) w2 in
  (exists pg, run_out (start_resume o now) w2 = Ok (Some pg) /\ w3.(page) = Some pg) /\
  w3.(pw) = None /\ w3.(browser) <> None /\ w3.(context) <> None /\
  ~ all_or_nothing w3 /\ is_active w3 = false /\ In w.(next_id) w3.(closed).
Proof.
  destruct w as [p b c pg lu mt n ms cl ls]; simpl; intros -> -> -> Hin Hidle Ho.
  assert (Ht : existsb (Nat.eqb t) ms = true)
    by (apply existsb_exists; exists t; split; [auto|apply Nat.eqb_refl]).
  assert (Hl : (inactivity_limit <? now' - lu) = true) by (apply Z.ltb_lt; lia).
  unfold run_st at 2, run_st at 3. rewrite monitor_tick_spec.
  unfold inactivity_limit in Hl. cbn in Hl. unfold start_begin; sm_unfold. rewrite !Ho. cbn. rewrite Ht, Hl.
  unfold close, start_resume; sm_unfold. rewrite !Ho. cbn.
  split; [eexists; split; reflexivity|].
  repeat split; try discriminate; [|left; reflexivity].
  intros [(a & b' & c' & d & Ha & _)|(_ & Hb & _)]; discriminate.
Qed.

(** One explicit close after a session was started, as the fetch
    operations do on every exception. *)
Definition restart_cycle (now : Z) (w : world) : world :=
  run_st (close no_fail) (run_st (start no_fail now) w).

Lemma restart_cycle_closed now w :
  w.(pw) = None -> w.(monitor_thread) = None ->
  (restart_cycle now w).(pw) = None /\ (restart_cycle now w).(monitor_thread) = None /\
  length (restart_cycle now w).(monitors) = S (length w.(monitors)).
Proof.
  intros H1 H2. unfold restart_cycle.
  destruct (close_state no_fail (run_st (start no_fail now) w)) as [cl ->].
  cbn [pw monitor_thread monitors]. split; [reflexivity|split; [reflexivity|]].
  unfold run_st at 1. rewrite (start_fresh now w H1 H2). reflexivity.
Qed.

(** C13 (finding): when launching the browser raises inside [start()],
    [_playwright] stays set while [_browser] is [None].  The session is
    half open: [is_active()] is false, and the next [get_page()] calls
    [start()], which sees [_playwright] set, reuses nothing and hands back
    [_page = None] to the caller, still half open. *)
Theorem failed_launch_half_open o now w :
  w.(pw) = None -> w.(browser) = None -> w.(page) = None ->
  o EStart = false -> o ELaunch = true ->
  let w1 := run_st (start o now) w in
  (exists e, run_out (start o now) w = Exc e) /\
  w1.(pw) = Some w.(next_id) /\ w1.(browser) = None /\ is_active w1 = false /\
  forall o' t,
    run_out (get_page o' t false) w1 = Ok None /\
    is_active (run_st (get_page o' t false) w1) = false.
Proof.
  intros Hp Hb Hpg HS HL.
  destruct w as [p b c pg lu mt n ms cl ls]; simpl in *; subst.
  unfold start; sm_unfold. rewrite HS, HL. cbn.
  split; [eauto|]. repeat split; auto.
Qed.

(** C14 (finding): [close()] sets [_monitor_thread] to [None] but does not
    stop the running monitor loop, so the next [start()] spawns another
    one.  After [n] start/close cycles and a last [start()], [n + 1]
    monitor loops are running for one session. *)
Theorem monitor_loops_accumulate t0 now n :
  length (run_st (start no_fail now)
            (Nat.iter n (restart_cycle now) (init_world t0))).(monitors) = S n.
Proof.
  assert (Hinv : forall k, let w := Nat.iter k (restart_cycle now) (init_world t0) in
            w.(pw) = None /\ w.(monitor_thread) = None /\ length w.(monitors) = k).
  { induction k as [|k IH].
    - repeat split; reflexivity.
    - destruct IH as (H1 & H2 & H3).
      destruct (restart_cycle_closed now _ H1 H2) as (G1 & G2 & G3).
      cbv zeta. rewrite Nat.iter_succ, G3, H3. auto. }
  destruct (Hinv n) as (H1 & H2 & H3).
  unfold run_st. rewrite start_fresh by assumption. simpl. now rewrite H3.
Qed.

(** ** Witnesses *)

Lemma start_idempotent_witness :
  let w1 := run_st (start no_fail 1) (init_world 0) in
  start no_fail 1 (init_world 0) = (Ok (Some 3%nat), w1) /\
  start no_fail 2 w1 = (Ok (Some 3%nat), set_last_used 2 w1).
Proof.
  intros w1. assert (H : start no_fail 1 (init_world 0) = (Ok (Some 3%nat), w1))
    by (vm_compute; reflexivity).
  split; [exact H|]. exact (start_idempotent no_fail no_fail 1 2 (init_world 0) _ _ H).
Defined.

Definition full_world : world :=
  mk_world (Some 0%nat) (Some 1%nat) (Some 2%nat) (Some 3%nat) 0 (Some 4%nat) 5 [4%nat] [] [].

Lemma monitor_closes_idle_witness :
  let w' := run_st (monitor_tick no_fail (inactivity_limit + 1) 4) full_world in
  is_active w' = false /\ w'.(pw) = None /\ w'.(page) = None /\ ~ In 4%nat w'.(monitors).
Proof.
  apply (monitor_closes_idle no_fail _ 4 full_world 0); simpl; [auto|reflexivity|].
  unfold inactivity_limit. lia.
Defined.

Lemma reachable_all_or_nothing_witness :
  reachable no_fail 0 (run_st (start no_fail 5) (init_world 0)) /\
  all_or_nothing (run_st (start no_fail 5) (init_world 0)).
Proof.
  assert (H : reachable no_fail 0 (run_st (start no_fail 5) (init_world 0)))
    by (eapply reach_step; [apply reach_init|apply step_start]).
  split; [exact H|]. exact (reachable_all_or_nothing 0 _ H).
Defined.

Lemma failed_launch_half_open_witness :
  let o := fun e => match e with ELaunch => true | _ => false end in
  let w1 := run_st (start o 7) (init_world 0) in
  (exists e, run_out (start o 7) (init_world 0) = Exc e) /\
  w1.(pw) = Some 0%nat /\ w1.(browser) = None /\ is_active w1 = false /\
  forall o' t,
    run_out (get_page o' t false) w1 = Ok None /\
    is_active (run_st (get_page o' t false) w1) = false.
Proof. intros o. apply (failed_launch_half_open o 7 (init_world 0)); reflexivity. Defined.

(** The state after a session was started and closed by a request's
    error handler, its monitor loop still running. *)
Definition stale_world : world := run_st (close no_fail) (run_st (start no_fail 0) (init_world 0)).

Lemma monitor_race_half_open_witness :
  let now' := inactivity_limit + 1 in
  let w2 := run_st (monitor_tick no_fail now' 4) (run_st (start_begin no_fail) stale_world) in
  let w3 := run_st (start_resume no_fail now') w2 in
  reachable no_fail 0 stale_world /\
  ((exists pg, run_out (start_resume no_fail now') w2 = Ok (Some pg) /\ w3.(page) = Some pg) /\
   w3.(pw) = None /\ w3.(browser) <> None /\ w3.(context) <> None /\
   ~ all_or_nothing w3 /\ is_active w3 = false /\ In stale_world.(next_id) w3.(closed)).
Proof.
  intros now' w2 w3.
  assert (H1 : pw stale_world = None) by reflexivity.
  assert (H2 : browser stale_world = None) by reflexivity.
  assert (H3 : context stale_world = None) by reflexivity.
  assert (H4 : In 4%nat (monitors stale_world)) by (left; reflexivity).
  assert (H5 : inactivity_limit < now' - last_used stale_world) by (change (last_used stale_world) with 0; unfold now', inactivity_limit; lia).
  split.
  - apply (reach_step no_fail 0 (run_st (start no_fail 0) (init_world 0)));
      [apply (reach_step no_fail 0 (init_world 0)); [apply reach_init|apply step_start]|apply step_close].
  - exact (monitor_race_half_open no_fail now' now' 4 stale_world H1 H2 H3 H4 H5 (fun _ => eq_refl)).
Defined.
