(* ===== verification/Preload.v ===== *)
(** * Preload: [preload_proxy] and [preload_with_validation] of [src/proxy_ma.py]

    At startup the proxy opens a fresh page with [get_page(new=True)],
    navigates to the home page of the site and looks for the markers of
    an anti-bot challenge (a title containing ["Just a moment"] or
    ["Checking your browser"], or a challenge element in the DOM).  A
    failed attempt is retried up to [retries] times; the function returns
    [True] on the first clean attempt and [False] after the last failed
    one.  A failure does not close the session.

    What the site answers at attempt [k] is an [attempt_env]. *)

From Stdlib Require Import String List ZArith Bool Arith Lia.
From S2P Require Import Prelude Session.
Import ListNotations.
Open Scope string_scope.
Open Scope py_scope.
Open Scope nat_scope.

Record attempt_env := mk_attempt {
  pa_engine : oracle;            (** engine calls that raise during the attempt *)
  pa_goto_fails : bool;          (** [page.goto(..., timeout=10000)] raises *)
  pa_title : string;             (** [page.title()] *)
  pa_challenge_dom : bool        (** [#cf-spinner] or [form#challenge-form] is present *)
}.

Definition home : string := "https://www.metal-archives.com/".

(** [page.goto(...)] on the page [get_page(new=True)] returned. *)
Definition preload_goto (a : attempt_env) (pg : option nat) : SM unit :=
  match pg with
  | None => attribute_error
  | Some _ => if pa_goto_fails a then py_raise "Timeout 10000ms exceeded" else py_ret tt
  end.

(** [preload_proxy()]: errors are printed, never raised. *)
Definition preload_proxy (a : attempt_env) (now : Z) : SM unit :=
  py_try (let! pg := get_page (pa_engine a) now true in preload_goto a pg)
         (fun _ => py_ret tt).

(** The title test of [preload_with_validation]. *)
Definition title_challenge (t : string) : bool :=
  py_in "Just a moment" t || py_in "Checking your browser" t.

(** The body of the [try] of one attempt. *)
Definition preload_attempt (a : attempt_env) (now : Z) : SM unit :=
  let! pg := get_page (pa_engine a) now true in
  do! preload_goto a pg in
  if title_challenge (pa_title a) then py_raise "Cloudflare challenge"
  else if pa_challenge_dom a then py_raise "Cloudflare DOM challenge"
  else py_ret tt.

(** [for attempt in range(attempt, retries + 1)] with [fuel] iterations
    left; [None] is the [None] returned when the loop does not run. *)
Fixpoint preload_go (pe : nat -> attempt_env) (clock : nat -> Z) (retries attempt fuel : nat)
    : SM (option bool) :=
  match fuel with
  | O => py_ret None
  | S f =>
      let! ok := py_try (do! preload_attempt (pe attempt) (clock attempt) in py_ret true)
                        (fun _ => py_ret false) in
      if ok then py_ret (Some true)
      else if Nat.ltb attempt retries then preload_go pe clock retries (S attempt) f
      else py_ret (Some false)
  end.

Definition preload_with_validation (pe : nat -> attempt_env) (clock : nat -> Z) (retries : nat)
    : SM (option bool) :=
  preload_go pe clock retries 1%nat retries.

(** An attempt the site answers cleanly, with a healthy engine. *)
Definition attempt_clean (a : attempt_env) : bool :=
  negb (pa_goto_fails a) && negb (title_challenge (pa_title a)) && negb (pa_challenge_dom a).

(** ** Lemmas *)

(** With a healthy engine, [get_page(new=True)] on a session whose
    handles are all present or all absent yields a page. *)
Lemma get_page_new_ok now w :
  all_or_nothing w -> exists pg w', get_page no_fail now true w = (Ok (Some pg), w').
Proof.
  intros [(a & b & c & d & Ha & Hb & Hc & Hd) | (Ha & Hb & Hc & Hd)];
    destruct w as [p b' c' pg lu mt n ms cl ls]; simpl in *; subst;
    unfold get_page, start; sm_unfold; [|destruct mt]; cbn; eauto.
Qed.

(** One attempt with a healthy engine: it never raises out of its
    [try], keeps the handles all present or all absent, and succeeds
    when the site answers cleanly. *)
Lemma attempt_run a now w :
  pa_engine a = no_fail -> all_or_nothing w ->
  exists b w', py_try (do! preload_attempt a now in py_ret true) (fun _ => py_ret false) w = (Ok b, w') /\
    all_or_nothing w' /\ (attempt_clean a = true -> b = true).
Proof.
  intros He Hw. destruct (get_page_new_ok now w Hw) as (pg & w1 & Hg).
  assert (Hw1 : all_or_nothing w1).
  { pose proof (get_page_no_fail_aon now true w Hw) as H. unfold run_st in H. rewrite Hg in H; exact H. }
  unfold preload_attempt, preload_goto, attempt_clean, py_try, py_bind. rewrite He, Hg.
  destruct (pa_goto_fails a), (title_challenge (pa_title a)), (pa_challenge_dom a);
    cbn; eexists _, _; (split; [reflexivity|split; [exact Hw1|]]); intros; try discriminate; reflexivity.
Qed.

Lemma preload_go_succeeds pe clock retries k : forall fuel attempt w,
  attempt + fuel = S retries -> attempt <= k <= retries -> all_or_nothing w ->
  (forall j, attempt <= j <= k -> pa_engine (pe j) = no_fail) -> attempt_clean (pe k) = true ->
  run_out (preload_go pe clock retries attempt fuel) w = Ok (Some true).
Proof.
  induction fuel as [|f IH]; intros attempt w Hf Hk Hw He Hc; [lia|].
  destruct (attempt_run (pe attempt) (clock attempt) w) as (b & w' & E & Hw' & Hb); [apply He; lia|exact Hw|].
  unfold run_out. simpl. unfold py_bind at 1. rewrite E.
  destruct b; [reflexivity|].
  assert (attempt <> k) by (intros ->; discriminate (Hb Hc)).
  destruct (Nat.ltb_spec attempt retries); [|lia].
  apply IH; auto; [lia|lia|]. intros j Hj. apply He. lia.
Qed.

Lemma preload_go_total pe clock retries : forall fuel attempt w,
  attempt + fuel = S retries -> 1 <= fuel ->
  exists b w', preload_go pe clock retries attempt fuel w = (Ok (Some b), w').
Proof.
  induction fuel as [|f IH]; intros attempt w Hf H1; [lia|].
  simpl. unfold py_bind at 1, py_try.
  destruct (py_bind (preload_attempt (pe attempt) (clock attempt)) (fun _ => py_ret true) w)
    as [[b|e] w1]; [destruct b|]; cbn [py_ret]; try (eexists _, _; reflexivity);
    (destruct (Nat.ltb_spec attempt retries); [|eexists _, _; reflexivity]);
    apply IH; lia.
Qed.

(** [_playwright] set, [_browser] and [_context] not. *)
Definition half_open (w : world) : Prop :=
  (exists p, w.(pw) = Some p) /\ w.(browser) = None /\ w.(context) = None.

(** An attempt on a half-open session fails inside its [try] without an
    engine call: [start()] reuses the session, [get_page(new=True)] calls
    [new_page] on [_context = None]. *)
Lemma attempt_half_open a now w :
  half_open w ->
  py_try (do! preload_attempt a now in py_ret true) (fun _ => py_ret false) w =
  (Ok false, set_last_used now w).
Proof.
  intros ((p & Hp) & Hb & Hc). destruct w as [p' b c pg lu mt n ms cl ls]; simpl in *; subst.
  unfold preload_attempt; sm_unfold. reflexivity.
Qed.

Lemma half_open_last_used now w : half_open w -> half_open (set_last_used now w).
Proof. destruct w; unfold half_open; simpl; auto. Qed.

Lemma preload_go_half_open pe clock retries : forall fuel attempt w,
  attempt + fuel = S retries -> 1 <= fuel -> half_open w ->
  exists w', preload_go pe clock retries attempt fuel w = (Ok (Some false), w') /\ half_open w'.
Proof.
  induction fuel as [|f IH]; intros attempt w Hf H1 Hw; [lia|].
  cbn [preload_go]. unfold py_bind at 1. rewrite (attempt_half_open _ _ w Hw).
  destruct (Nat.ltb_spec attempt retries).
  - apply IH; [lia|lia|]. now apply half_open_last_used.
  - eexists. split; [reflexivity|]. now apply half_open_last_used.
Qed.

(** The first attempt, when launching raises. *)
Definition first_attempt_world (w : world) : world :=
  set_pw (Some w.(next_id)) (mk_world w.(pw) w.(browser) w.(context) w.(page) w.(last_used)
    w.(monitor_thread) (S w.(next_id)) w.(monitors) w.(closed) w.(listeners)).

Lemma first_attempt_half_open a now w :
  w.(pw) = None -> w.(browser) = None -> w.(context) = None ->
  pa_engine a EStart = false -> pa_engine a ELaunch = true ->
  py_try (do! preload_attempt a now in py_ret true) (fun _ => py_ret false) w =
  (Ok false, first_attempt_world w).
Proof.
  intros Hp Hb Hc HS HL. destruct w as [p b c pg lu mt n ms cl ls]; simpl in *; subst.
  unfold preload_attempt, first_attempt_world; sm_unfold. rewrite HS, HL. reflexivity.
Qed.

Lemma first_attempt_state w :
  w.(browser) = None -> w.(context) = None -> half_open (first_attempt_world w).
Proof. intros Hb Hc. unfold half_open, first_attempt_world; simpl. eauto. Qed.

(** ** Theorems *)

(** C35: liveness of the startup check: on a session whose handles are
    all present or all absent, if the engine is healthy up to some
    attempt [k <= retries] and the site answers attempt [k] cleanly,
    [preload_with_validation] returns [True] (at attempt [k] at the
    latest). *)
Theorem preload_succeeds pe clock retries k w :
  all_or_nothing w -> 1 <= k <= retries ->
  (forall j, 1 <= j <= k -> pa_engine (pe j) = no_fail) -> attempt_clean (pe k) = true ->
  run_out (preload_with_validation pe clock retries) w = Ok (Some true).
Proof. intros. apply preload_go_succeeds with (k := k); auto; lia. Qed.

(** C36: the retry loop terminates and never raises: with at least one
    retry it returns [True] or [False] whatever the engine and the site
    do; with [retries = 0] the loop does not run and the function returns
    [None]. *)
Theorem preload_terminates pe clock retries w :
  (1 <= retries -> exists b, run_out (preload_with_validation pe clock retries) w = Ok (Some b)) /\
  (retries = 0 -> run_out (preload_with_validation pe clock retries) w = Ok None).
Proof.
  split.
  - intros H. destruct (preload_go_total pe clock retries retries 1 w) as (b & w' & E); [lia|lia|].
    exists b. unfold run_out, preload_with_validation. rewrite E. reflexivity.
  - intros ->. reflexivity.
Qed.

(** C37 (finding): a launch failure at the first attempt leaves the
    session half open ([_playwright] set, no browser).  Since [start()]
    tests only [_playwright] and a failed attempt does not close the
    session, every retry then fails on [cls._context.new_page()], whatever
    the engine and the site do at the later attempts: the startup check
    returns [False] and leaves the session half open. *)
Theorem preload_half_open_no_recovery pe clock retries w :
  1 <= retries -> w.(pw) = None -> w.(browser) = None -> w.(context) = None ->
  pa_engine (pe 1) EStart = false -> pa_engine (pe 1) ELaunch = true ->
  run_out (preload_with_validation pe clock retries) w = Ok (Some false) /\
  half_open (run_st (preload_with_validation pe clock retries) w).
Proof.
  intros Hr Hp Hb Hc HS HL. destruct retries as [|r]; [lia|].
  unfold preload_with_validation, run_out, run_st. cbn [preload_go].
  rewrite (py_bind_ok _ _ _ false _ (first_attempt_half_open (pe 1) (clock 1) w Hp Hb Hc HS HL)).
  destruct r as [|r]; [split; [reflexivity|now apply first_attempt_state]|].
  cbn -[preload_go].
  destruct (preload_go_half_open pe clock (S (S r)) (S r) 2 (first_attempt_world w))
    as (w' & -> & Hw'); [lia|lia|now apply first_attempt_state|]. split; [reflexivity|exact Hw'].
Qed.

(** ** Witnesses *)

Lemma preload_succeeds_witness :
  let clean := mk_attempt no_fail false "Metal Archives" false in
  let pe := fun j => if Nat.eqb j 1 then mk_attempt no_fail false "Just a moment..." false else clean in
  run_out (preload_with_validation pe (fun _ => 0%Z) 3) (init_world 0) = Ok (Some true).
Proof.
  intros clean pe. apply (preload_succeeds pe _ 3 2 (init_world 0)).
  - right. repeat split.
  - lia.
  - intros j _. unfold pe. destruct (Nat.eqb j 1); reflexivity.
  - reflexivity.
Defined.

Lemma preload_terminates_witness :
  (exists b, run_out (preload_with_validation (fun _ => mk_attempt (fun _ => true) true "" true)
                        (fun _ => 0%Z) 2) (init_world 0) = Ok (Some b)) /\
  run_out (preload_with_validation (fun _ => mk_attempt no_fail false "" false)
             (fun _ => 0%Z) 0) (init_world 0) = Ok None.
Proof.
  split; [apply (preload_terminates _ _ 2 (init_world 0)); lia|].
  apply (preload_terminates _ _ 0 (init_world 0)). reflexivity.
Defined.

Lemma preload_half_open_no_recovery_witness :
  let launch_fails := fun e => match e with ELaunch => true | _ => false end in
  let clean := mk_attempt no_fail false "Metal Archives" false in
  let pe := fun j => if Nat.eqb j 1 then mk_attempt launch_fails false "" false else clean in
  run_out (preload_with_validation pe (fun _ => 0%Z) 3) (init_world 0) = Ok (Some false) /\
  half_open (run_st (preload_with_validation pe (fun _ => 0%Z) 3) (init_world 0)).
Proof.
  intros launch_fails clean pe.
  apply (preload_half_open_no_recovery pe _ 3 (init_world 0)); [lia|reflexivity..].
Defined.
