(* ===== verification/PyRe.v ===== *)
(** * PyRe: the part of Python's [re] module the proxy uses

    The extraction code calls [re.search], [re.sub] and [Match.group] with
    nine patterns, built from: literal characters, the classes [.], [\d],
    [\s], the negated quote class, [[^<]], [[\d\.]] and [[^\S\r\n]], counted and unbounded
    repetition ([{m}], [{m,n}], [*], [+], [?], [{m,}]) in greedy and lazy
    ([*?]) form, non-capturing alternation [(?:st|nd|rd|th)], capturing
    groups, and the anchors [^] and [$].

    [re] is a syntax tree of those constructs; [m] is a backtracking
    matcher in continuation-passing style: [m r n0 s c k] tries to match
    [r] at the start of the suffix [s] of an input of length [n0], with
    the captures [c] made so far, and calls [k] on the remaining input and
    captures, trying the alternatives in [sre]'s priority order (left
    branch first, greedy repetition longest first, lazy shortest first).
    A repetition stops iterating when an iteration consumes nothing; the
    repeated sub-patterns of the program never match the empty string, so
    this agrees with [sre] on them.  The repetition loop runs on fuel
    [S (length s)], which [rep_fuel_enough] shows is never exhausted.

    [Matches] is the declarative matching relation; [m_sound] shows every
    answer of the matcher comes from a derivation of it. *)

From Stdlib Require Import String Ascii List Bool Arith Lia.
From S2P Require Import Prelude.
Import ListNotations.

Inductive re : Type :=
| RChar (p : ascii -> bool)
| REps
| RSeq (r1 r2 : re)
| RAlt (r1 r2 : re)
| RRep (r : re) (lo : nat) (hi : option nat) (greedy : bool)
| RGroup (g : nat) (r : re)
| RBol
| REol.

(** Captures, most recent first: group number and captured text. *)
Definition caps := list (nat * list ascii).

Definition nl : ascii := "010"%char.
Definition cr : ascii := "013"%char.

(** ** Character classes *)

Definition cls_eq (a : ascii) : ascii -> bool := fun c => ceqb c a.
Definition cls_not (a : ascii) : ascii -> bool := fun c => negb (ceqb c a).
Definition cls_any : ascii -> bool := cls_not nl.               (** [.] *)
Definition cls_digit : ascii -> bool := py_isdigit.             (** [\d] *)
Definition cls_space : ascii -> bool := py_isspace.             (** [\s] *)
(** [[^\S\r\n]] *)
Definition cls_hspace : ascii -> bool :=
  fun c => py_isspace c && negb (ceqb c cr) && negb (ceqb c nl).

(** ** Pattern builders *)

Fixpoint lit_l (l : list ascii) : re :=
  match l with
  | [] => REps
  | a :: l' => RSeq (RChar (cls_eq a)) (lit_l l')
  end.

Definition lit (s : string) : re := lit_l (chars s).

Definition star (r : re) : re := RRep r 0 None true.
Definition plus (r : re) : re := RRep r 1 None true.
Definition opt (r : re) : re := RRep r 0 (Some 1) true.
Definition exactly (n : nat) (r : re) : re := RRep r n (Some n) true.

Fixpoint seq (rs : list re) : re :=
  match rs with
  | [] => REps
  | [r] => r
  | r :: rs' => RSeq r (seq rs')
  end.

(** ** The matcher *)

Section Matcher.
Context {T : Type}.

(** The loop of a repetition: [mr] matches one iteration. *)
Fixpoint rep_loop (mr : list ascii -> caps -> (list ascii -> caps -> option T) -> option T)
    (k : list ascii -> caps -> option T) (fuel lo : nat) (hi : option nat) (greedy : bool)
    (s : list ascii) (c : caps) : option T :=
  match fuel with
  | 0 => None
  | S f =>
      let more :=
        match hi with
        | Some 0 => None
        | _ => mr s c (fun s' c' =>
                 if length s' <? length s
                 then rep_loop mr k f (pred lo) (option_map pred hi) greedy s' c'
                 else None)
        end in
      match lo with
      | S _ => more
      | 0 =>
          if greedy
          then match more with Some v => Some v | None => k s c end
          else match k s c with Some v => Some v | None => more end
      end
  end.

Fixpoint m (r : re) (n0 : nat) (s : list ascii) (c : caps)
    (k : list ascii -> caps -> option T) : option T :=
  match r with
  | RChar p => match s with
               | x :: s' => if p x then k s' c else None
               | [] => None
               end
  | REps => k s c
  | RSeq r1 r2 => m r1 n0 s c (fun s' c' => m r2 n0 s' c' k)
  | RAlt r1 r2 => match m r1 n0 s c k with
                  | Some v => Some v
                  | None => m r2 n0 s c k
                  end
  | RRep r1 lo hi g => rep_loop (m r1 n0) k (S (length s)) lo hi g s c
  | RGroup g r1 =>
      m r1 n0 s c (fun s' c' => k s' ((g, firstn (length s - length s') s) :: c'))
  | RBol => if length s =? n0 then k s c else None
  | REol => match s with
            | [] => k s c
            | [x] => if ceqb x nl then k s c else None
            | _ => None
            end
  end.

End Matcher.

(** ** Search, groups and substitution *)

Record match_obj := mk_match {
  m_start : nat;          (** [Match.start()] *)
  m_end : nat;            (** [Match.end()] *)
  m_caps : caps;
  m_input : list ascii
}.

Definition k_final (s : list ascii) (c : caps) : option (list ascii * caps) := Some (s, c).

(** [re.search(pattern, string)]: the leftmost position where [r] matches. *)
Fixpoint search_go (r : re) (n0 : nat) (input s : list ascii) : option match_obj :=
  match m r n0 s [] k_final with
  | Some (rest, c) => Some (mk_match (n0 - length s) (n0 - length rest) c input)
  | None => match s with
            | [] => None
            | _ :: s' => search_go r n0 input s'
            end
  end.

Definition re_search (r : re) (s : string) : option match_obj :=
  let l := chars s in search_go r (length l) l l.

(** [Match.group(g)]: the last capture of group [g] ([None] if the group
    did not take part); group 0 is the whole match. *)
Definition group (mo : match_obj) (g : nat) : option string :=
  match g with
  | 0 => Some (str (firstn (m_end mo - m_start mo) (skipn (m_start mo) (m_input mo))))
  | _ => option_map (fun p => str (snd p)) (find (fun p => Nat.eqb (fst p) g) (m_caps mo))
  end.

(** [match.group(g)] on a match known to exist, with Python's [None]
    read as [""] (the program only reads groups that always take part). *)
Definition group_s (mo : match_obj) (g : nat) : string :=
  match group mo g with Some s => s | None => EmptyString end.

(** [re.sub(pattern, repl, string)] with a literal replacement.  A match
    that consumes nothing inserts [repl] and the scan moves one character
    on; at the end of the input an empty match inserts [repl] once. *)
Fixpoint sub_go (fuel : nat) (r : re) (n0 : nat) (repl s : list ascii) : list ascii :=
  match fuel with
  | 0 => s
  | S f =>
      match s with
      | [] => match m r n0 [] [] k_final with Some _ => repl | None => [] end
      | x :: s' =>
          match m r n0 s [] k_final with
          | Some (rest, _) =>
              if length rest <? length s
              then repl ++ sub_go f r n0 repl rest
              else repl ++ x :: sub_go f r n0 repl s'
          | None => x :: sub_go f r n0 repl s'
          end
      end
  end.

Definition re_sub (r : re) (repl s : string) : string :=
  let l := chars s in str (sub_go (S (length l)) r (length l) (chars repl) l).

(** ** Declarative matching *)

Inductive Matches (n0 : nat) : re -> list ascii -> caps -> list ascii -> caps -> Prop :=
| MChar p x s c : p x = true -> Matches n0 (RChar p) (x :: s) c s c
| MEps s c : Matches n0 REps s c s c
| MSeq r1 r2 s c s1 c1 s2 c2 :
    Matches n0 r1 s c s1 c1 -> Matches n0 r2 s1 c1 s2 c2 -> Matches n0 (RSeq r1 r2) s c s2 c2
| MAltL r1 r2 s c s' c' : Matches n0 r1 s c s' c' -> Matches n0 (RAlt r1 r2) s c s' c'
| MAltR r1 r2 s c s' c' : Matches n0 r2 s c s' c' -> Matches n0 (RAlt r1 r2) s c s' c'
| MRepStop r hi g s c : Matches n0 (RRep r 0 hi g) s c s c
| MRepMore r lo hi g s c s1 c1 s2 c2 :
    hi <> Some 0 -> Matches n0 r s c s1 c1 -> length s1 < length s ->
    Matches n0 (RRep r (pred lo) (option_map pred hi) g) s1 c1 s2 c2 ->
    Matches n0 (RRep r lo hi g) s c s2 c2
| MGroup g r s c s' c' :
    Matches n0 r s c s' c' ->
    Matches n0 (RGroup g r) s c s' ((g, firstn (length s - length s') s) :: c')
| MBol s c : length s = n0 -> Matches n0 RBol s c s c
| MEolNil c : Matches n0 REol [] c [] c
| MEolNl c : Matches n0 REol [nl] c [nl] c.

#[export] Hint Constructors Matches : pyproxy.
Ltac ex_match := do 2 eexists; split; [solve [eauto 7 with pyproxy] | eassumption].

Section Soundness.
Context {T : Type}.

Lemma rep_loop_sound n0 r k :
  (forall s c (k' : list ascii -> caps -> option T) v, m r n0 s c k' = Some v ->
     exists s' c', Matches n0 r s c s' c' /\ k' s' c' = Some v) ->
  forall f lo hi g s c (v : T), rep_loop (m r n0) k f lo hi g s c = Some v ->
  exists s' c', Matches n0 (RRep r lo hi g) s c s' c' /\ k s' c' = Some v.
Proof.
  intros IHr f. induction f as [|f IH]; intros lo hi g s c v H; [discriminate|].
  simpl in H.
  assert (Hmore : forall v', (match hi with
        | Some 0 => None
        | _ => m r n0 s c (fun s' c' => if length s' <? length s
               then rep_loop (m r n0) k f (pred lo) (option_map pred hi) g s' c' else None)
        end) = Some v' ->
      exists s' c', Matches n0 (RRep r lo hi g) s c s' c' /\ k s' c' = Some v').
  { intros v' Hm. assert (Hhi : hi <> Some 0) by (intros ->; discriminate).
    destruct hi as [[|h]|]; [congruence| |];
      apply IHr in Hm as (s1 & c1 & Hr & Hk);
      destruct (Nat.ltb_spec (length s1) (length s)); try discriminate;
      apply IH in Hk as (s2 & c2 & Hrep & Hk2); ex_match. }
  destruct lo as [|lo'].
  - destruct g.
    + destruct (match hi with Some 0 => None | _ => _ end) eqn:E.
      * injection H as <-. apply Hmore. reflexivity.
      * ex_match.
    + destruct (k s c) eqn:E.
      * injection H as <-. ex_match.
      * apply Hmore. exact H.
  - apply Hmore. exact H.
Qed.

(** Every answer of the matcher comes from a derivation of [Matches]. *)
Lemma m_sound r n0 : forall s c (k : list ascii -> caps -> option T) v,
  m r n0 s c k = Some v -> exists s' c', Matches n0 r s c s' c' /\ k s' c' = Some v.
Proof.
  induction r as [p| |r1 IH1 r2 IH2|r1 IH1 r2 IH2|r IH lo hi g|g r IH| |];
    intros s c k v H; simpl in H.
  - destruct s as [|x s]; [discriminate|]. destruct (p x) eqn:E; [|discriminate].
    ex_match.
  - ex_match.
  - apply IH1 in H as (s1 & c1 & H1 & H2). apply IH2 in H2 as (s2 & c2 & H3 & H4).
    ex_match.
  - destruct (m r1 n0 s c k) eqn:E.
    + injection H as <-. apply IH1 in E as (s' & c' & H1 & H2). ex_match.
    + apply IH2 in H as (s' & c' & H1 & H2). ex_match.
  - exact (rep_loop_sound n0 r k IH (S (length s)) lo hi g s c v H).
  - apply IH in H as (s' & c' & H1 & H2). ex_match.
  - destruct (Nat.eqb_spec (length s) n0); [|discriminate]. ex_match.
  - destruct s as [|x [|y s]]; [eauto with pyproxy| |discriminate].
    destruct (ceqb x nl) eqn:E; [|discriminate]. apply ceqb_eq in E. subst.
    ex_match.
Qed.

End Soundness.

(** A match consumes a prefix of its input. *)
Lemma matches_suffix n0 r s c s' c' :
  Matches n0 r s c s' c' -> exists pre, s = pre ++ s'.
Proof.
  induction 1; try (exists []; reflexivity).
  - exists [x]. reflexivity.
  - destruct IHMatches1 as [p1 ->], IHMatches2 as [p2 ->]. exists (p1 ++ p2).
    apply app_assoc.
  - assumption.
  - assumption.
  - destruct IHMatches1 as [p1 ->], IHMatches2 as [p2 ->]. exists (p1 ++ p2).
    apply app_assoc.
  - assumption.
Qed.

Lemma matches_length n0 r s c s' c' :
  Matches n0 r s c s' c' -> length s' <= length s.
Proof.
  intros H. apply matches_suffix in H as [pre ->]. rewrite length_app. lia.
Qed.

(** ** Fuel and termination *)

Section Fuel.
Context {T : Type}.

(** A matcher of one iteration looks at its continuation only on
    suffixes of its input. *)
Definition cont_ext (mr : list ascii -> caps -> (list ascii -> caps -> option T) -> option T)
  : Prop :=
  forall s c k1 k2, (forall s' c', length s' <= length s -> k1 s' c' = k2 s' c') ->
  mr s c k1 = mr s c k2.

Lemma rep_loop_ext mr k1 k2 f lo hi g s c :
  cont_ext mr -> (forall s' c', length s' <= length s -> k1 s' c' = k2 s' c') ->
  rep_loop mr k1 f lo hi g s c = rep_loop mr k2 f lo hi g s c.
Proof.
  intros Hext. revert lo hi s c. induction f as [|f IH]; intros lo hi s c Hk; [reflexivity|].
  simpl. rewrite (Hk s c (le_n _)).
  assert (E : mr s c (fun s' c' => if length s' <? length s
                then rep_loop mr k1 f (pred lo) (option_map pred hi) g s' c' else None)
            = mr s c (fun s' c' => if length s' <? length s
                then rep_loop mr k2 f (pred lo) (option_map pred hi) g s' c' else None)).
  { apply Hext. intros s' c' Hle. destruct (Nat.ltb_spec (length s') (length s)); [|reflexivity].
    apply IH. intros s'' c'' H''. apply Hk. lia. }
  destruct hi as [[|h]|]; rewrite ?E; reflexivity.
Qed.

Lemma m_ext r n0 : cont_ext (m (T := T) r n0).
Proof.
  induction r as [p| |r1 IH1 r2 IH2|r1 IH1 r2 IH2|r IH lo hi g|g r IH| |];
    intros s c k1 k2 Hk; simpl.
  - destruct s as [|x s]; [reflexivity|]. destruct (p x); [|reflexivity].
    apply Hk. simpl. lia.
  - apply Hk. lia.
  - apply IH1. intros s1 c1 H1. apply IH2. intros s2 c2 H2. apply Hk. lia.
  - rewrite (IH1 s c k1 k2 Hk), (IH2 s c k1 k2 Hk). reflexivity.
  - exact (rep_loop_ext (m r n0) k1 k2 (S (length s)) lo hi g s c IH Hk).
  - apply IH. intros s' c' H'. rewrite Hk by lia. reflexivity.
  - destruct (length s =? n0); [apply Hk; lia|reflexivity].
  - destruct s as [|x [|y s]]; [apply Hk; lia| |reflexivity].
    destruct (ceqb x nl); [apply Hk; lia|reflexivity].
Qed.

Lemma rep_loop_fuel mr k : cont_ext mr ->
  forall f1 f2 lo hi g s c, length s < f1 -> length s < f2 ->
  rep_loop mr k f1 lo hi g s c = rep_loop mr k f2 lo hi g s c.
Proof.
  intros Hext f1. induction f1 as [|f1 IH]; intros f2 lo hi g s c H1 H2; [lia|].
  destruct f2 as [|f2]; [lia|]. simpl.
  assert (E : mr s c (fun s' c' => if length s' <? length s
                then rep_loop mr k f1 (pred lo) (option_map pred hi) g s' c' else None)
            = mr s c (fun s' c' => if length s' <? length s
                then rep_loop mr k f2 (pred lo) (option_map pred hi) g s' c' else None)).
  { apply Hext. intros s' c' Hle. destruct (Nat.ltb_spec (length s') (length s)); [|reflexivity].
    apply IH; lia. }
  destruct hi as [[|h]|]; rewrite ?E; reflexivity.
Qed.

End Fuel.

(** Fuel adequacy: the repetition loop of the matcher never runs out of
    fuel: any fuel above the length of the input gives the answer of the fuel
    [S (length s)] the matcher uses, so the loop behaves as an unbounded
    [while] over the input. *)
Theorem rep_fuel_enough {T} r n0 (k : list ascii -> caps -> option T) f lo hi g s c :
  length s < f ->
  rep_loop (m r n0) k f lo hi g s c = rep_loop (m r n0) k (S (length s)) lo hi g s c.
Proof. intros H. apply rep_loop_fuel; [apply m_ext|exact H|lia]. Qed.

(** Fuel adequacy of [re.sub]: any fuel above the length of the subject gives the same result, since every step consumes at
    least one character. *)
Theorem sub_fuel_enough f1 f2 r n0 repl s :
  length s < f1 -> length s < f2 -> sub_go f1 r n0 repl s = sub_go f2 r n0 repl s.
Proof.
  revert f2 s. induction f1 as [|f1 IH]; intros f2 s H1 H2; [lia|].
  destruct f2 as [|f2]; [lia|]. destruct s as [|x s']; [reflexivity|]. simpl.
  destruct (m r n0 (x :: s') [] k_final) as [[rest cs]|]; [|f_equal; apply IH; simpl in *; lia].
  destruct (Nat.ltb_spec (length rest) (S (length s'))).
  - f_equal. apply IH; simpl in *; lia.
  - f_equal. f_equal. apply IH; simpl in *; lia.
Qed.

(** ** Shapes of matches *)

Lemma search_go_sound r n0 input s mo :
  search_go r n0 input s = Some mo ->
  exists pre suf rest, s = pre ++ suf /\ Matches n0 r suf [] rest (m_caps mo) /\
    m_start mo = n0 - length suf /\ m_end mo = n0 - length rest /\ m_input mo = input.
Proof.
  induction s as [|x s IH]; simpl; intros H.
  - destruct (m r n0 [] [] k_final) as [[rest c]|] eqn:E; [|discriminate].
    injection H as <-. apply m_sound in E as (s' & c' & HM & Hk).
    injection Hk as -> ->. exists [], [], rest. auto.
  - destruct (m r n0 (x :: s) [] k_final) as [[rest c]|] eqn:E.
    + injection H as <-. apply m_sound in E as (s' & c' & HM & Hk).
      injection Hk as -> ->. exists [], (x :: s), rest. auto.
    + apply IH in H as (pre & suf & rest & -> & HM & Hs & He & Hi).
      exists (x :: pre), suf, rest. auto.
Qed.

Lemma matches_rep_char n0 p lo hi g s c s' c' :
  Matches n0 (RRep (RChar p) lo hi g) s c s' c' ->
  c' = c /\ exists pre, s = pre ++ s' /\ Forall (fun x => p x = true) pre /\
    lo <= length pre /\ (forall h, hi = Some h -> length pre <= h).
Proof.
  remember (RRep (RChar p) lo hi g) as rr eqn:Err. intros H.
  revert lo hi Err. induction H; intros lo' hi' Err; try discriminate.
  - injection Err as E1 E2 E3 E4. subst. split; [reflexivity|]. exists []. simpl. auto with arith.
  - injection Err as E1 E2 E3 E4. subst. inv H0.
    destruct (IHMatches2 (pred lo') (option_map pred hi') eq_refl) as [-> [pre [-> [Hf [Hlo Hhi]]]]].
    split; [reflexivity|]. exists (x :: pre). simpl. repeat split; auto; [lia|].
    intros h Eh. subst hi'. destruct h as [|h]; [congruence|]. specialize (Hhi h eq_refl). lia.
Qed.

Lemma matches_lit n0 l s c s' c' :
  Matches n0 (lit_l l) s c s' c' -> s = l ++ s' /\ c' = c.
Proof.
  revert s c. induction l as [|a l IH]; simpl; intros s c H.
  - inv H. auto.
  - inv H.
    match goal with Hc : Matches _ (RChar _) _ _ _ _ |- _ => inv Hc end.
    match goal with Hr : Matches _ (lit_l l) _ _ _ _ |- _ => apply IH in Hr as [-> ->] end.
    match goal with Hp : cls_eq _ _ = true |- _ => apply ceqb_eq in Hp; subst end.
    auto.
Qed.

(** Patterns without capturing groups leave the captures unchanged. *)
Fixpoint nogroups (r : re) : bool :=
  match r with
  | RChar _ | REps | RBol | REol => true
  | RSeq r1 r2 | RAlt r1 r2 => nogroups r1 && nogroups r2
  | RRep r1 _ _ _ => nogroups r1
  | RGroup _ _ => false
  end.

Lemma matches_nogroups n0 r s c s' c' :
  Matches n0 r s c s' c' -> nogroups r = true -> c' = c.
Proof.
  induction 1; simpl; intros Hn; try reflexivity;
    repeat match goal with H : _ && _ = true |- _ => apply andb_true_iff in H as [? ?] end;
    try discriminate.
  - rewrite IHMatches2, IHMatches1; auto.
  - auto.
  - auto.
  - rewrite IHMatches2, IHMatches1; auto.
Qed.

Lemma firstn_consumed (pre s' : list ascii) :
  firstn (length (pre ++ s') - length s') (pre ++ s') = pre.
Proof.
  rewrite length_app, Nat.add_sub, firstn_app, Nat.sub_diag, firstn_all. simpl.
  apply app_nil_r.
Qed.

(** Invert a derivation of [Matches] for a pattern built from sequences,
    groups, repeated character classes and group-free parts. *)
Ltac inv_matches :=
  repeat match goal with
  | H : Matches _ (RSeq _ _) _ _ _ _ |- _ => inv H
  | H : Matches _ (RGroup _ _) _ _ _ _ |- _ => inv H
  | H : Matches _ (RRep (RChar _) _ _ _) _ _ _ _ |- _ =>
      let Hc := fresh "Hc" in let pre := fresh "pre" in
      let Hs := fresh "Hs" in let Hf := fresh "Hf" in
      let Hlo := fresh "Hlo" in let Hhi := fresh "Hhi" in
      apply matches_rep_char in H as [Hc [pre [Hs [Hf [Hlo Hhi]]]]]; subst
  | H : Matches _ ?r _ _ _ _ |- _ =>
      let E := fresh "E" in
      assert (E := matches_nogroups _ _ _ _ _ _ H eq_refl); clear H; subst
  end;
  rewrite ?firstn_consumed in *.

(** Soundness: the executable [re.search] refines the declarative semantics:
    a match it returns is a [Matches] derivation of the pattern on a
    suffix of the subject, starting at [m_start] and ending at [m_end],
    with the groups of the derivation. *)
Theorem re_search_sound r s mo :
  re_search r s = Some mo ->
  exists pre suf rest, chars s = pre ++ suf /\
    Matches (length (chars s)) r suf [] rest (m_caps mo) /\
    m_start mo = length pre /\ m_end mo = length (chars s) - length rest /\
    m_input mo = chars s.
Proof.
  unfold re_search. intros H.
  apply search_go_sound in H as (pre & suf & rest & Hs & HM & H1 & H2 & H3).
  exists pre, suf, rest. repeat split; auto.
  rewrite H1, Hs at 1. rewrite length_app. lia.
Qed.

(** Group 0 of a match is the text its derivation consumes. *)
Lemma group_s_0 r s mo :
  re_search r s = Some mo ->
  exists pre g rest, chars s = pre ++ g ++ rest /\
    Matches (length (chars s)) r (g ++ rest) [] rest (m_caps mo) /\ group_s mo 0 = str g.
Proof.
  intros H. destruct (re_search_sound _ _ _ H) as (pre & suf & rest & Hs & HM & H1 & H2 & H3).
  destruct (matches_suffix _ _ _ _ _ _ HM) as [g ->].
  exists pre, g, rest. repeat split; auto. unfold group_s, group.
  rewrite H1, H2, H3, Hs, skipn_app, skipn_all, Nat.sub_diag, !length_app. simpl.
  replace (length pre + (length g + length rest) - length rest - length pre) with (length g) by lia.
  now rewrite firstn_app, Nat.sub_diag, firstn_all, app_nil_r.
Qed.

(** ** Witnesses *)

Lemma rep_fuel_enough_witness :
  length ["a"; "b"]%char < 7 /\
  rep_loop (m (RChar cls_any) 2) k_final 7 0 None true ["a"; "b"]%char [] =
  rep_loop (m (RChar cls_any) 2) k_final 3 0 None true ["a"; "b"]%char [].
Proof.
  assert (H : length ["a"; "b"]%char < 7) by (cbn [length]; lia).
  split; [exact H|]. exact (rep_fuel_enough (RChar cls_any) 2 k_final 7 0 None true _ [] H).
Defined.

Lemma sub_fuel_enough_witness :
  sub_go 4 (lit "a") 3 (chars "X") (chars "aba") = sub_go 9 (lit "a") 3 (chars "X") (chars "aba") /\
  str (sub_go 4 (lit "a") 3 (chars "X") (chars "aba")) = "XbX"%string.
Proof.
  split; [apply sub_fuel_enough; cbn [length chars list_ascii_of_string]; lia|vm_compute; reflexivity].
Defined.

Lemma re_search_sound_witness :
  let mo := mk_match 1 3 [] (chars "xab") in
  re_search (lit "ab") "xab" = Some mo /\
  exists pre suf rest, chars "xab" = pre ++ suf /\
    Matches (length (chars "xab")) (lit "ab") suf [] rest (m_caps mo) /\
    m_start mo = length pre /\ m_end mo = length (chars "xab") - length rest /\
    m_input mo = chars "xab".
Proof.
  intros mo. assert (H : re_search (lit "ab") "xab" = Some mo) by reflexivity.
  split; [exact H|]. exact (re_search_sound _ _ _ H).
Defined.
