(* ===== verification/Dom.v ===== *)
(** * Dom: the parsed HTML document and the BeautifulSoup queries of [src/proxy_ma.py]

    [get_album] and [get_artist_info] parse the page with
    [BeautifulSoup(html, "html.parser")] and query the tree.  The tree is
    a [node]: an element with its tag, attributes and children, a text
    string ([NavigableString]) or a comment.  The parse itself is the
    library's and is not modelled: the page a request loads is given as
    its tree.

    This file holds what the code calls on the tree:
    - [text] ([Tag.text]: the text strings below, comments excluded) and
      [get_text_strip] ([get_text(separator="", strip=True)]);
    - [render] ([str(tag)] with the [minimal] formatter);
    - [classes] (the [class] attribute as the list bs4 keeps) and [attr];
    - [descendants] and [find_all] ([find_all(name)]), [tag_string]
      ([Tag.string]), [find_next_sibling];
    - the CSS selectors the code passes to [select] and [select_one]
      (type, [.class], [#id], [:-soup-contains(...)], the descendant and
      the adjacent-sibling combinators) and [select_one] over positions
      with their context;
    - the two mutations of [extract_addtional_info]: [replace_with] of the
      [br] tags by ["\r\n"] and [unwrap] of [i], [b], [a], [td].

    Its lemmas: the inner loops over children are [flat_map]s, [unwrap]
    keeps the text strings in order, and on trees whose [br]s are empty
    the [br] replacement keeps the strings [strip=True] keeps. *)

From Stdlib Require Import String Ascii List Bool Arith Lia.
From S2P Require Import Prelude PyRe.
Import ListNotations.
Open Scope string_scope.

#[warnings="-register-all"]
Inductive node : Type :=
| Text (s : string)
| Comment (s : string)
| Elem (tag : string) (attrs : list (string * string)) (kids : list node).

(** Induction over the tree and its lists of children, in the style of
    [ltree_ind2]. *)
Section node_ind2.
Variables (P : node -> Prop) (Q : list node -> Prop).
Hypotheses (HT : forall s, P (Text s)) (HC : forall s, P (Comment s))
  (HE : forall t a l, Q l -> P (Elem t a l))
  (Hnil : Q []) (Hcons : forall n l, P n -> Q l -> Q (n :: l)).

Fixpoint node_ind2 (n : node) : P n :=
  match n as x return P x with
  | Text s => HT s
  | Comment s => HC s
  | Elem t a l =>
      HE t a l ((fix go (l : list node) : Q l :=
                   match l as x return Q x with
                   | [] => Hnil
                   | k :: r => Hcons k r (node_ind2 k) (go r)
                   end) l)
  end.
End node_ind2.

(** ** Text *)

(** The [NavigableString]s below a node, in document order. *)
Fixpoint strings (n : node) : list string :=
  match n with
  | Text s => [s]
  | Comment _ => []
  | Elem _ _ kids => (fix go l := match l with [] => [] | k :: r => strings k ++ go r end)%list kids
  end.

(** [Tag.text]. *)
Definition text (n : node) : string := String.concat "" (strings n).

(** [get_text(separator="", strip=True)]: every string stripped, the
    empty ones dropped, the rest joined. *)
Definition get_text_strip (n : node) : string :=
  String.concat "" (filter py_truthy_str (map py_strip (strings n))).

(** [str.split()]: the runs of non-space characters. *)
Fixpoint split_ws_go (cur : list ascii) (l : list ascii) : list string :=
  match l with
  | [] => match cur with [] => [] | _ => [str (rev cur)] end
  | c :: r => if py_isspace c
              then match cur with [] => split_ws_go [] r | _ => str (rev cur) :: split_ws_go [] r end
              else split_ws_go (c :: cur) r
  end.

Definition py_split_ws (s : string) : list string := split_ws_go [] (chars s).

Definition attr (k : string) (n : node) : option string :=
  match n with
  | Elem _ attrs _ => option_map snd (find (fun kv => String.eqb (fst kv) k) attrs)
  | _ => None
  end.

(** [tag.get("class", [])]: bs4 keeps [class] as the list of its words. *)
Definition classes (n : node) : list string :=
  match attr "class" n with Some v => py_split_ws v | None => [] end.

Definition is_tag (t : string) (n : node) : bool :=
  match n with Elem t' _ _ => String.eqb t' t | _ => false end.

(** ** [str(tag)] *)

Definition amp : ascii := "&"%char.
Definition dquote : ascii := "034"%char.
Definition sq : ascii := "039"%char.

(** The [minimal] formatter: [&], [<] and [>] become entities. *)
Fixpoint escape_min (l : list ascii) : list ascii :=
  match l with
  | [] => []
  | c :: r =>
      (if ceqb c amp then chars "&amp;"
       else if ceqb c "<"%char then chars "&lt;"
       else if ceqb c ">"%char then chars "&gt;"
       else [c]) ++ escape_min r
  end%list.

Fixpoint replace_dq (l : list ascii) : list ascii :=
  match l with
  | [] => []
  | c :: r => (if ceqb c dquote then chars "&quot;" else [c]) ++ replace_dq r
  end%list.

(** [quoted_attribute_value]: double quotes, or single quotes when the
    value holds a double quote and no single quote, or [&quot;]. *)
Definition quote_attr (v : string) : string :=
  let l := escape_min (chars v) in
  if existsb (ceqb dquote) l then
    if existsb (ceqb sq) l then str (dquote :: replace_dq l ++ [dquote])
    else str (sq :: l ++ [sq])
  else str (dquote :: l ++ [dquote]).

Definition void_tags : list string :=
  ["area"; "base"; "br"; "col"; "embed"; "hr"; "img"; "input"; "link"; "meta";
   "param"; "source"; "track"; "wbr"].

Fixpoint render (n : node) : string :=
  match n with
  | Text s => str (escape_min (chars s))
  | Comment s => "<!--" ++ s ++ "-->"
  | Elem t attrs kids =>
      let open_tag := "<" ++ t ++ String.concat "" (map (fun kv => " " ++ fst kv ++ "=" ++ quote_attr (snd kv)) attrs) in
      match kids with
      | [] => if existsb (String.eqb t) void_tags then open_tag ++ "/>"
              else open_tag ++ "></" ++ t ++ ">"
      | _ => open_tag ++ ">" ++
             (fix go l := match l with [] => "" | k :: r => render k ++ go r end) kids
             ++ "</" ++ t ++ ">"
      end
  end.

(** ** Navigation *)

(** The descendants of a node in document order, itself excluded. *)
Fixpoint descendants (n : node) : list node :=
  match n with
  | Elem _ _ kids => (fix go l := match l with [] => [] | k :: r => (k :: descendants k) ++ go r end)%list kids
  | _ => []
  end.

(** [find_all(name)] (recursive). *)
Definition find_all (t : string) (n : node) : list node := filter (is_tag t) (descendants n).

(** [find_all([names])]. *)
Definition find_all_any (ts : list string) (n : node) : list node :=
  filter (fun k => existsb (fun t => is_tag t k) ts) (descendants n).

(** [Tag.string]: the one string child, or the [.string] of the one
    element child; [None] otherwise. *)
Fixpoint tag_string (n : node) : option string :=
  match n with
  | Text s => Some s
  | Comment s => Some s
  | Elem _ _ [k] => tag_string k
  | Elem _ _ _ => None
  end.

(** A node with the siblings before it (nearest first), the siblings
    after it, and the chain of its ancestors: each with the siblings
    before it, nearest ancestor first. *)
Record frame := mk_frame { f_node : node; f_prev : list node }.

Record position := mk_pos {
  p_node : node;
  p_prev : list node;
  p_next : list node;
  p_ctx : list frame;
  p_path : list nat
}.

(** Every position below [n] in document order; [ctx] and [path] are
    those of [n]. *)
Fixpoint positions_below (ctx : list frame) (path : list nat) (prev : list node) (n : node)
    : list position :=
  match n with
  | Elem _ _ kids =>
      (fix go (i : nat) (before : list node) (l : list node) : list position :=
         match l with
         | [] => []
         | k :: r =>
             let ctx' := mk_frame n prev :: ctx in
             let path' := (path ++ [i])%list in
             (mk_pos k before r ctx' path' :: positions_below ctx' path' before k)
               ++ go (S i) (k :: before) r
         end)%list 0 [] kids
  | _ => []
  end.

Definition positions (doc : node) : list position := positions_below [] [] [] doc.

(** [find_next_sibling(name)]: the first later sibling with that tag. *)
Definition find_next_sibling (t : string) (p : position) : option node :=
  find (is_tag t) (p_next p).

(** ** Selectors *)

Record compound := mk_comp {
  c_tag : option string;
  c_id : option string;
  c_classes : list string;
  c_contains : list string       (** [:-soup-contains("...")] *)
}.

Inductive selector : Type :=
| SC (c : compound)
| SDesc (s : selector) (c : compound)     (** [s c] *)
| SAdj (s : selector) (c : compound).     (** [s + c] *)

(** A selector as the code writes it: soupsieve refuses a pseudo-class
    it does not know with [SelectorSyntaxError]. *)
Inductive css : Type :=
| Css (s : selector)
| CssInvalid (msg : string).

Definition opt_eqb (o : option string) (v : option string) : bool :=
  match o with None => true | Some x => match v with Some y => String.eqb x y | None => false end end.

Definition comp_match (c : compound) (n : node) : bool :=
  match n with
  | Elem t _ _ =>
      opt_eqb (c_tag c) (Some t) && opt_eqb (c_id c) (attr "id" n)
      && forallb (fun k => existsb (String.eqb k) (classes n)) (c_classes c)
      && forallb (fun x => py_in x (text n)) (c_contains c)
  | _ => false
  end.

(** The nearest element among the siblings before, with those before it. *)
Fixpoint prev_elem (l : list node) : option (node * list node) :=
  match l with
  | [] => None
  | Elem t a k :: r => Some (Elem t a k, r)
  | _ :: r => prev_elem r
  end.

Fixpoint sel_match (s : selector) (n : node) (prev : list node) (ctx : list frame) : bool :=
  match s with
  | SC c => comp_match c n
  | SDesc s' c =>
      comp_match c n &&
      (fix anc (fs : list frame) : bool :=
         match fs with
         | [] => false
         | f :: r => sel_match s' (f_node f) (f_prev f) r || anc r
         end) ctx
  | SAdj s' c =>
      comp_match c n &&
      match prev_elem prev with
      | Some (e, before) => sel_match s' e before ctx
      | None => false
      end
  end.

Definition select_pos (doc : node) (s : selector) : list position :=
  filter (fun p => sel_match s (p_node p) (p_prev p) (p_ctx p)) (positions doc).

(** [select(css)] and [select_one(css)]. *)
Definition select (doc : node) (q : css) : outcome (list node) :=
  match q with
  | Css s => Ok (map p_node (select_pos doc s))
  | CssInvalid m => Exc m
  end.

Definition select_one (doc : node) (q : css) : outcome (option node) :=
  match q with
  | Css s => Ok (option_map p_node (hd_error (select_pos doc s)))
  | CssInvalid m => Exc m
  end.

(** ** Mutations *)

(** Replace the node at [path] by [f] of it. *)
Fixpoint update_at (path : list nat) (f : node -> node) (n : node) : node :=
  match path, n with
  | [], _ => f n
  | i :: rest, Elem t a kids =>
      Elem t a ((fix go (j : nat) (l : list node) : list node :=
                   match l with
                   | [] => []
                   | k :: r => (if Nat.eqb i j then update_at rest f k else k) :: go (S j) r
                   end) 0 kids)
  | _ :: _, _ => n
  end.

(** [for br in p.find_all("br"): br.replace_with("\r\n")]. *)
Definition crlf : string := String (ascii_of_nat 13) (String (ascii_of_nat 10) EmptyString).

Fixpoint replace_br (n : node) : node :=
  match n with
  | Elem t a kids => if String.eqb t "br" then Text crlf else Elem t a (map replace_br kids)
  | _ => n
  end.

(** [for tag in p.find_all(ts): tag.unwrap()]: every such tag below the
    node is replaced by its children; [unwrap_node] is what a node
    becomes. *)
Fixpoint unwrap_node (ts : list string) (n : node) : list node :=
  match n with
  | Elem t a kids =>
      let kids' := (fix go l := match l with [] => [] | k :: r => unwrap_node ts k ++ go r end)%list kids in
      if existsb (String.eqb t) ts then kids' else [Elem t a kids']
  | _ => [n]
  end.

Definition unwrap_below (ts : list string) (n : node) : node :=
  match n with
  | Elem t a kids => Elem t a (flat_map (unwrap_node ts) kids)
  | _ => n
  end.

(** ** Lemmas *)

(** The inner loops are [flat_map]s. *)
Lemma strings_elem t a kids : strings (Elem t a kids) = flat_map strings kids.
Proof. induction kids as [|k r IH]; simpl in *; [reflexivity|]. now rewrite IH. Qed.

Lemma unwrap_node_elem ts t a kids :
  unwrap_node ts (Elem t a kids) =
  if existsb (String.eqb t) ts then flat_map (unwrap_node ts) kids
  else [Elem t a (flat_map (unwrap_node ts) kids)].
Proof.
  simpl. replace ((fix go l := match l with [] => [] | k :: r => unwrap_node ts k ++ go r end)%list kids)
    with (flat_map (unwrap_node ts) kids); [reflexivity|].
  induction kids as [|k r IH]; simpl; [reflexivity|]. now rewrite IH.
Qed.

Lemma flat_map_flat_map {A B C} (f : A -> list B) (g : B -> list C) l :
  flat_map g (flat_map f l) = flat_map (fun x => flat_map g (f x)) l.
Proof. induction l as [|x l IH]; simpl; [reflexivity|]. now rewrite flat_map_app, IH. Qed.

Lemma flat_map_map' {A B C} (f : A -> B) (g : B -> list C) l :
  flat_map g (map f l) = flat_map (fun x => g (f x)) l.
Proof. induction l as [|x l IH]; simpl; [reflexivity|]. now rewrite IH. Qed.

Lemma flat_map_single {A B} (f : A -> list B) x : flat_map f [x] = f x.
Proof. apply app_nil_r. Qed.

(** Unwrapping keeps the strings and their order. *)
Lemma strings_unwrap_node ts n : flat_map strings (unwrap_node ts n) = strings n.
Proof.
  induction n as [s|s|t a l IH| |k l Hk Hl] using node_ind2 with
    (Q := fun l => flat_map (fun k => flat_map strings (unwrap_node ts k)) l = flat_map strings l);
    try reflexivity.
  - rewrite unwrap_node_elem, strings_elem.
    destruct (existsb (String.eqb t) ts).
    + now rewrite flat_map_flat_map.
    + now rewrite flat_map_single, strings_elem, flat_map_flat_map.
  - simpl. now rewrite Hk, Hl.
Qed.

Lemma strings_unwrap_below ts n : strings (unwrap_below ts n) = strings n.
Proof.
  destruct n as [s|s|t a l]; try reflexivity. simpl unwrap_below.
  rewrite !strings_elem, flat_map_flat_map.
  induction l as [|k l IH]; simpl; [reflexivity|]. now rewrite strings_unwrap_node, IH.
Qed.

(** No [br] has children: what [html.parser] builds, [br] being void. *)
Fixpoint br_empty (n : node) : bool :=
  match n with
  | Elem t _ kids =>
      (if String.eqb t "br" then match kids with [] => true | _ => false end else true)
      && (fix go l := match l with [] => true | k :: r => br_empty k && go r end) kids
  | _ => true
  end.

(** The strings [get_text(strip=True)] keeps. *)
Definition kept (l : list string) : list string := filter py_truthy_str (map py_strip l).

Lemma kept_app l1 l2 : kept (l1 ++ l2) = (kept l1 ++ kept l2)%list.
Proof. unfold kept. now rewrite map_app, filter_app. Qed.

Lemma kept_flat_map {A} (f : A -> list string) l :
  kept (flat_map f l) = flat_map (fun x => kept (f x)) l.
Proof. induction l as [|x l IH]; simpl; [reflexivity|]. now rewrite kept_app, IH. Qed.

(** The ["\r\n"] a [br] becomes is stripped away. *)
Lemma kept_crlf : kept [crlf] = [].
Proof. reflexivity. Qed.

Lemma kept_replace_br n :
  br_empty n = true -> kept (strings (replace_br n)) = kept (strings n).
Proof.
  induction n as [s|s|t a l IH| |k l Hk Hl] using node_ind2 with
    (Q := fun l => (fix go l := match l with [] => true | k :: r => br_empty k && go r end) l = true ->
          flat_map (fun k => kept (strings (replace_br k))) l = flat_map (fun k => kept (strings k)) l);
    try reflexivity.
  - simpl br_empty. intros H. apply andb_true_iff in H as [Hb Hr]. simpl replace_br.
    destruct (String.eqb t "br").
    + destruct l; [reflexivity|discriminate].
    + rewrite !strings_elem, !kept_flat_map, flat_map_map'. exact (IH Hr).
  - intros H. apply andb_true_iff in H as [H1 H2]. simpl. now rewrite Hk, Hl.
Qed.
