(* ===== verification/DateFormat.v ===== *)
(** * DateFormat: [format_date] and [contains_unicode] of [src/proxy_ma.py]

    [format_date] strips its input, rewrites the English month names to
    two-digit numbers with [str.replace] (in the order of the [months]
    dictionary), and tries three patterns with [re.search] in order:
    ["MM Dth, YYYY"], ["MM, YYYY"] and a bare year; otherwise [""].

    The main theorem, [format_date_shape], says the result is always [""]
    or ten characters [YYYY-MM-DD] made of digits and two dashes.  The
    day is not range-checked: [format_date_no_range_check] shows, by a
    check computed over all the cases, that every month name with every
    day from [00] to [99] goes through unchanged, as in ["2002-07-99"]. *)

From Stdlib Require Import String Ascii List Bool Arith Lia.
From S2P Require Import Prelude PyRe.
Import ListNotations.
Open Scope string_scope.

(** ** The patterns *)

Definition d_ : re := RChar cls_digit.
Definition s_ : re := RChar cls_space.

(** [(\d{2})\s+(\d{1,2})(?:st|nd|rd|th)?,?\s*(\d{4})] *)
Definition date_re_day : re :=
  seq [RGroup 1 (exactly 2 d_); plus s_; RGroup 2 (RRep d_ 1 (Some 2) true);
       opt (RAlt (lit "st") (RAlt (lit "nd") (RAlt (lit "rd") (lit "th"))));
       opt (lit ","); star s_; RGroup 3 (exactly 4 d_)].

(** [(\d{2}),?\s*(\d{4})] *)
Definition date_re_month : re :=
  seq [RGroup 1 (exactly 2 d_); opt (lit ","); star s_; RGroup 2 (exactly 4 d_)].

(** [^(\d{4})$] *)
Definition date_re_year : re := seq [RBol; RGroup 1 (exactly 4 d_); REol].

(** ** [format_date] *)

Definition months : list (string * string) :=
  [("January", "01"); ("February", "02"); ("March", "03"); ("April", "04");
   ("May", "05"); ("June", "06"); ("July", "07"); ("August", "08");
   ("September", "09"); ("October", "10"); ("November", "11"); ("December", "12")].

(** [for month, number in months.items(): s = s.replace(month, number)] *)
Definition replace_months (s : string) : string :=
  fold_left (fun acc mn => py_replace (fst mn) (snd mn) acc) months s.

Definition format_date (release_date_raw : string) : string :=
  let s := replace_months (py_strip release_date_raw) in
  match re_search date_re_day s with
  | Some mo => group_s mo 3 ++ "-" ++ group_s mo 1 ++ "-" ++ py_zfill 2 (group_s mo 2)
  | None =>
      match re_search date_re_month s with
      | Some mo => group_s mo 2 ++ "-" ++ group_s mo 1 ++ "-01"
      | None =>
          match re_search date_re_year s with
          | Some mo => group_s mo 1 ++ "-01-01"
          | None => ""
          end
      end
  end.

(** [any(ord(c) > 127 for c in text)] *)
Definition contains_unicode (text : string) : bool :=
  existsb (fun c => Nat.ltb 127 (ord c)) (chars text).

(** The shape [YYYY-MM-DD]: ten characters, digits and two dashes. *)
Definition is_iso_date (s : string) : bool :=
  match chars s with
  | [y1; y2; y3; y4; h1; m1; m2; h2; d1; d2] =>
      forallb py_isdigit [y1; y2; y3; y4; m1; m2; d1; d2]
      && ceqb h1 "-" && ceqb h2 "-"
  | _ => false
  end.

(** ** Lemmas *)

Definition digits (l : list ascii) : Prop := Forall (fun x => py_isdigit x = true) l.

Lemma digit_not_sign x : py_isdigit x = true -> ceqb x "+" = false /\ ceqb x "-" = false.
Proof.
  intros H. split; destruct (ceqb x _) eqn:E; auto; apply ceqb_eq in E; subst; discriminate.
Qed.


Lemma group_s_find mo g l :
  g <> 0 -> find (fun p => Nat.eqb (fst p) g) (m_caps mo) = Some (g, l) ->
  group_s mo g = str l.
Proof. intros Hg E. unfold group_s, group. destruct g; [congruence|]. now rewrite E. Qed.

Ltac take_group :=
  apply group_s_find; [discriminate|];
  match goal with
  | H : _ = m_caps _ |- _ => rewrite <- H; reflexivity
  | H : m_caps _ = _ |- _ => rewrite H; reflexivity
  end.

Lemma search_day_groups s mo :
  re_search date_re_day s = Some mo ->
  exists g1 g2 g3, group_s mo 1 = str g1 /\ group_s mo 2 = str g2 /\ group_s mo 3 = str g3 /\
    digits g1 /\ digits g2 /\ digits g3 /\
    length g1 = 2 /\ 1 <= length g2 <= 2 /\ length g3 = 4.
Proof.
  intros H. unfold re_search in H. apply search_go_sound in H as (pre & suf & rest & Hs & HM & _).
  unfold date_re_day, seq, d_, s_, plus, opt, star, exactly in HM. inv_matches.
  exists pre0, pre1, pre2. repeat split; try take_group; auto;
    repeat match goal with H : forall h, Some ?n = Some h -> _ |- _ => specialize (H n eq_refl) end;
    lia.
Qed.

Lemma search_month_groups s mo :
  re_search date_re_month s = Some mo ->
  exists g1 g2, group_s mo 1 = str g1 /\ group_s mo 2 = str g2 /\
    digits g1 /\ digits g2 /\ length g1 = 2 /\ length g2 = 4.
Proof.
  intros H. unfold re_search in H. apply search_go_sound in H as (pre & suf & rest & Hs & HM & _).
  unfold date_re_month, seq, d_, s_, plus, opt, star, exactly in HM. inv_matches.
  eexists _, _. repeat split; try take_group; eauto;
    repeat match goal with H : forall h, Some ?n = Some h -> _ |- _ => specialize (H n eq_refl) end;
    lia.
Qed.

Lemma search_year_groups s mo :
  re_search date_re_year s = Some mo ->
  exists g1, group_s mo 1 = str g1 /\ digits g1 /\ length g1 = 4.
Proof.
  intros H. unfold re_search in H. apply search_go_sound in H as (pre & suf & rest & Hs & HM & _).
  unfold date_re_year, seq, d_, exactly in HM. inv_matches.
  eexists. repeat split; try take_group; eauto;
    repeat match goal with H : forall h, Some ?n = Some h -> _ |- _ => specialize (H n eq_refl) end;
    lia.
Qed.

Ltac destruct_len l n :=
  match n with
  | 0 => destruct l; [|simpl in *; lia]
  | S ?n' => let x := fresh "x" in
             destruct l as [|x l]; [simpl in *; lia|]; destruct_len l n'
  end.

Ltac digits_facts :=
  unfold digits in *;
  repeat match goal with H : Forall _ (_ :: _) |- _ => inv H end.

Lemma iso_of_digits l1 l2 l3 :
  digits l1 -> digits l2 -> digits l3 -> length l1 = 4 -> length l2 = 2 -> length l3 = 2 ->
  is_iso_date (str l1 ++ "-" ++ str l2 ++ "-" ++ str l3) = true.
Proof.
  intros D1 D2 D3 L1 L2 L3. destruct_len l1 4. destruct_len l2 2. destruct_len l3 2.
  digits_facts. unfold is_iso_date. simpl.
  repeat match goal with H : py_isdigit _ = true |- _ => rewrite H; clear H end. reflexivity.
Qed.

Lemma zfill2_digits l :
  digits l -> 1 <= length l <= 2 ->
  exists l', py_zfill 2 (str l) = str l' /\ digits l' /\ length l' = 2.
Proof.
  intros D L. destruct l as [|x [|y [|z l]]]; simpl in L; try lia; digits_facts.
  - exists ["0"%char; x]. unfold py_zfill. simpl. destruct (digit_not_sign x) as [E1 E2]; [assumption|].
    rewrite E1, E2. repeat split; try reflexivity; repeat constructor; auto.
  - exists [x; y]. unfold py_zfill. simpl. destruct (digit_not_sign x) as [E1 E2]; [assumption|].
    rewrite E1, E2. repeat split; try reflexivity; repeat constructor; auto.
Qed.

(** The digits, as a list to run checks over. *)
Definition digit_chars : list ascii := filter py_isdigit all_chars.

Lemma digit_chars_spec c : py_isdigit c = true -> In c digit_chars.
Proof. intros H. apply filter_In. split; [apply in_all_chars|exact H]. Qed.

Definition ordinal_suffixes : list string := [""; "st"; "nd"; "rd"; "th"].

(** The cases of [format_date_no_range_check], checked by computation. *)
Lemma no_range_check_all :
  forallb (fun mn => forallb (fun d1 => forallb (fun d2 => forallb (fun sfx =>
    String.eqb (format_date (fst mn ++ " " ++ String d1 (String d2 (sfx ++ ", 2002"))))
               ("2002-" ++ snd mn ++ "-" ++ String d1 (String d2 "")))
    ordinal_suffixes) digit_chars) digit_chars) months = true.
Proof. vm_compute. reflexivity. Qed.

(** ** Theorems *)

(** C17: the date normaliser returns [""] or a string of the shape
    [YYYY-MM-DD] (four digits, dash, two digits, dash, two digits), on
    every input. *)
Theorem format_date_shape raw :
  format_date raw = "" \/ is_iso_date (format_date raw) = true.
Proof.
  unfold format_date. set (s := replace_months (py_strip raw)).
  destruct (re_search date_re_day s) as [mo|] eqn:E1.
  - right. apply search_day_groups in E1
      as (g1 & g2 & g3 & -> & -> & -> & D1 & D2 & D3 & L1 & L2 & L3).
    destruct (zfill2_digits g2 D2 L2) as (g2' & -> & D2' & L2').
    apply iso_of_digits; auto.
  - destruct (re_search date_re_month s) as [mo|] eqn:E2.
    + right. apply search_month_groups in E2 as (g1 & g2 & -> & -> & D1 & D2 & L1 & L2).
      apply (iso_of_digits g2 g1 ["0"; "1"]%char); auto.
      repeat constructor.
    + destruct (re_search date_re_year s) as [mo|] eqn:E3; [|auto].
      right. apply search_year_groups in E3 as (g1 & -> & D1 & L1).
      apply (iso_of_digits g1 ["0"; "1"]%char ["0"; "1"]%char); auto; repeat constructor.
Qed.

(** The examples of the specification: ["July 23rd, 2002"],
    ["July, 2002"] and ["2002"] normalise to ["2002-07-23"],
    ["2002-07-01"] and ["2002-01-01"], and unparseable text to [""]; a
    date without a comma and a one-digit day are padded. *)
Theorem format_date_examples :
  format_date "July 23rd, 2002" = "2002-07-23" /\
  format_date "July, 2002" = "2002-07-01" /\
  format_date "2002" = "2002-01-01" /\
  format_date "Unknown" = "" /\
  format_date " December 1st, 1999 " = "1999-12-01" /\
  format_date "July 2002" = "2002-07-01".
Proof. vm_compute. repeat split. Qed.

(** C19 (finding): the normaliser checks no range.  For every month
    name, every two-digit day from [00] to [99] and every ordinal suffix
    the site writes (or none), ["<Month> <dd><suffix>, 2002"] becomes
    ["2002-<mm>-<dd>"]: days [00] and [32]-[99] give strings of the
    [YYYY-MM-DD] shape that are not dates. *)
Theorem format_date_no_range_check mn d1 d2 sfx :
  In mn months -> py_isdigit d1 = true -> py_isdigit d2 = true -> In sfx ordinal_suffixes ->
  format_date (fst mn ++ " " ++ String d1 (String d2 (sfx ++ ", 2002"))) =
  "2002-" ++ snd mn ++ "-" ++ String d1 (String d2 "").
Proof.
  intros Hm H1 H2 Hs. apply digit_chars_spec in H1, H2.
  pose proof no_range_check_all as H.
  rewrite forallb_forall in H. specialize (H mn Hm). cbv beta in H.
  rewrite forallb_forall in H. specialize (H d1 H1). cbv beta in H.
  rewrite forallb_forall in H. specialize (H d2 H2). cbv beta in H.
  rewrite forallb_forall in H. specialize (H sfx Hs). cbv beta in H.
  exact (proj1 (String.eqb_eq _ _) H).
Qed.

(** [contains_unicode] is true exactly when some character has a
    code point above 127: true on ["café"], false on ["cafe"]. *)
Theorem contains_unicode_spec s :
  (contains_unicode s = true <-> exists c, In c (chars s) /\ 127 < ord c) /\
  contains_unicode ("caf" ++ String (chr 233) "") = true /\ contains_unicode "cafe" = false.
Proof.
  split; [|split; reflexivity]. unfold contains_unicode. rewrite existsb_exists.
  split; intros [c [Hin Hc]]; exists c; split; auto; apply Nat.ltb_lt; auto.
Qed.

(** ** Witnesses *)

Lemma format_date_no_range_check_witness :
  format_date ("July" ++ " " ++ String "9" (String "9" ("th" ++ ", 2002"))) =
  "2002-" ++ "07" ++ "-" ++ String "9" (String "9" "").
Proof.
  apply (format_date_no_range_check ("July", "07") "9" "9" "th");
    [simpl; tauto|reflexivity|reflexivity|simpl; tauto].
Defined.
