(* ===== verification/Quote.v ===== *)
(** * Quote: [urllib.parse.quote] and the decoding of [parse_qs]

    The search operations rewrite every result URL into this proxy's
    scheme, [f"http://localhost:{PORT}/album?url={quote(album_url)}"]
    ([src/proxy_ma.py], lines 159, 341, 481), and [do_GET] reads the
    parameter back with [parse_qs] (line 50), which applies
    [unquote_plus] to every value.

    [quote(s)] (default [safe='/']) encodes [s] to UTF-8 and keeps the
    bytes of [A-Z a-z 0-9 _ . - ~ /], writing every other byte as [%XX]
    with upper-case hex digits.  Bytes are Stdlib [byte]s.

    [unquote_plus(s)] replaces [+] by a space, then splits the text into
    runs of ASCII and non-ASCII characters; an ASCII run is
    percent-decoded to bytes and the bytes decoded as UTF-8, a non-ASCII
    run is kept as it is.  A UTF-8 decoding that would produce a code
    point outside Latin-1 (or Python's replacement character) is [None]:
    it falls outside the text the model represents.

    [unquote_plus_quote] proves the round trip for every Latin-1 string. *)

From Stdlib Require Import String Ascii List Bool Arith NArith Lia.
From Stdlib Require Import Strings.Byte.
From S2P Require Import Prelude.
Import ListNotations.
Open Scope N_scope.

(** ** UTF-8 on Latin-1 *)

Definition byte_N (b : byte) : N := Byte.to_N b.
Definition N_byte (n : N) : byte :=
  match Byte.of_N n with Some b => b | None => x00 end.

Definition utf8_encode_char (c : ascii) : list byte :=
  let n := N_of_ascii c in
  if n <? 128 then [N_byte n]
  else [N_byte (N.lor 192 (N.shiftr n 6)); N_byte (N.lor 128 (N.land n 63))].

Definition utf8_encode (l : list ascii) : list byte := concat (map utf8_encode_char l).

Fixpoint utf8_decode (bs : list byte) : option (list ascii) :=
  match bs with
  | [] => Some []
  | b :: bs' =>
      let n := byte_N b in
      if n <? 128 then option_map (cons (ascii_of_N n)) (utf8_decode bs')
      else if (194 <=? n) && (n <=? 195) then
        match bs' with
        | b2 :: bs'' =>
            let n2 := byte_N b2 in
            if (128 <=? n2) && (n2 <=? 191)
            then option_map (cons (ascii_of_N (N.lor (N.shiftl (N.land n 31) 6) (N.land n2 63))))
                   (utf8_decode bs'')
            else None
        | [] => None
        end
      else None
  end.

(** ** [quote] *)

(** [_ALWAYS_SAFE] of [urllib.parse] and the [safe='/'] argument. *)
Definition quote_safe (b : byte) : bool :=
  let n := byte_N b in
  ((65 <=? n) && (n <=? 90)) || ((97 <=? n) && (n <=? 122)) || ((48 <=? n) && (n <=? 57))
  || (n =? 95) || (n =? 46) || (n =? 45) || (n =? 126) || (n =? 47).

Definition hex_upper : string := "0123456789ABCDEF".

Definition hexchar (n : N) : ascii :=
  match String.get (N.to_nat n) hex_upper with Some a => a | None => "0"%char end.

(** [Quoter.__missing__]: the byte itself, or ['%{:02X}'.format(b)]. *)
Definition quote_byte (b : byte) : list ascii :=
  if quote_safe b then [ascii_of_N (byte_N b)]
  else ["%"%char; hexchar (byte_N b / 16); hexchar (byte_N b mod 16)].

Definition quote (s : string) : string :=
  str (concat (map quote_byte (utf8_encode (chars s)))).

(** ** [unquote_plus] *)

Definition hexval (c : ascii) : option N :=
  let n := N_of_ascii c in
  if (48 <=? n) && (n <=? 57) then Some (n - 48)
  else if (65 <=? n) && (n <=? 70) then Some (n - 55)
  else if (97 <=? n) && (n <=? 102) then Some (n - 87)
  else None.

(** [unquote_to_bytes] on an ASCII run: [%XX] with two hex digits is a
    byte, any other character stands for its own byte. *)
Fixpoint unquote_bytes (l : list ascii) : list byte :=
  match l with
  | [] => []
  | c :: l' =>
      if ceqb c "%" then
        match l' with
        | h1 :: h2 :: rest =>
            match hexval h1, hexval h2 with
            | Some a, Some b => N_byte (16 * a + b) :: unquote_bytes rest
            | _, _ => N_byte 37 :: unquote_bytes l'
            end
        | _ => N_byte 37 :: unquote_bytes l'
        end
      else N_byte (N_of_ascii c) :: unquote_bytes l'
  end.

Definition is_ascii (c : ascii) : bool := N_of_ascii c <? 128.

(** [_unquote_impl]: [pending] is the ASCII run read so far, reversed. *)
Fixpoint unquote_go (pending l : list ascii) : option (list ascii) :=
  match l with
  | [] => utf8_decode (unquote_bytes (rev pending))
  | c :: l' =>
      if is_ascii c then unquote_go (c :: pending) l'
      else match utf8_decode (unquote_bytes (rev pending)), unquote_go [] l' with
           | Some x, Some y => Some (x ++ c :: y)
           | _, _ => None
           end
  end.

Definition unquote (s : string) : option string := option_map str (unquote_go [] (chars s)).

(** [unquote_plus(s)] = [unquote(s.replace('+', ' '))]. *)
Definition unquote_plus (s : string) : option string := unquote (py_replace "+" " " s).

(** ** Per-character and per-byte facts, checked on all 256 values *)

Definition enc_ok (c : ascii) : bool :=
  match utf8_encode_char c with
  | [b] => (byte_N b <? 128) && ceqb (ascii_of_N (byte_N b)) c
  | [b1; b2] =>
      negb (byte_N b1 <? 128) && (194 <=? byte_N b1) && (byte_N b1 <=? 195)
      && (128 <=? byte_N b2) && (byte_N b2 <=? 191)
      && ceqb (ascii_of_N (N.lor (N.shiftl (N.land (byte_N b1) 31) 6) (N.land (byte_N b2) 63))) c
  | _ => false
  end.

Lemma enc_ok_all c : enc_ok c = true.
Proof. apply forall_chars. vm_compute. reflexivity. Qed.

Definition qb_ok (b : byte) : bool :=
  forallb (fun a => is_ascii a && negb (ceqb a "+")) (quote_byte b) &&
  match quote_byte b with
  | [a] => negb (ceqb a "%") && Byte.eqb (N_byte (N_of_ascii a)) b
  | [p; h1; h2] =>
      ceqb p "%" &&
      match hexval h1, hexval h2 with
      | Some x, Some y => Byte.eqb (N_byte (16 * x + y)) b
      | _, _ => false
      end
  | _ => false
  end.

Lemma qb_ok_all b : qb_ok b = true.
Proof.
  rewrite <- (byte_of_ascii_of_byte b). generalize (ascii_of_byte b). apply forall_chars.
  vm_compute. reflexivity.
Qed.

Lemma decode_encode_char c rest :
  utf8_decode (utf8_encode_char c ++ rest) = option_map (cons c) (utf8_decode rest).
Proof.
  pose proof (enc_ok_all c) as H. unfold enc_ok in H.
  destruct (utf8_encode_char c) as [|b1 [|b2 [|b3 l]]]; try discriminate.
  - apply andb_true_iff in H as [H1 H2]. apply ceqb_eq in H2.
    simpl. rewrite H1, H2. reflexivity.
  - repeat match goal with H : _ && _ = true |- _ => apply andb_true_iff in H as [? ?] end.
    match goal with H : negb _ = true |- _ => apply negb_true_iff in H end.
    match goal with H : ceqb _ c = true |- _ => apply ceqb_eq in H end.
    simpl. repeat match goal with H : ?x = _ |- context [?x] => rewrite H end.
    simpl. congruence.
Qed.

Lemma decode_encode l : utf8_decode (utf8_encode l) = Some l.
Proof.
  induction l as [|c l IH]; [reflexivity|].
  unfold utf8_encode in *. simpl. rewrite decode_encode_char, IH. reflexivity.
Qed.

Lemma unquote_quote_byte b rest :
  unquote_bytes (quote_byte b ++ rest) = b :: unquote_bytes rest.
Proof.
  pose proof (qb_ok_all b) as H. unfold qb_ok in H.
  apply andb_true_iff in H as [_ H].
  destruct (quote_byte b) as [|a [|h1 [|h2 [|x l]]]]; try discriminate.
  - apply andb_true_iff in H as [H1 H2]. apply negb_true_iff in H1.
    apply Byte.byte_dec_bl in H2. simpl. rewrite H1, H2. reflexivity.
  - apply andb_true_iff in H as [H1 H2]. apply ceqb_eq in H1. subst a.
    destruct (hexval h1) eqn:E1, (hexval h2) eqn:E2; try discriminate.
    apply Byte.byte_dec_bl in H2. cbn [app unquote_bytes]. try rewrite ceqb_refl.
    rewrite E1, E2, H2. reflexivity.
Qed.

Lemma unquote_bytes_quote bs :
  unquote_bytes (concat (map quote_byte bs)) = bs.
Proof.
  induction bs as [|b bs IH]; [reflexivity|].
  simpl. rewrite unquote_quote_byte, IH. reflexivity.
Qed.

Lemma quote_chars_clean bs :
  forallb (fun a => is_ascii a && negb (ceqb a "+")) (concat (map quote_byte bs)) = true.
Proof.
  induction bs as [|b bs IH]; [reflexivity|]. simpl. rewrite forallb_app, IH.
  pose proof (qb_ok_all b) as H. unfold qb_ok in H. apply andb_true_iff in H as [H _].
  rewrite H. reflexivity.
Qed.

Lemma unquote_go_ascii p l :
  forallb is_ascii l = true -> unquote_go p l = utf8_decode (unquote_bytes (rev p ++ l)).
Proof.
  revert p. induction l as [|c l IH]; intros p H; simpl.
  - rewrite app_nil_r. reflexivity.
  - apply andb_true_iff in H as [H1 H2]. rewrite H1, IH by exact H2.
    simpl. rewrite <- app_assoc. reflexivity.
Qed.

Lemma replace_plus_id f l :
  forallb (fun a => negb (ceqb a "+")) l = true -> lreplace_go f ["+"%char] [" "%char] l = l.
Proof.
  revert l. induction f as [|f IH]; intros l H; [reflexivity|].
  destruct l as [|c l]; [reflexivity|]. simpl in H. apply andb_true_iff in H as [H1 H2].
  apply negb_true_iff in H1.
  assert (Hp : lprefix ["+"%char] (c :: l) = false).
  { cbn [lprefix]. unfold ceqb in *. rewrite Ascii.eqb_sym, H1. reflexivity. }
  cbn [lreplace_go]. rewrite Hp. f_equal. apply IH. exact H2.
Qed.

(** [quote] works character by character. *)
Lemma quote_app a b : quote (a ++ b) = (quote a ++ quote b)%string.
Proof.
  unfold quote, utf8_encode. rewrite chars_app, map_app, concat_app, map_app, concat_app.
  apply str_app.
Qed.

(** ** Theorems *)

(** Round trip: for every Latin-1 string [u], [unquote_plus(quote(u))] gives back [u], so the URL that
    [do_GET] reads from [?url=...] is the one the search put there. *)
Theorem unquote_plus_quote u : unquote_plus (quote u) = Some u.
Proof.
  unfold unquote_plus, unquote, py_replace, quote.
  set (L := concat (map quote_byte (utf8_encode (chars u)))).
  pose proof (quote_chars_clean (utf8_encode (chars u))) as HC. fold L in HC.
  rewrite !chars_str. simpl.
  rewrite replace_plus_id.
  2: { rewrite forallb_forall in *. intros a Ha. specialize (HC a Ha).
       apply andb_true_iff in HC as [_ HC]. exact HC. }
  rewrite unquote_go_ascii.
  2: { rewrite forallb_forall in *. intros a Ha. specialize (HC a Ha).
       apply andb_true_iff in HC as [HC _]. exact HC. }
  simpl. unfold L. rewrite unquote_bytes_quote, decode_encode. simpl.
  rewrite str_chars. reflexivity.
Qed.

(** Query safety: every character of [quote(u)] is ASCII and none of [+], [&], [=], [#], [?] occurs, so [urlparse]
    and [parse_qs] see the whole of it as the value of one parameter. *)
Theorem quote_query_safe u :
  forallb (fun a => is_ascii a && negb (ceqb a "+") && negb (ceqb a "&")
                    && negb (ceqb a "=") && negb (ceqb a "#") && negb (ceqb a "?"))
    (chars (quote u)) = true.
Proof.
  unfold quote. rewrite chars_str. generalize (utf8_encode (chars u)) as bs.
  assert (Hb : forall b, forallb (fun a => is_ascii a && negb (ceqb a "+") && negb (ceqb a "&")
                    && negb (ceqb a "=") && negb (ceqb a "#") && negb (ceqb a "?"))
                  (quote_byte b) = true).
  { intros b. rewrite <- (byte_of_ascii_of_byte b). generalize (ascii_of_byte b).
    apply forall_chars. vm_compute. reflexivity. }
  induction bs as [|b bs IH]; [reflexivity|]. simpl. rewrite forallb_app, IH, Hb. reflexivity.
Qed.
