(* ===== verification/SearchRows.v ===== *)
(** * SearchRows: the row loops of the three search operations

    The AJAX answer of the search carries [aaData], a list of rows, each
    a list of HTML fragments.  [search_albums] and
    [search_albums_with_info] skip rows with fewer than four cells and
    build one hit per remaining row ([src/proxy_ma.py], lines 139-162 and
    461-484; they differ only in the route of the rewritten URL,
    [/album] or [/album_full]).  [search_artists] has no such filter
    (lines 326-343): it reads [row[0]], [row[1]] and [row[2]], and a
    shorter row raises [IndexError], which aborts the whole search.

    A hit is a record with the fields of the dictionary the code builds.
    The rewritten album URL of a hit carries the upstream URL through
    [quote]; [hit_url_roundtrip] and [hit_url_single_param] show that
    [do_GET] reads it back unchanged, as the single [url] parameter. *)

From Stdlib Require Import String Ascii List Bool Arith Lia.
From S2P Require Import Prelude PyRe DateFormat Quote.
Import ListNotations.
Open Scope string_scope.

(** [PORT = 5000], as it appears in the f-strings. *)
Definition PORT : string := "5000".

Definition dq : ascii := "034"%char.

(** [<.*?>] *)
Definition tag_re : re := seq [lit "<"; RRep (RChar cls_any) 0 None false; lit ">"].

(** [href=Q([^Q]+)Q>([^<]+)] where Q is the double quote character. *)
Definition href_re : re :=
  seq [lit_l (chars "href=" ++ [dq]); RGroup 1 (plus (RChar (cls_not dq)));
       lit_l [dq; ">"%char]; RGroup 2 (plus (RChar (cls_not "<"%char)))].

(** [<!--\s*(\d{4}-\d{2}-\d{2})\s*-->] *)
Definition comment_date_re : re :=
  seq [lit "<!--"; star s_;
       RGroup 1 (seq [exactly 4 d_; lit "-"; exactly 2 d_; lit "-"; exactly 2 d_]);
       star s_; lit "-->"].

(** [re.sub(r"<.*?>", "", html).strip()] *)
Definition strip_tags (html : string) : string := py_strip (re_sub tag_re "" html).

(** The URL and the text of the first match of [href_re], or two empty strings. *)
Definition anchor (html : string) : string * string :=
  match re_search href_re html with
  | Some mo => (group_s mo 1, group_s mo 2)
  | None => ("", "")
  end.

(** ** Album hits *)

Record album_hit := mk_album_hit {
  hit_artist : string;            (** ["artist"] *)
  hit_album : string;             (** ["album"] *)
  hit_url : string;               (** ["metal_archives_album_url"] *)
  hit_type : string;              (** ["metal_archives_type"] *)
  hit_year : string               (** ["year"] *)
}.

(** The body of the loop for a row [row[0..3]]; [route] is ["album"] or
    ["album_full"]. *)
Definition album_hit_of (route c0 c1 c2 c3 : string) : album_hit :=
  let artist_text := strip_tags c0 in
  let (album_url, album_title) := anchor c1 in
  let release_type := py_strip c2 in
  let release_year :=
    match re_search comment_date_re c3 with
    | Some mo => group_s mo 1
    | None => py_strip c3
    end in
  mk_album_hit artist_text album_title
    ("http://localhost:" ++ PORT ++ "/" ++ route ++ "?url=" ++ quote album_url)
    release_type release_year.

(** [for row in response_data["aaData"]: if len(row) < 4: continue; ...] *)
Fixpoint album_rows (route : string) (rows : list (list string)) : list album_hit :=
  match rows with
  | [] => []
  | row :: rs =>
      match row with
      | c0 :: c1 :: c2 :: c3 :: _ => album_hit_of route c0 c1 c2 c3 :: album_rows route rs
      | _ => album_rows route rs
      end
  end.

(** ** Artist hits *)

Record artist_hit := mk_artist_hit {
  ah_artist : string;             (** ["artist"] *)
  ah_genres : string;             (** ["artist_genres"] *)
  ah_url : string;                (** ["metal_archives_artist_url"] *)
  ah_country : string             (** ["country"] *)
}.

Definition artist_hit_of (c0 c1 c2 : string) : artist_hit :=
  let (artist_url, artist_name) := anchor c0 in
  mk_artist_hit artist_name (py_strip c1)
    ("http://localhost:" ++ PORT ++ "/artist_info?url=" ++ quote artist_url)
    (py_strip c2).

Definition index_error : string := "list index out of range".

(** The loop of [search_artists]: a row with fewer than three cells
    raises [IndexError] and the loop stops. *)
Fixpoint artist_rows (rows : list (list string)) : outcome (list artist_hit) :=
  match rows with
  | [] => Ok []
  | row :: rs =>
      match row with
      | c0 :: c1 :: c2 :: _ =>
          match artist_rows rs with
          | Ok l => Ok (artist_hit_of c0 c1 c2 :: l)
          | Exc e => Exc e
          end
      | _ => Exc index_error
      end
  end.

(** ** Theorems *)

(** A fragment with no double quote has no [href_re] match. *)
Lemma anchor_no_dquote c : ~ In dq (chars c) -> anchor c = ("", "").
Proof.
  intros Hc. unfold anchor. destruct (re_search href_re c) as [mo|] eqn:E; [exfalso|reflexivity].
  apply re_search_sound in E as (pre & suf & rest & Hs & HM & _).
  unfold href_re, seq in HM. inv HM.
  match goal with
  | H : Matches _ (RSeq (RChar (cls_eq "h"%char)) _) _ _ _ _ |- _ =>
      apply (matches_lit _ (chars "href=" ++ [dq])) in H as [-> _]
  end.
  apply Hc. rewrite Hs. apply in_app_iff. right. simpl. tauto.
Qed.

(** The hit of a row that has at least four cells. *)
Definition row_hit (route : string) (row : list string) : album_hit :=
  match row with
  | c0 :: c1 :: c2 :: c3 :: _ => album_hit_of route c0 c1 c2 c3
  | _ => mk_album_hit "" "" "" "" ""
  end.

(** C23: the album search loop keeps the rows with at least four cells,
    in the upstream order, and maps each to its hit: it is [map] after
    [filter]. *)
Theorem album_rows_filter_map route rows :
  album_rows route rows = map (row_hit route) (filter (fun r => Nat.leb 4 (length r)) rows).
Proof.
  induction rows as [|row rs IH]; [reflexivity|].
  destruct row as [|c0 [|c1 [|c2 [|c3 r]]]]; simpl; rewrite IH; reflexivity.
Qed.

(** C24 (finding): the anchor pattern requires [href] with double
    quotes, so a cell written with single quotes, as in the example row
    of the specification, yields no title and no URL: every album hit
    whose album cell holds no double quote has an empty album title and
    the rewritten URL [?url=] of the empty string, and every artist hit
    whose first cell holds none has an empty name and URL. *)
Theorem single_quoted_anchor_empty route rows :
  Forall (fun row => forall c1, nth_error row 1 = Some c1 -> ~ In dq (chars c1)) rows ->
  Forall (fun h => hit_album h = "" /\ hit_url h = "http://localhost:5000/" ++ route ++ "?url=")
    (album_rows route rows) /\
  forall c0 c1 c2, ~ In dq (chars c0) ->
    ah_artist (artist_hit_of c0 c1 c2) = "" /\
    ah_url (artist_hit_of c0 c1 c2) = "http://localhost:5000/artist_info?url=".
Proof.
  intros H. split.
  - induction H as [|row rs Hrow _ IH]; [constructor|].
    destruct row as [|c0 [|c1 [|c2 [|c3 r]]]]; simpl; auto.
    constructor; [|exact IH]. unfold album_hit_of. rewrite (anchor_no_dquote c1 (Hrow c1 eq_refl)).
    split; reflexivity.
  - intros c0 c1 c2 Hc. unfold artist_hit_of. rewrite (anchor_no_dquote c0 Hc). split; reflexivity.
Qed.

(** C25: error behaviour of the artist search loop: it fails with
    [IndexError] exactly when some row has fewer than three cells, and
    otherwise returns one hit per row. *)
Theorem artist_rows_error rows :
  (artist_rows rows = Exc index_error <-> exists r, In r rows /\ length r < 3) /\
  (Forall (fun r => 3 <= length r) rows ->
   exists l, artist_rows rows = Ok l /\ length l = length rows).
Proof.
  split.
  - induction rows as [|row rs IH]; simpl.
    + split; [discriminate|]. intros [r [[] _]].
    + destruct row as [|c0 [|c1 [|c2 r]]].
      1-3: split; [intros _; eexists; split; [left; reflexivity|simpl; lia]|reflexivity].
      destruct (artist_rows rs) as [l|e] eqn:E.
      * split; [discriminate|]. intros [r' [[<-|Hin] Hlen]]; [simpl in Hlen; lia|].
        assert (H : Ok l = Exc index_error) by (apply IH; eauto). discriminate.
      * split.
        -- intros [= ->]. destruct IH as [IH _]. destruct (IH eq_refl) as [r' [Hin Hl]]. eauto.
        -- intros [r' [[<-|Hin] Hlen]]; [simpl in Hlen; lia|]. f_equal.
           assert (H : @Exc (list artist_hit) e = Exc index_error) by (apply IH; eauto).
           congruence.
  - induction 1 as [|row rs Hrow Hrs IH]; [exists []; auto|].
    destruct IH as [l [E Hl]].
    destruct row as [|c0 [|c1 [|c2 r]]]; simpl in Hrow; try lia.
    exists (artist_hit_of c0 c1 c2 :: l). simpl. rewrite E. auto.
Qed.

(** ** Witnesses *)

Lemma artist_rows_error_witness :
  artist_rows [["a"; "b"; "c"]; ["d"]] = Exc index_error /\
  exists l, artist_rows [["a"; "b"; "c"]] = Ok l /\ length l = length [["a"; "b"; "c"]].
Proof.
  split.
  - apply (proj1 (artist_rows_error [["a"; "b"; "c"]; ["d"]])).
    exists ["d"]. split; [right; left; reflexivity|simpl; lia].
  - apply (proj2 (artist_rows_error [["a"; "b"; "c"]])). repeat constructor.
Defined.

(** ** The rewritten result URLs *)

(** C21: round trip of the rewritten album URL: the URL of a hit is
    [http://localhost:5000/<route>?url=q] where [q] decodes with
    [unquote_plus] (what [parse_qs] applies in [do_GET]) to the upstream
    album URL the row's link carries, for every Latin-1 row. *)
Theorem hit_url_roundtrip route c0 c1 c2 c3 :
  exists q, hit_url (album_hit_of route c0 c1 c2 c3) =
            ("http://localhost:5000/" ++ route ++ "?url=" ++ q)%string /\
            unquote_plus q = Some (fst (anchor c1)).
Proof.
  unfold album_hit_of. destruct (anchor c1) as [u t]. simpl.
  exists (quote u). split; [reflexivity|apply unquote_plus_quote].
Qed.

(** C22: the rewritten URL of a hit has one query parameter: after
    [?url=] it holds only ASCII characters and none of [+], [&], [=],
    [#] or [?], so [urlparse] and [parse_qs] read all of it as the value
    of [url]. *)
Theorem hit_url_single_param route c0 c1 c2 c3 :
  exists q, hit_url (album_hit_of route c0 c1 c2 c3) =
            ("http://localhost:5000/" ++ route ++ "?url=" ++ q)%string /\
            forallb (fun a => is_ascii a && negb (ceqb a "+") && negb (ceqb a "&")
                              && negb (ceqb a "=") && negb (ceqb a "#") && negb (ceqb a "?"))
              (chars q) = true.
Proof.
  unfold album_hit_of. destruct (anchor c1) as [u t]. simpl.
  exists (quote u). split; [reflexivity|apply quote_query_safe].
Qed.

(** The example row of the specification. *)
Definition spec_row : list string :=
  ["<a href='x'>Band</a>"; "<a href='y'>Album</a>"; "Full-length"; "<!-- 2002-07-23 -->Jul 2002"].

Lemma single_quoted_anchor_empty_witness :
  Forall (fun h => hit_album h = "" /\ hit_url h = "http://localhost:5000/" ++ "album" ++ "?url=")
    (album_rows "album" [spec_row]) /\
  forall c0 c1 c2, ~ In dq (chars c0) ->
    ah_artist (artist_hit_of c0 c1 c2) = "" /\
    ah_url (artist_hit_of c0 c1 c2) = "http://localhost:5000/artist_info?url=".
Proof.
  apply (single_quoted_anchor_empty "album" [spec_row]).
  repeat constructor. intros c1 E. injection E as <-.
  intros H. vm_compute in H. repeat (destruct H as [H|H]; [discriminate|]). exact H.
Defined.
