(* ===== verification/Orchestrator.v ===== *)
(** * Orchestrator: the fetch operations of [src/proxy_ma.py]

    The six operations [search_albums], [search_artists],
    [search_albums_with_info], [get_album], [get_artist_info] and
    [get_album_with_artist_info] run over a [proxy] world made of the
    shelve store ([Cache]) and the session manager ([Session]).  They are
    [PyM proxy json] computations: the values they return are JSON
    values, and an exception inside their [try] closes the session and
    becomes [{"error": str(e)}], as in the code.

    What the outside world answers during one request is an [env]: the
    clock reading, which engine calls raise, whether [page.goto] raises
    for a URL, the document loaded at a URL, the AJAX responses seen after
    navigating to a URL, and whether the debug files can be written.

    The HTML extraction of album and band pages is used through the
    interface [Extraction]: a page type and the two record builders (the
    album one may raise, as its selectors can), with the one fact the
    orchestrator relies on (the records have no ["error"] key).  [Pages]
    implements it with the BeautifulSoup queries. *)

From stdpp Require Import base gmap strings fin_maps list.
From Stdlib Require Import ZArith.
From S2P Require Import Prelude Cache Session PyRe Quote SearchRows.

Open Scope string_scope.
Open Scope py_scope.

(** ** JSON values *)

#[warnings="-register-all"]
Inductive json : Type :=
| JStr (s : string)
| JList (l : list json)
| JObj (kvs : list (string * json)).

Fixpoint jget (k : string) (kvs : list (string * json)) : option json :=
  match kvs with
  | [] => None
  | (k', v) :: rest => if String.eqb k k' then Some v else jget k rest
  end.

(** [key in d] for a dictionary. *)
Definition has_key (k : string) (j : json) : bool :=
  match j with
  | JObj kvs => match jget k kvs with Some _ => true | None => false end
  | _ => false
  end.

(** Python truthiness of a JSON value. *)
Definition json_truthy (j : json) : bool :=
  match j with
  | JStr s => py_truthy_str s
  | JList l => match l with [] => false | _ => true end
  | JObj kvs => match kvs with [] => false | _ => true end
  end.

(** [d.update(u)]: existing keys take the new value in place, new keys
    are appended. *)
Fixpoint dict_set (k : string) (v : json) (d : list (string * json)) : list (string * json) :=
  match d with
  | [] => [(k, v)]
  | (k', v') :: rest => if String.eqb k k' then (k, v) :: rest else (k', v') :: dict_set k v rest
  end.

Definition dict_update (d u : list (string * json)) : list (string * json) :=
  fold_left (fun acc kv => dict_set kv.1 kv.2 acc) u d.

Definition err (msg : string) : json := JObj [("error", JStr msg)].

(** ** The extraction interface *)

Class Extraction := {
  Page : Type;
  album_record : string -> Page -> outcome (list (string * json));
  band_record : string -> Page -> list (string * json);
  album_record_no_error : forall u p r, album_record u p = Ok r -> jget "error" r = None;
  band_record_no_error : forall u p, jget "error" (band_record u p) = None
}.

(** ** The world and the environment *)

Record proxy := mk_proxy {
  px_cache : gmap string (entry json);
  px_sess : world
}.

Record ajax_response := mk_resp {
  resp_url : string;
  resp_status : nat;
  resp_json : option (list (string * json))   (** [None]: [response.json()] raises *)
}.

Section Orchestrator.
Context `{X : Extraction}.

Record env := mk_env {
  e_now : Z;
  e_engine : oracle;
  e_goto_fails : string -> bool;
  e_page : string -> Page;
  e_responses : string -> list ajax_response;
  e_io_fails : bool
}.

Definition OM := PyM proxy.

(** Run a session method on the session part of the world. *)
Definition on_sess {A} (c : SM A) : OM A :=
  fun w => let (r, s') := c (px_sess w) in (r, mk_proxy (px_cache w) s').

Definition cache_get (k : string) (now : Z) : OM (option json) :=
  fun w => let (v, db) := get_data_from_cache k now (px_cache w) in
           (Ok v, mk_proxy db (px_sess w)).

Definition cache_put (k : string) (v : json) (now : Z) : OM unit :=
  py_modify (fun w => mk_proxy (save_in_cache k v now (px_cache w)) (px_sess w)).

Definition cache_sweep (now : Z) : OM unit :=
  py_modify (fun w => mk_proxy (cleanup_expired_cache (fun _ => now) (px_cache w)) (px_sess w)).

(** [page.on("response", handle_response)]: one more listener on [pg]. *)
Definition register_listener (pg : nat) : OM unit :=
  py_modify (fun w => mk_proxy (px_cache w)
                        (set_listeners (pg :: listeners (px_sess w)) (px_sess w))).

(** [page.goto(url, ..., timeout=60000)]. *)
Definition goto (ev : env) (url : string) : OM unit :=
  if e_goto_fails ev url then py_raise "Timeout 60000ms exceeded" else py_ret tt.

(** Writing one of the debug files. *)
Definition debug_write (ev : env) : OM unit :=
  if e_io_fails ev then py_raise "OSError" else py_ret tt.

(** [except Exception as e: PlaywrightSessionManager.close(); return {"error": str(e)}] *)
Definition on_error (ev : env) (e : string) : OM json :=
  do! on_sess (close (e_engine ev)) in py_ret (err e).

(** The page a session method returned; Python's [None] has no methods. *)
Definition need_page (p : option nat) : OM nat :=
  match p with Some x => py_ret x | None => py_raise "'NoneType' object has no attribute" end.

(** [cached = get_data_from_cache(cache_key); if cached: return cached]. *)
Definition cached_or (key : string) (now : Z) (fetch : OM json) : OM json :=
  let! c := cache_get key now in
  match c with
  | Some v => if json_truthy v then py_ret v else fetch
  | None => fetch
  end.

(** ** The AJAX searches *)

(** The dictionary [response_data] after [handle_response] has seen the
    responses [rs] in order: a matching [200] response whose [json()]
    succeeds is merged in with [update]; any other is ignored. *)
Definition capture (pat : string) (rs : list ajax_response) : list (string * json) :=
  fold_left (fun d r =>
               if py_in pat (resp_url r) && Nat.eqb (resp_status r) 200 then
                 match resp_json r with Some u => dict_update d u | None => d end
               else d) rs [].

Fixpoint opt_all {A} (l : list (option A)) : option (list A) :=
  match l with
  | [] => Some []
  | Some x :: rest => match opt_all rest with Some r => Some (x :: r) | None => None end
  | None :: _ => None
  end.

(** [response_data["aaData"]] read as rows of HTML strings. *)
Definition rows_of_json (j : json) : option (list (list string)) :=
  match j with
  | JList rows =>
      opt_all (map (fun r => match r with
                             | JList cells =>
                                 opt_all (map (fun c => match c with JStr s => Some s | _ => None end) cells)
                             | _ => None
                             end) rows)
  | _ => None
  end.

Definition album_hit_json (h : album_hit) : json :=
  JObj [("artist", JStr (hit_artist h)); ("album", JStr (hit_album h));
        ("metal_archives_album_url", JStr (hit_url h));
        ("metal_archives_type", JStr (hit_type h)); ("year", JStr (hit_year h))].

Definition artist_hit_json (h : artist_hit) : json :=
  JObj [("artist", JStr (ah_artist h)); ("artist_genres", JStr (ah_genres h));
        ("metal_archives_artist_url", JStr (ah_url h)); ("country", JStr (ah_country h))].

Definition results_json (l : list json) : json := JObj [("results", JList l)].

(** The [try] block shared by the three searches, from [start()] to
    [return {"results": results}]; [rows_to] is the row loop. *)
Definition ajax_search (ev : env) (pat full_url key : string)
    (rows_to : list (list string) -> outcome (list json)) : OM json :=
  py_try
    (let! pg := on_sess (start (e_engine ev) (e_now ev)) in
     let! p := need_page pg in
     do! register_listener p in
     do! goto ev full_url in
     match jget "aaData" (capture pat (e_responses ev full_url)) with
     | None => py_ret (err "Couldn't capture AJAX response")
     | Some aa =>
         match rows_of_json aa with
         | None => py_raise "TypeError"
         | Some rows =>
             match rows_to rows with
             | Exc e => py_raise e
             | Ok results =>
                 do! cache_put key (results_json results) (e_now ev) in
                 do! debug_write ev in
                 py_ret (results_json results)
             end
         end
     end)
    (on_error ev).

Definition albums_base : string :=
  "https://www.metal-archives.com/search/ajax-advanced/searching/albums/".
Definition albums_params : string :=
  "?releaseYearFrom=0001&releaseYearTo=9999&sEcho=1&iColumns=4&exactBandMatch=1".

(** The [if artist and album: ... else: return {"error": ...}] chain. *)
Definition album_query (artist album : string) : option string :=
  if py_truthy_str artist && py_truthy_str album then
    Some (albums_params ++ "&bandName=" ++ quote artist ++ "&releaseTitle=" ++ quote album)
  else if py_truthy_str artist then Some (albums_params ++ "&bandName=" ++ quote artist)
  else if py_truthy_str album then Some (albums_params ++ "&releaseTitle=" ++ quote album)
  else None.

Definition missing_search : json := err "Missing required values: 'artist' or 'album'".

Definition search_key (kind artist album : string) : string :=
  kind ++ ":" ++ artist ++ "|" ++ album.

Definition album_results (route : string) (rows : list (list string)) : outcome (list json) :=
  Ok (map album_hit_json (album_rows route rows)).

(** [search_albums(artist, album)] and [search_albums_with_info]: they
    differ in the key prefix and the route of the rewritten album URLs. *)
Definition album_search (kind route : string) (ev : env) (artist album : string) : OM json :=
  match album_query artist album with
  | None => py_ret missing_search
  | Some qp =>
      let full_url := albums_base ++ qp in
      let key := search_key kind artist album in
      cached_or key (e_now ev)
        (ajax_search ev "ajax-advanced/searching/albums" full_url key (album_results route))
  end.

Definition search_albums := album_search "search" "album".
Definition search_albums_with_info := album_search "search_full" "album_full".

Definition bands_base : string :=
  "https://www.metal-archives.com/search/ajax-advanced/searching/bands/".
Definition bands_params : string :=
  "?genre=&country=&yearCreationFrom=&yearCreationTo=&bandNotes=&status=&themes=&location=&bandLabelName=&sEcho=1&iColumns=3&sColumns=&iDisplayStart=0&iDisplayLength=200&exactBandMatch=1".

Definition artist_results (rows : list (list string)) : outcome (list json) :=
  match artist_rows rows with Ok l => Ok (map artist_hit_json l) | Exc e => Exc e end.

Definition search_artists (ev : env) (artist : string) : OM json :=
  if negb (py_truthy_str artist) then py_ret (err "Missing required value: 'artist'")
  else
    let full_url := bands_base ++ bands_params ++ "&bandName=" ++ quote artist in
    let key := search_key "search" artist "info" in
    cached_or key (e_now ev)
      (ajax_search ev "ajax-advanced/searching/bands" full_url key artist_results).

(** ** The page fetches *)

(** [get_album(url)]: sweep, cache, [get_page()], [goto], the HTML debug
    file, the record, the log file, [save_in_cache], the output file. *)
Definition get_album (ev : env) (url : string) : OM json :=
  py_try
    (do! cache_sweep (e_now ev) in
     let key := "album:" ++ url in
     cached_or key (e_now ev)
       (let! pg := on_sess (get_page (e_engine ev) (e_now ev) false) in
        let! _p := need_page pg in
        do! goto ev url in
        do! debug_write ev in
        let! record := py_lift (album_record url (e_page ev url)) in
        let result := JObj record in
        do! debug_write ev in
        do! cache_put key result (e_now ev) in
        do! debug_write ev in
        py_ret result))
    (on_error ev).

(** [get_artist_info(url)]: as [get_album], with [save_in_cache] after
    the two output files. *)
Definition get_artist_info (ev : env) (url : string) : OM json :=
  py_try
    (do! cache_sweep (e_now ev) in
     let key := "band:" ++ url in
     cached_or key (e_now ev)
       (let! pg := on_sess (get_page (e_engine ev) (e_now ev) false) in
        let! _p := need_page pg in
        do! goto ev url in
        do! debug_write ev in
        let result := JObj (band_record url (e_page ev url)) in
        do! debug_write ev in
        do! debug_write ev in
        do! cache_put key result (e_now ev) in
        py_ret result))
    (on_error ev).

(** [album_data.get("metal_archives_band_url", "")]; the album records
    store this field as a string (a [get_attr] result). *)
Definition band_url_of (j : json) : string :=
  match j with
  | JObj kvs => match jget "metal_archives_band_url" kvs with Some (JStr u) => u | _ => "" end
  | _ => ""
  end.

Definition composite_key (url : string) : string := "album_with_artist:" ++ url.

(** The body of [get_album_with_artist_info] after the cache miss, from
    [album_data = get_album(url)] to [return result]. *)
Definition composite_fetch (ev : env) (url key : string) : OM json :=
  let! album_data := get_album ev url in
  if has_key "error" album_data then py_ret album_data else
  let artist_url := band_url_of album_data in
  if negb (py_truthy_str artist_url) then py_ret (err "Artist's URL not found on album's data") else
  let! artist_data := get_artist_info ev artist_url in
  if has_key "error" artist_data then py_ret artist_data else
  let result := JObj [("metal_archives_album_url", JStr url);
                      ("metal_archives_artist_url", JStr artist_url);
                      ("album_data", album_data); ("artist_data", artist_data)] in
  do! cache_put key result (e_now ev) in
  do! debug_write ev in
  do! debug_write ev in
  py_ret result.

(** [get_album_with_artist_info(url)]. *)
Definition get_album_with_artist_info (ev : env) (url : string) : OM json :=
  py_try
    (do! cache_sweep (e_now ev) in
     let key := composite_key url in
     cached_or key (e_now ev) (composite_fetch ev url key))
    (on_error ev).

(** ** The dispatcher *)

(** [params.get(k, [""])[0]] over the result of [parse_qs], which never
    holds an empty list. *)
Definition param (k : string) (params : list (string * list string)) : string :=
  match List.find (fun kv => String.eqb kv.1 k) params with
  | Some (_, v :: _) => v
  | _ => ""
  end.

Definition missing_url : json := err "Missing parameter: 'url'".

(** [do_GET]: the JSON sent back, [None] when nothing is sent
    ([/favicon.ico]). *)
Definition do_GET (ev : env) (path : string) (params : list (string * list string))
    : OM (option json) :=
  let with_url (op : env -> string -> OM json) :=
    let url := param "url" params in
    if negb (py_truthy_str url) then py_ret (Some missing_url)
    else let! r := op ev url in py_ret (Some r) in
  if String.eqb path "/search" then
    let! r := search_albums ev (param "artist" params) (param "album" params) in py_ret (Some r)
  else if String.eqb path "/search_artist" then
    let! r := search_artists ev (param "artist" params) in py_ret (Some r)
  else if String.eqb path "/search_full" then
    let! r := search_albums_with_info ev (param "artist" params) (param "album" params) in
    py_ret (Some r)
  else if String.eqb path "/album" then with_url get_album
  else if String.eqb path "/album_full" then with_url get_album_with_artist_info
  else if String.eqb path "/artist_info" then with_url get_artist_info
  else if String.eqb path "/favicon.ico" then py_ret None
  else py_ret (Some (err "Invalid Path")).

End Orchestrator.

(** ** Frame lemmas: what each step does to the store at a key *)

Section Facts.
Context `{X : Extraction}.

(** The store holds [D] at [ck]. *)
Definition cache_at (ck : string) (D : option (entry json)) (w : proxy) : Prop :=
  px_cache w !! ck = D.

(** [D] survives a sweep or a read at [now]. *)
Definition live_at (now : Z) (D : option (entry json)) : Prop :=
  match D with None => True | Some e => expired now e = false end.

Lemma keeps_on_sess {A} ck D (c : SM A) : keeps (cache_at ck D) (on_sess c).
Proof. intros w H. unfold run_st, on_sess. by destruct (c (px_sess w)). Qed.

Lemma keeps_cache_get_other ck D k now : k <> ck -> keeps (cache_at ck D) (cache_get k now).
Proof.
  intros Hk w H. unfold run_st, cache_get, cache_at in *.
  destruct (get_data_from_cache k now (px_cache w)) as [v db] eqn:E. simpl.
  rewrite (get_other _ _ _ _ _ _ E); auto.
Qed.

Lemma keeps_cache_get_live ck D now : live_at now D -> keeps (cache_at ck D) (cache_get ck now).
Proof.
  intros HD w H. unfold run_st, cache_get, cache_at, live_at in *.
  destruct D as [e|].
  - by rewrite (get_live _ _ _ e).
  - by rewrite get_absent.
Qed.

Lemma keeps_cache_put ck D k v now : k <> ck -> keeps (cache_at ck D) (cache_put k v now).
Proof.
  intros Hk w H. unfold run_st, cache_put, py_modify, cache_at, save_in_cache in *. simpl.
  rewrite lookup_insert_ne; auto.
Qed.

Lemma keeps_cache_sweep ck D now : live_at now D -> keeps (cache_at ck D) (cache_sweep now).
Proof.
  intros HD w H. unfold run_st, cache_sweep, py_modify, cache_at, live_at in *. simpl.
  rewrite lookup_cleanup, H. destruct D as [e|]; [by rewrite HD|done].
Qed.

Lemma keeps_frame_modify ck D f :
  (forall w, px_cache (f w) = px_cache w) -> keeps (cache_at ck D) (py_modify f).
Proof. intros Hf. apply keeps_modify. intros w H. unfold cache_at. by rewrite Hf. Qed.

Lemma keeps_register_listener ck D p : keeps (cache_at ck D) (register_listener p).
Proof. by apply keeps_frame_modify. Qed.

Lemma keeps_goto ck D ev url : keeps (cache_at ck D) (goto ev url).
Proof. unfold goto. keeps_solve. Qed.

Lemma keeps_debug_write ck D ev : keeps (cache_at ck D) (debug_write ev).
Proof. unfold debug_write. keeps_solve. Qed.

Lemma keeps_need_page ck D p : keeps (cache_at ck D) (need_page p).
Proof. unfold need_page. keeps_solve. Qed.

#[local] Hint Resolve keeps_on_sess keeps_cache_get_other keeps_cache_get_live keeps_cache_put
  keeps_cache_sweep keeps_register_listener keeps_goto keeps_debug_write keeps_need_page : keeps.

Lemma keeps_on_error ck D ev e : keeps (cache_at ck D) (on_error ev e).
Proof. unfold on_error. keeps_solve. Qed.

#[local] Hint Resolve keeps_on_error : keeps.

(** Keys of different operations differ in their prefix. *)
Ltac keys_neq := unfold composite_key, search_key; let H := fresh in intro H; simpl in H; discriminate.

(** The page fetches touch the store only at their own key. *)
Lemma get_album_keeps ev url ck D :
  "album:" ++ url <> ck -> live_at (e_now ev) D -> keeps (cache_at ck D) (get_album ev url).
Proof. intros. unfold get_album, cached_or. cbv zeta. keeps_solve. Qed.

Lemma get_artist_info_keeps ev url ck D :
  "band:" ++ url <> ck -> live_at (e_now ev) D -> keeps (cache_at ck D) (get_artist_info ev url).
Proof. intros. unfold get_artist_info, cached_or. cbv zeta. keeps_solve. Qed.

Lemma on_error_total ev e : total (on_error ev e).
Proof.
  intros w. unfold on_error, py_bind, on_sess, py_ret.
  pose proof (close_ok (e_engine ev) (px_sess w)) as H. unfold run_out in H.
  destruct (close (e_engine ev) (px_sess w)) as [[u|m] s']; [eauto|discriminate].
Qed.

Lemma on_error_run ev e w :
  on_error ev e w = (Ok (err e), mk_proxy (px_cache w) (run_st (close (e_engine ev)) (px_sess w))).
Proof.
  unfold on_error, py_bind, on_sess, py_ret.
  pose proof (close_ok (e_engine ev) (px_sess w)) as H. unfold run_out, run_st in *.
  destruct (close (e_engine ev) (px_sess w)) as [[u|m] s']; [by destruct u|discriminate].
Qed.

Lemma get_album_total ev url : total (get_album ev url).
Proof. apply total_try, on_error_total. Qed.

Lemma get_artist_info_total ev url : total (get_artist_info ev url).
Proof. apply total_try, on_error_total. Qed.

(** A run of [c] from a state holding [D] at [ck] ends in one. *)
Lemma keeps_run {A} ck D (c : OM A) w r w' :
  keeps (cache_at ck D) c -> c w = (r, w') -> cache_at ck D w -> cache_at ck D w'.
Proof. intros Hk E H. specialize (Hk w H). unfold run_st in Hk. by rewrite E in Hk. Qed.

Lemma sweep_live now db k :
  live_at now (cleanup_expired_cache (fun _ => now) db !! k).
Proof.
  unfold live_at. rewrite lookup_cleanup.
  destruct (db !! k) as [e|]; [|done]. by destruct (expired now e) eqn:E.
Qed.

Lemma debug_write_ok ev w : e_io_fails ev = false -> debug_write ev w = (Ok tt, w).
Proof. intros H. unfold debug_write. by rewrite H. Qed.

(** A cached read either answers from the store or runs the fetch. *)
Lemma cached_or_inv ck D key now f w res w' :
  (key <> ck \/ (key = ck /\ live_at now D)) -> cache_at ck D w ->
  cached_or key now f w = (res, w') ->
  cache_at ck D w' \/ exists w1, cache_at ck D w1 /\ f w1 = (res, w').
Proof.
  intros Hk H E. unfold cached_or in E.
  assert (Hg : keeps (cache_at ck D) (cache_get key now))
    by (destruct Hk as [Hk|[-> Hk]]; eauto with keeps).
  run_inv E; [|unfold cache_get in Hc; destruct get_data_from_cache; discriminate].
  eapply keeps_run in Hc; [|exact Hg|exact H].
  destruct a as [v|]; [destruct (json_truthy v)|]; eauto.
  left. inversion E; subst; exact Hc.
Qed.

(** With writable debug files, the composite fetch either keeps the
    store at [ck] or returns a record without an ["error"] key. *)
Lemma composite_fetch_cases ev url ck D w res w' :
  e_io_fails ev = false -> ck = composite_key url -> live_at (e_now ev) D ->
  cache_at ck D w -> composite_fetch ev url ck w = (res, w') ->
  cache_at ck D w' \/ exists v, res = Ok v /\ has_key "error" v = false.
Proof.
  intros Hio -> HD H E. unfold composite_fetch in E. cbv zeta in E.
  run_inv E; [|destruct (get_album_total ev url w) as (? & ? & ?); congruence].
  eapply (keeps_run (composite_key url) D) in Hc; [|apply get_album_keeps; [keys_neq|exact HD]|exact H].
  destruct (has_key "error" a); [inversion E; subst; auto|].
  destruct (negb _); [inversion E; subst; auto|].
  run_inv E; [|destruct (get_artist_info_total ev (band_url_of a) s) as (? & ? & ?); congruence].
  eapply (keeps_run (composite_key url) D) in Hc0; [|apply get_artist_info_keeps; [keys_neq|exact HD]|exact Hc].
  destruct (has_key "error" a0); [inversion E; subst; auto|].
  run_inv E; [|discriminate].
  rewrite (py_bind_ok _ _ _ tt _ (debug_write_ok _ _ Hio)),
    (py_bind_ok _ _ _ tt _ (debug_write_ok _ _ Hio)) in E.
  inversion E; subst. right. eexists; split; reflexivity.
Qed.

(** C26: when the debug files can be written, a failed
    album-with-artist request writes no composite entry: if
    [get_album_with_artist_info] returns an error object (a failed album
    fetch, a missing band URL, a failed artist fetch, an exception), the
    store holds at its composite key what the pre-flight sweep left
    there, so no partial composite is cached (specification, section 8).
    The condition is needed: [composite_cached_despite_error] (C34) shows
    an error answer after the composite was stored when a debug write
    fails. *)
Theorem composite_no_partial ev url w r w' :
  e_io_fails ev = false ->
  get_album_with_artist_info ev url w = (Ok r, w') -> has_key "error" r = true ->
  px_cache w' !! composite_key url =
  cleanup_expired_cache (fun _ => e_now ev) (px_cache w) !! composite_key url.
Proof.
  intros Hio E Herr.
  set (D := cleanup_expired_cache _ _ !! composite_key url).
  change (cache_at (composite_key url) D w'). assert (HD : live_at (e_now ev) D) by apply sweep_live.
  unfold get_album_with_artist_info, py_try in E. cbv zeta in E.
  rewrite (py_bind_ok _ _ _ tt (run_st (cache_sweep (e_now ev)) w)) in E by reflexivity.
  destruct (cached_or _ _ _ _) as [res w2] eqn:Eb.
  apply cached_or_inv with (ck := composite_key url) (D := D) in Eb
    as [Hw2|(w1 & Hw1 & Ef)]; [| |by right|done].
  - destruct res; [inversion E; subst; done|].
    eapply keeps_run; [apply keeps_on_error|exact E|done].
  - apply composite_fetch_cases with (D := D) in Ef as [Hw2|(v & -> & Hv)]; auto.
    + destruct res; [inversion E; subst; done|].
      eapply keeps_run; [apply keeps_on_error|exact E|done].
    + inversion E; subst. congruence.
Qed.

(** ** Runs of the search operations *)

Lemma cached_or_hit key now f w e :
  px_cache w !! key = Some e -> expired now e = false -> json_truthy (data e) = true ->
  cached_or key now f w = (Ok (data e), w).
Proof.
  intros Hk He Ht. unfold cached_or, cache_get, py_bind.
  rewrite (get_live _ _ _ e Hk He), Ht. by destruct w.
Qed.

Lemma cached_or_miss key now f w :
  px_cache w !! key = None -> cached_or key now f w = f w.
Proof.
  intros Hk. unfold cached_or, cache_get, py_bind. rewrite (get_absent _ _ _ Hk). by destruct w.
Qed.

Section Search.
Variables (ev : env) (pat url key : string) (rows_to : list (list string) -> outcome (list json)).
Variables (w : proxy) (p : nat) (s1 : world).
Hypothesis Hstart : start (e_engine ev) (e_now ev) (px_sess w) = (Ok (Some p), s1).
Hypothesis Hgoto : e_goto_fails ev url = false.

Definition with_listener : world := set_listeners (p :: listeners s1) s1.

Lemma ajax_search_ok aa rows res :
  e_io_fails ev = false ->
  jget "aaData" (capture pat (e_responses ev url)) = Some aa ->
  rows_of_json aa = Some rows -> rows_to rows = Ok res ->
  ajax_search ev pat url key rows_to w =
  (Ok (results_json res),
   mk_proxy (<[key := mk_entry (e_now ev) (results_json res)]> (px_cache w)) with_listener).
Proof.
  intros Hio Ha Hr Hres.
  unfold ajax_search, py_try, py_bind, on_sess, need_page, register_listener, goto,
    debug_write, cache_put, py_modify, py_ret, py_raise.
  rewrite Hstart. cbn [px_cache px_sess]. rewrite Hgoto, Ha, Hr, Hres, Hio. reflexivity.
Qed.

Lemma ajax_search_no_capture :
  jget "aaData" (capture pat (e_responses ev url)) = None ->
  ajax_search ev pat url key rows_to w =
  (Ok (err "Couldn't capture AJAX response"), mk_proxy (px_cache w) with_listener).
Proof.
  intros Ha.
  unfold ajax_search, py_try, py_bind, on_sess, need_page, register_listener, goto,
    py_modify, py_ret, py_raise.
  rewrite Hstart. cbn [px_cache px_sess]. rewrite Hgoto, Ha. reflexivity.
Qed.

End Search.

(** Whatever the session does, a navigation failure ends in [close()]
    and an error object, with the store as it was. *)
Lemma ajax_search_goto_fails ev pat url key rows_to w :
  e_goto_fails ev url = true ->
  exists msg s2, ajax_search ev pat url key rows_to w =
    (Ok (err msg), mk_proxy (px_cache w) (run_st (close (e_engine ev)) s2)).
Proof.
  intros Hg.
  unfold ajax_search, py_try, py_bind, on_sess, need_page, register_listener, goto,
    py_modify, py_ret, py_raise.
  destruct (start (e_engine ev) (e_now ev) (px_sess w)) as [[[pg|]|m] s1]; cbn [px_cache px_sess];
    [rewrite Hg| |]; do 2 eexists; exact (on_error_run ev _ (mk_proxy _ _)).
Qed.

Lemma fresh_entry_live now now' (v : json) :
  (now' - now <= ttl)%Z -> expired now' (mk_entry now v) = false.
Proof. intros H. apply expired_false_iff. simpl. exact H. Qed.

Lemma results_truthy l : json_truthy (results_json l) = true.
Proof. reflexivity. Qed.

(** ** The search operations *)

(** A search whose key holds a live, non-empty entry is answered
    from the store: [search_albums] returns the stored value and changes
    neither the store nor the session. *)
Theorem search_albums_cache_hit ev artist album w e :
  album_query artist album <> None ->
  px_cache w !! search_key "search" artist album = Some e ->
  expired (e_now ev) e = false -> json_truthy (data e) = true ->
  search_albums ev artist album w = (Ok (data e), w).
Proof.
  intros Hq Hk He Ht. unfold search_albums, album_search.
  destruct (album_query artist album); [|congruence]. by apply cached_or_hit.
Qed.

(** C28: on a cache miss, a search whose page loads and whose AJAX answer
    carries [aaData] returns [{"results": ...}] built by the row loop,
    stores it under its key with the request time, and registers one
    response listener on the session's page; any repetition of the
    request within the TTL is then answered from the store and changes
    nothing. *)
Theorem search_albums_fetch_then_hit ev artist album qp w p s1 aa rows :
  album_query artist album = Some qp ->
  px_cache w !! search_key "search" artist album = None ->
  start (e_engine ev) (e_now ev) (px_sess w) = (Ok (Some p), s1) ->
  e_goto_fails ev (albums_base ++ qp) = false -> e_io_fails ev = false ->
  jget "aaData" (capture "ajax-advanced/searching/albums" (e_responses ev (albums_base ++ qp))) = Some aa ->
  rows_of_json aa = Some rows ->
  let R := results_json (map album_hit_json (album_rows "album" rows)) in
  let w' := mk_proxy (<[search_key "search" artist album := mk_entry (e_now ev) R]> (px_cache w))
                     (with_listener p s1) in
  search_albums ev artist album w = (Ok R, w') /\
  forall ev', (e_now ev' - e_now ev <= ttl)%Z -> search_albums ev' artist album w' = (Ok R, w').
Proof.
  intros Hq Hk Hs Hg Hio Ha Hr R w'. unfold search_albums, album_search. rewrite Hq. cbv zeta.
  split.
  - rewrite cached_or_miss by exact Hk. by erewrite ajax_search_ok.
  - intros ev' Ht. apply (cached_or_hit _ _ _ _ (mk_entry (e_now ev) R)).
    + apply lookup_insert_eq.
    + by apply fresh_entry_live.
    + apply results_truthy.
Qed.

(** C29: on a cache miss, a search whose navigation fails returns an
    error object, leaves the store as it was and closes the session
    ([is_active()] is false), whatever the engine did before. *)
Theorem search_albums_nav_failure ev artist album qp w :
  album_query artist album = Some qp ->
  px_cache w !! search_key "search" artist album = None ->
  e_goto_fails ev (albums_base ++ qp) = true ->
  (exists msg, run_out (search_albums ev artist album) w = Ok (err msg)) /\
  px_cache (run_st (search_albums ev artist album) w) = px_cache w /\
  is_active (px_sess (run_st (search_albums ev artist album) w)) = false.
Proof.
  intros Hq Hk Hg. unfold search_albums, album_search. rewrite Hq. cbv zeta.
  unfold run_out, run_st. rewrite cached_or_miss by exact Hk.
  destruct (ajax_search_goto_fails ev "ajax-advanced/searching/albums" _
              (search_key "search" artist album) (album_results "album") w Hg) as (msg & s2 & ->).
  simpl. destruct (close_state (e_engine ev) s2) as [cl ->]. eauto.
Qed.

(** C30: on a cache miss, when no AJAX answer with [aaData] is seen the
    search returns the soft error ["Couldn't capture AJAX response"]
    without closing the session and without writing the store; the
    response listener it registered stays on the page. *)
Theorem search_albums_no_capture ev artist album qp w p s1 :
  album_query artist album = Some qp ->
  px_cache w !! search_key "search" artist album = None ->
  start (e_engine ev) (e_now ev) (px_sess w) = (Ok (Some p), s1) ->
  e_goto_fails ev (albums_base ++ qp) = false ->
  jget "aaData" (capture "ajax-advanced/searching/albums" (e_responses ev (albums_base ++ qp))) = None ->
  search_albums ev artist album w =
  (Ok (err "Couldn't capture AJAX response"), mk_proxy (px_cache w) (with_listener p s1)).
Proof.
  intros Hq Hk Hs Hg Ha. unfold search_albums, album_search. rewrite Hq. cbv zeta.
  rewrite cached_or_miss by exact Hk. by apply ajax_search_no_capture.
Qed.

(** C31 (finding): [search_artists(artist)] caches under
    ["search:<artist>|info"], the key of [search_albums(artist, "info")];
    after a successful artist search, an album search for the title
    ["info"] within the TTL returns the artist hits. *)
Theorem search_key_collision ev ev' artist w p s1 aa rows l :
  py_truthy_str artist = true ->
  px_cache w !! search_key "search" artist "info" = None ->
  start (e_engine ev) (e_now ev) (px_sess w) = (Ok (Some p), s1) ->
  e_goto_fails ev (bands_base ++ bands_params ++ "&bandName=" ++ quote artist) = false ->
  e_io_fails ev = false ->
  jget "aaData" (capture "ajax-advanced/searching/bands"
                   (e_responses ev (bands_base ++ bands_params ++ "&bandName=" ++ quote artist))) = Some aa ->
  rows_of_json aa = Some rows -> artist_rows rows = Ok l ->
  (e_now ev' - e_now ev <= ttl)%Z ->
  run_out (search_albums ev' artist "info") (run_st (search_artists ev artist) w) =
  Ok (results_json (map artist_hit_json l)).
Proof.
  intros Ht Hk Hs Hg Hio Ha Hr Hl Hnow.
  assert (Hres : artist_results rows = Ok (map artist_hit_json l)) by (unfold artist_results; by rewrite Hl).
  unfold search_artists. rewrite Ht. cbn [negb]. cbv zeta. unfold run_st at 1.
  rewrite cached_or_miss by exact Hk. erewrite ajax_search_ok by eassumption.
  unfold search_albums, album_search, album_query. rewrite Ht. cbn [andb py_truthy_str snd]. cbv zeta.
  unfold run_out. rewrite (cached_or_hit _ _ _ _ (mk_entry (e_now ev) (results_json (map artist_hit_json l))));
    [reflexivity|apply lookup_insert_eq|by apply fresh_entry_live|apply results_truthy].
Qed.

(** ** The page fetches and the dispatcher *)

(** C32: on a miss after the pre-flight sweep, [get_album(url)] with a
    page from [get_page()], a navigation that succeeds and writable debug
    files returns the album record of the loaded page and stores it under
    ["album:<url>"] at the request time; the session is the one
    [get_page()] left. *)
Theorem get_album_fetch ev url w p s1 r :
  cleanup_expired_cache (fun _ => e_now ev) (px_cache w) !! ("album:" ++ url) = None ->
  get_page (e_engine ev) (e_now ev) false (px_sess w) = (Ok (Some p), s1) ->
  e_goto_fails ev url = false -> e_io_fails ev = false ->
  album_record url (e_page ev url) = Ok r ->
  let R := JObj r in
  get_album ev url w =
  (Ok R, mk_proxy (<["album:" ++ url := mk_entry (e_now ev) R]>
                     (cleanup_expired_cache (fun _ => e_now ev) (px_cache w))) s1).
Proof.
  intros Hk Hp Hg Hio Hr R. unfold get_album. cbv zeta.
  unfold py_try. rewrite (py_bind_ok _ _ _ tt (run_st (cache_sweep (e_now ev)) w)) by reflexivity.
  rewrite cached_or_miss by exact Hk.
  unfold py_bind, on_sess, need_page, goto, debug_write, cache_put, py_modify, py_ret, py_lift.
  cbn [run_st snd cache_sweep py_modify px_sess px_cache].
  rewrite Hp, Hg, Hio, Hr. reflexivity.
Qed.

(** When the record raises, [get_album] goes to its [except]: an error
    object with the message, the swept store, the session closed. *)
Lemma get_album_record_fails ev url w p s1 m :
  cleanup_expired_cache (fun _ => e_now ev) (px_cache w) !! ("album:" ++ url) = None ->
  get_page (e_engine ev) (e_now ev) false (px_sess w) = (Ok (Some p), s1) ->
  e_goto_fails ev url = false -> e_io_fails ev = false ->
  album_record url (e_page ev url) = Exc m ->
  get_album ev url w =
  (Ok (err m), mk_proxy (cleanup_expired_cache (fun _ => e_now ev) (px_cache w))
                        (run_st (close (e_engine ev)) s1)).
Proof.
  intros Hk Hp Hg Hio Hr. unfold get_album. cbv zeta.
  unfold py_try. rewrite (py_bind_ok _ _ _ tt (run_st (cache_sweep (e_now ev)) w)) by reflexivity.
  rewrite cached_or_miss by exact Hk.
  unfold py_bind at 1, on_sess, need_page, goto, debug_write, py_bind, py_modify, py_ret, py_lift.
  cbn [run_st snd cache_sweep py_modify px_sess px_cache].
  rewrite Hp, Hg, Hio, Hr. apply on_error_run.
Qed.

(** C33: missing parameters are reported at once, with the store and the
    session unchanged: [/album], [/album_full] and [/artist_info] without
    a [url], [/search] and [/search_full] without [artist] and [album],
    [/search_artist] without [artist] (specification, section 7 (a)). *)
Theorem do_GET_missing_params ev params w :
  (py_truthy_str (param "url" params) = false ->
   forall path, In path ["/album"; "/album_full"; "/artist_info"] ->
   do_GET ev path params w = (Ok (Some missing_url), w)) /\
  (py_truthy_str (param "artist" params) = false ->
   py_truthy_str (param "album" params) = false ->
   do_GET ev "/search" params w = (Ok (Some missing_search), w) /\
   do_GET ev "/search_full" params w = (Ok (Some missing_search), w) /\
   do_GET ev "/search_artist" params w = (Ok (Some (err "Missing required value: 'artist'")), w)).
Proof.
  split.
  - intros Hu path Hp. destruct Hp as [<-|[<-|[<-|[]]]]; unfold do_GET; cbv zeta; rewrite Hu; reflexivity.
  - intros Ha Hb. unfold do_GET, search_albums, search_albums_with_info, album_search, album_query,
      search_artists.
    rewrite Ha, Hb. repeat split.
Qed.

(** ** No error object is ever cached *)

Definition no_cached_error (w : proxy) : Prop :=
  forall k e, px_cache w !! k = Some e -> has_key "error" (data e) = false.

Lemma nce_frame {A} (c : OM A) :
  (forall w, px_cache (run_st c w) = px_cache w) -> keeps no_cached_error c.
Proof. intros Hc w H k e. rewrite Hc. apply H. Qed.

Lemma nce_on_sess {A} (c : SM A) : keeps no_cached_error (on_sess c).
Proof. apply nce_frame. intros w. unfold run_st, on_sess. by destruct (c (px_sess w)). Qed.

Lemma nce_register_listener p : keeps no_cached_error (register_listener p).
Proof. by apply nce_frame. Qed.

Lemma nce_goto ev url : keeps no_cached_error (goto ev url).
Proof. apply nce_frame. intros w. unfold goto. by destruct (e_goto_fails ev url). Qed.

Lemma nce_debug_write ev : keeps no_cached_error (debug_write ev).
Proof. apply nce_frame. intros w. unfold debug_write. by destruct (e_io_fails ev). Qed.

Lemma nce_need_page p : keeps no_cached_error (need_page p).
Proof. apply nce_frame. intros w. unfold need_page. by destruct p. Qed.

Lemma nce_cache_get k now : keeps no_cached_error (cache_get k now).
Proof.
  intros w H j e. unfold run_st, cache_get, get_data_from_cache. simpl.
  destruct (px_cache w !! k) as [e'|] eqn:E; [|apply H].
  destruct (expired now e'); simpl; [|apply H].
  rewrite delete_from_cache_delete, lookup_delete_Some. intros [_ Hj]. exact (H j e Hj).
Qed.

Lemma nce_cache_sweep now : keeps no_cached_error (cache_sweep now).
Proof.
  intros w H j e. unfold run_st, cache_sweep, py_modify. simpl. rewrite lookup_cleanup.
  destruct (px_cache w !! j) as [e'|] eqn:E; [|discriminate].
  destruct (expired now e'); [discriminate|]. intros [= <-]. exact (H j e' E).
Qed.

Lemma nce_cache_put k v now :
  has_key "error" v = false -> keeps no_cached_error (cache_put k v now).
Proof.
  intros Hv w H j e. unfold run_st, cache_put, py_modify, save_in_cache. simpl.
  rewrite lookup_insert_Some. intros [[<- <-]|[_ Hj]]; [exact Hv|exact (H j e Hj)].
Qed.

(** The interface law: an album or band record is not an error object. *)
Lemma album_json_no_error u pg r :
  album_record u pg = Ok r -> has_key "error" (JObj r) = false.
Proof. intros H. unfold has_key. by rewrite (album_record_no_error u pg r H). Qed.

Lemma band_json_no_error u pg : has_key "error" (JObj (band_record u pg)) = false.
Proof. unfold has_key. by rewrite band_record_no_error. Qed.

#[local] Hint Resolve nce_on_sess nce_register_listener nce_goto nce_debug_write nce_need_page
  nce_cache_get nce_cache_sweep nce_cache_put band_json_no_error : keeps.
#[local] Hint Extern 1 (has_key _ _ = false) => reflexivity : keeps.

Lemma nce_on_error ev e : keeps no_cached_error (on_error ev e).
Proof. unfold on_error. keeps_solve. Qed.

#[local] Hint Resolve nce_on_error : keeps.

Lemma nce_ajax_search ev pat url key rows_to :
  keeps no_cached_error (ajax_search ev pat url key rows_to).
Proof. unfold ajax_search. keeps_solve. Qed.

Lemma nce_get_album ev url : keeps no_cached_error (get_album ev url).
Proof.
  unfold get_album, cached_or. cbv zeta.
  pose proof (album_json_no_error url (e_page ev url)) as Ha.
  destruct (album_record url (e_page ev url)) as [r|m]; [specialize (Ha r eq_refl)|]; keeps_solve.
Qed.

Lemma nce_get_artist_info ev url : keeps no_cached_error (get_artist_info ev url).
Proof. unfold get_artist_info, cached_or. cbv zeta. keeps_solve. Qed.

#[local] Hint Resolve nce_ajax_search nce_get_album nce_get_artist_info : keeps.

Lemma nce_do_GET ev path params : keeps no_cached_error (do_GET ev path params).
Proof.
  unfold do_GET, search_albums, search_albums_with_info, album_search, search_artists,
    get_album_with_artist_info, composite_fetch, cached_or.
  cbv zeta. keeps_solve.
Qed.

(** A fetch of [get_album]'s shape on a live, truthy entry: the sweep,
    then the entry. *)
Lemma swept_hit key now (f : OM json) h w e :
  px_cache w !! key = Some e -> expired now e = false -> json_truthy (data e) = true ->
  py_try (do! cache_sweep now in cached_or key now f) h w =
  (Ok (data e), mk_proxy (cleanup_expired_cache (fun _ => now) (px_cache w)) (px_sess w)).
Proof.
  intros Hk He Ht. unfold py_try.
  rewrite (py_bind_ok _ _ _ tt (run_st (cache_sweep now) w)) by reflexivity.
  rewrite (cached_or_hit _ _ _ _ e); [reflexivity| |exact He|exact Ht].
  simpl. rewrite lookup_cleanup, Hk, He. reflexivity.
Qed.

(** A live entry survives the sweep at the same time. *)
Lemma sweep_keeps_live now (db : gmap string (entry json)) k e :
  db !! k = Some e -> expired now e = false ->
  cleanup_expired_cache (fun _ => now) db !! k = Some e.
Proof. intros Hk He. rewrite lookup_cleanup, Hk, He. reflexivity. Qed.

(** C15: on a miss after the pre-flight sweep, a navigation failure in
    [get_album] yields an error object, writes nothing to the store (it
    is what the sweep left) and closes the session, whatever the engine
    did before. *)
Theorem get_album_nav_failure ev url w :
  cleanup_expired_cache (fun _ => e_now ev) (px_cache w) !! ("album:" ++ url) = None ->
  e_goto_fails ev url = true ->
  (exists msg, run_out (get_album ev url) w = Ok (err msg)) /\
  px_cache (run_st (get_album ev url) w) = cleanup_expired_cache (fun _ => e_now ev) (px_cache w) /\
  is_active (px_sess (run_st (get_album ev url) w)) = false.
Proof.
  intros Hk Hg. unfold get_album. cbv zeta. unfold run_out, run_st, py_try.
  rewrite (py_bind_ok _ _ _ tt (run_st (cache_sweep (e_now ev)) w)) by reflexivity.
  rewrite cached_or_miss by exact Hk.
  unfold py_bind at 1, on_sess, need_page, goto, py_bind, py_ret, py_raise.
  cbn [run_st snd cache_sweep py_modify px_sess px_cache].
  destruct (get_page (e_engine ev) (e_now ev) false (px_sess w)) as [[[p|]|m] s1];
    [rewrite Hg| |]; rewrite on_error_run; cbn [fst snd px_cache px_sess];
    (split; [eauto|split; [reflexivity|]]);
    match goal with |- context [run_st (close ?o) ?s] => destruct (close_state o s) as [cl ->] end;
    reflexivity.
Qed.

(** C16: [get_album] answers from the store when the album key holds a
    live, non-empty entry: it returns the entry and leaves the session as
    it was; the store is the swept one. *)
Theorem get_album_cache_hit ev url w e :
  px_cache w !! ("album:" ++ url) = Some e -> expired (e_now ev) e = false ->
  json_truthy (data e) = true ->
  get_album ev url w =
  (Ok (data e), mk_proxy (cleanup_expired_cache (fun _ => e_now ev) (px_cache w)) (px_sess w)).
Proof.
  intros Hk He Ht. unfold get_album. cbv zeta. exact (swept_hit _ _ _ _ w e Hk He Ht).
Qed.

(** ** Request interception *)

(** C40 (finding): [_handle_route] aborts every request whose URL
    contains ["doubleclick"], the main document included: an album search
    for an artist whose name contains ["doubleclick"] builds a search URL
    that the session's own route handler aborts, so that search can only
    fail, although the specification says the filter drops sub-resources
    and leaves the primary document alone. *)
Theorem route_aborts_search_document artist album qp :
  album_query artist album = Some qp -> py_in "doubleclick" artist = true ->
  _handle_route (albums_base ++ qp) "document" = Abort.
Proof.
  intros Hq Hd. unfold _handle_route.
  destruct (py_in_split _ _ Hd) as (a & b & ->).
  assert (Hq0 : py_in "doubleclick" (quote (a ++ "doubleclick" ++ b)) = true).
  { rewrite !quote_app. apply py_in_app_l, py_in_app_r, py_in_refl. }
  assert (Ht : py_truthy_str (a ++ "doubleclick" ++ b) = true) by (destruct a; reflexivity).
  unfold album_query in Hq. rewrite Ht in Hq.
  destruct (py_truthy_str album); simpl in Hq; injection Hq as <-;
    [pose proof (py_in_app_r _ _ ("&releaseTitle=" ++ quote album) Hq0) as H1|pose proof Hq0 as H1];
    rewrite (py_in_app_l _ _ _ (py_in_app_l _ _ _ (py_in_app_l _ _ _ H1))), orb_true_r; reflexivity.
Qed.


(** C34 (finding): when the album and its band are cached but the
    debug files cannot be written, [get_album_with_artist_info] stores the
    composite record and then fails on its output file: the client gets
    an error object, the session is closed, and the composite entry is in
    the store, so the next request is answered with it. *)
Theorem composite_cached_despite_error ev url w ea eb :
  let A := data ea in
  let b := band_url_of A in
  px_cache w !! composite_key url = None ->
  px_cache w !! ("album:" ++ url) = Some ea -> expired (e_now ev) ea = false ->
  json_truthy A = true -> has_key "error" A = false -> py_truthy_str b = true ->
  px_cache w !! ("band:" ++ b) = Some eb -> expired (e_now ev) eb = false ->
  json_truthy (data eb) = true -> has_key "error" (data eb) = false ->
  e_io_fails ev = true ->
  let R := JObj [("metal_archives_album_url", JStr url); ("metal_archives_artist_url", JStr b);
                 ("album_data", A); ("artist_data", data eb)] in
  run_out (get_album_with_artist_info ev url) w = Ok (err "OSError") /\
  px_cache (run_st (get_album_with_artist_info ev url) w) !! composite_key url =
    Some (mk_entry (e_now ev) R) /\
  is_active (px_sess (run_st (get_album_with_artist_info ev url) w)) = false.
Proof.
  intros A b Hck Ha Hea HtA HeA Hb Hbk Heb Htb HeB Hio R.
  enough (E : exists db ss, get_album_with_artist_info ev url w =
            (Ok (err "OSError"), mk_proxy (<[composite_key url := mk_entry (e_now ev) R]> db)
                                          (run_st (close (e_engine ev)) ss))).
  { destruct E as (db & ss & E). unfold run_out, run_st. rewrite E. cbn [fst snd px_cache px_sess].
    split; [reflexivity|split; [apply lookup_insert_eq|]].
    destruct (close_state (e_engine ev) ss) as [cl ->]. reflexivity. }
  unfold get_album_with_artist_info. cbv zeta. unfold py_try at 1.
  rewrite (py_bind_ok _ _ _ tt (run_st (cache_sweep (e_now ev)) w)) by reflexivity.
  rewrite cached_or_miss by (simpl; rewrite lookup_cleanup, Hck; reflexivity).
  set (w1 := run_st (cache_sweep (e_now ev)) w).
  assert (Ha1 : px_cache w1 !! ("album:" ++ url) = Some ea) by exact (sweep_keeps_live _ _ _ _ Ha Hea).
  set (w2 := mk_proxy (cleanup_expired_cache (fun _ => e_now ev) (px_cache w1)) (px_sess w1)).
  assert (Hb2 : px_cache w2 !! ("band:" ++ b) = Some eb)
    by exact (sweep_keeps_live _ _ _ _ (sweep_keeps_live _ _ _ _ Hbk Heb) Heb).
  unfold composite_fetch, get_album, get_artist_info. cbv zeta.
  rewrite (py_bind_ok _ _ _ A _ (swept_hit _ _ _ _ w1 ea Ha1 Hea HtA)).
  fold w2. fold A. rewrite HeA. fold b. rewrite Hb. cbn [negb].
  rewrite (py_bind_ok _ _ _ (data eb) _ (swept_hit _ _ _ _ w2 eb Hb2 Heb Htb)).
  rewrite HeB. unfold py_bind, cache_put, debug_write, py_modify, py_raise. rewrite Hio.
  cbn [px_cache px_sess]. rewrite on_error_run. cbn [px_cache px_sess].
  unfold save_in_cache. do 2 eexists. reflexivity.
Qed.

End Facts.

(** ** Witnesses

    A small instance of the interface, where a page is its URL, and a
    request environment with no engine failure. *)

Definition demo_album (u : string) : list (string * json) :=
  [("metal_archives_album_url", JStr u);
   ("metal_archives_band_url", JStr "https://www.metal-archives.com/bands/B/1")].

Definition demo_extraction : Extraction := {|
  Page := string;
  album_record := fun u _ => Ok (demo_album u);
  band_record := fun u _ => [("metal_archives_band_url", JStr u)];
  album_record_no_error := fun u _ r H =>
    eq_ind (Ok (demo_album u)) (fun o => match o with Ok r' => jget "error" r' = None | Exc _ => True end) eq_refl (Ok r) H;
  band_record_no_error := fun _ _ => eq_refl
|}.

#[local] Existing Instance demo_extraction.

Definition demo_env (goto_fails : string -> bool) (rs : list ajax_response) : env :=
  mk_env 0%Z no_fail goto_fails (fun u => u) (fun _ => rs) false.

Definition demo_world : proxy := mk_proxy ∅ (init_world 0).

Definition demo_rows : list (list string) := [["Band"; "Album"; "Full-length"; "2002"]].

Definition demo_rows_json : json :=
  JList (map (fun r => JList (map JStr r)) demo_rows).

Definition demo_album_responses : list ajax_response :=
  [mk_resp (albums_base ++ "?x") 200 (Some [("aaData", demo_rows_json)])].

Definition band_rows : list (list string) := [["Band"; "Thrash"; "Germany"]].

Definition demo_band_responses : list ajax_response :=
  [mk_resp (bands_base ++ "?x") 200 (Some [("aaData", JList (map (fun r => JList (map JStr r)) band_rows))])].

Lemma composite_no_partial_witness :
  let ev := demo_env (String.eqb "https://www.metal-archives.com/bands/B/1") [] in
  get_album_with_artist_info ev "A" demo_world =
    (Ok (err "Timeout 60000ms exceeded"), run_st (get_album_with_artist_info ev "A") demo_world) /\
  px_cache (run_st (get_album_with_artist_info ev "A") demo_world) !! composite_key "A" =
  cleanup_expired_cache (fun _ => e_now ev) (px_cache demo_world) !! composite_key "A".
Proof.
  intros ev. assert (E : get_album_with_artist_info ev "A" demo_world =
    (Ok (err "Timeout 60000ms exceeded"), run_st (get_album_with_artist_info ev "A") demo_world))
    by (vm_compute; reflexivity).
  split; [exact E|]. exact (composite_no_partial ev "A" demo_world _ _ eq_refl E eq_refl).
Defined.

Lemma search_albums_cache_hit_witness :
  let w := mk_proxy {[search_key "search" "Band" "" := mk_entry 0%Z (results_json [])]} (init_world 0) in
  search_albums (demo_env (fun _ => false) []) "Band" "" w = (Ok (results_json []), w).
Proof.
  intros w. apply (search_albums_cache_hit _ _ _ w (mk_entry 0%Z (results_json [])));
    vm_compute; congruence.
Defined.

Lemma search_albums_fetch_then_hit_witness :
  let ev := demo_env (fun _ => false) demo_album_responses in
  let s1 := run_st (start no_fail 0) (init_world 0) in
  let R := results_json (map album_hit_json (album_rows "album" demo_rows)) in
  let w' := mk_proxy (<[search_key "search" "Band" "" := mk_entry 0%Z R]> ∅) (with_listener 3 s1) in
  search_albums ev "Band" "" demo_world = (Ok R, w') /\
  forall ev', (e_now ev' - 0 <= ttl)%Z -> search_albums ev' "Band" "" w' = (Ok R, w').
Proof.
  intros ev s1 R w'.
  apply (search_albums_fetch_then_hit ev "Band" "" (albums_params ++ "&bandName=" ++ quote "Band")
           demo_world 3 s1 demo_rows_json demo_rows); vm_compute; reflexivity.
Defined.

Lemma search_albums_nav_failure_witness :
  let ev := demo_env (fun _ => true) [] in
  (exists msg, run_out (search_albums ev "Band" "") demo_world = Ok (err msg)) /\
  px_cache (run_st (search_albums ev "Band" "") demo_world) = px_cache demo_world /\
  is_active (px_sess (run_st (search_albums ev "Band" "") demo_world)) = false.
Proof.
  intros ev. apply (search_albums_nav_failure ev "Band" "" (albums_params ++ "&bandName=" ++ quote "Band"));
    vm_compute; reflexivity.
Defined.

Lemma search_albums_no_capture_witness :
  let ev := demo_env (fun _ => false) [] in
  let s1 := run_st (start no_fail 0) (init_world 0) in
  search_albums ev "Band" "" demo_world =
  (Ok (err "Couldn't capture AJAX response"), mk_proxy ∅ (with_listener 3 s1)).
Proof.
  intros ev s1.
  apply (search_albums_no_capture ev "Band" "" (albums_params ++ "&bandName=" ++ quote "Band")
           demo_world 3 s1); vm_compute; reflexivity.
Defined.

Lemma search_key_collision_witness :
  let ev := demo_env (fun _ => false) demo_band_responses in
  run_out (search_albums ev "Band" "info") (run_st (search_artists ev "Band") demo_world) =
  Ok (results_json (map artist_hit_json [artist_hit_of "Band" "Thrash" "Germany"])).
Proof.
  intros ev.
  apply (search_key_collision ev ev "Band" demo_world 3 (run_st (start no_fail 0) (init_world 0))
           (JList (map (fun r => JList (map JStr r)) band_rows)) band_rows);
    vm_compute; try reflexivity; congruence.
Defined.

Lemma get_album_fetch_witness :
  let ev := demo_env (fun _ => false) [] in
  let R := JObj (demo_album "A") in
  get_album ev "A" demo_world =
  (Ok R, mk_proxy (<["album:A" := mk_entry 0%Z R]> (cleanup_expired_cache (fun _ => 0%Z) ∅))
           (run_st (get_page no_fail 0 false) (init_world 0))).
Proof.
  intros ev R. apply (get_album_fetch ev "A" demo_world 3 _ (demo_album "A")); vm_compute; reflexivity.
Defined.

Lemma do_GET_missing_params_witness :
  let ev := demo_env (fun _ => false) [] in
  do_GET ev "/album" [] demo_world = (Ok (Some missing_url), demo_world) /\
  do_GET ev "/search" [] demo_world = (Ok (Some missing_search), demo_world).
Proof.
  intros ev. destruct (do_GET_missing_params ev [] demo_world) as [H1 H2].
  split; [apply H1; [reflexivity|left; reflexivity]|apply H2; reflexivity].
Defined.

Lemma route_aborts_search_document_witness :
  album_query "doubleclick" "" = Some (albums_params ++ "&bandName=doubleclick") /\
  _handle_route (albums_base ++ albums_params ++ "&bandName=doubleclick") "document" = Abort.
Proof.
  assert (H : album_query "doubleclick" "" = Some (albums_params ++ "&bandName=doubleclick"))
    by (vm_compute; reflexivity).
  split; [exact H|]. exact (route_aborts_search_document _ _ _ H eq_refl).
Defined.



Lemma get_album_nav_failure_witness :
  let ev := demo_env (fun _ => true) [] in
  (exists msg, run_out (get_album ev "A") demo_world = Ok (err msg)) /\
  px_cache (run_st (get_album ev "A") demo_world) =
    cleanup_expired_cache (fun _ => e_now ev) (px_cache demo_world) /\
  is_active (px_sess (run_st (get_album ev "A") demo_world)) = false.
Proof. intros ev. apply get_album_nav_failure; vm_compute; reflexivity. Defined.

Lemma get_album_cache_hit_witness :
  let e := mk_entry 0%Z (JObj [("album", JStr "X")]) in
  let w := mk_proxy {["album:A" := e]} (init_world 0) in
  get_album (demo_env (fun _ => false) []) "A" w =
  (Ok (data e), mk_proxy (cleanup_expired_cache (fun _ => 0%Z) (px_cache w)) (px_sess w)).
Proof. intros e w. apply get_album_cache_hit; vm_compute; reflexivity. Defined.

Lemma composite_cached_despite_error_witness :
  let ea := mk_entry 0%Z (JObj (demo_album "A")) in
  let eb := mk_entry 0%Z (JObj [("metal_archives_band_url", JStr "https://www.metal-archives.com/bands/B/1")]) in
  let w := mk_proxy (<["album:A" := ea]> {["band:https://www.metal-archives.com/bands/B/1" := eb]})
                    (init_world 0) in
  let ev := mk_env 0%Z no_fail (fun _ => false) (fun u => u) (fun _ => []) true in
  let R := JObj [("metal_archives_album_url", JStr "A");
                 ("metal_archives_artist_url", JStr (band_url_of (data ea)));
                 ("album_data", data ea); ("artist_data", data eb)] in
  run_out (get_album_with_artist_info ev "A") w = Ok (err "OSError") /\
  px_cache (run_st (get_album_with_artist_info ev "A") w) !! composite_key "A" = Some (mk_entry 0%Z R) /\
  is_active (px_sess (run_st (get_album_with_artist_info ev "A") w)) = false.
Proof.
  intros ea eb w ev R.
  apply (composite_cached_despite_error ev "A" w ea eb); vm_compute; reflexivity.
Defined.
