(* ===== verification/Pages.v ===== *)
(** * Pages: the album and band records of [get_album] and [get_artist_info]

    [get_album] ([src/proxy_ma.py], lines 196-246) reads the album page
    with [get_text]/[get_attr] over CSS selectors, [format_date], two
    regular expressions, [extract_addtional_info] (lines 589-613) and the
    inner [extract_tracks]; [get_artist_info] (lines 379-399) reads the
    band page with [get_dd_text].  Both are written here over the tree of
    [Dom], and [soup_extraction] is the instance of the orchestrator's
    [Extraction] interface they make.

    Three behaviours of the code show here.  The fallback selector
    [dt:has-text('Release date:') + dd] is Playwright's syntax, which
    soupsieve refuses: whenever the first release-date selector finds
    nothing, the album record raises [SelectorSyntaxError].  In
    [extract_addtional_info] the [br] tags become ["\r\n"] strings and the
    inline tags are unwrapped, but [get_text(strip=True)] strips every
    string on its own, so the line breaks and the spaces around inline
    tags are lost.  [extract_tracks] runs on the tree that
    [extract_addtional_info] has mutated, since the dictionary's values
    are computed in order on the one [parsed_html]. *)

From stdpp Require Import base gmap strings.
From Stdlib Require Import String Ascii List Bool Arith Lia.
From S2P Require Import Prelude Cache Session PyRe DateFormat Dom Orchestrator.
Import ListNotations.
Open Scope string_scope.
Open Scope py_scope.
Open Scope nat_scope.

(** ** The selectors *)

Definition comp (t : option string) (i : option string) (cs : list string) (cont : list string)
    : compound := mk_comp t i cs cont.

Definition el (t : string) : compound := comp (Some t) None [] [].

(** ["h1.album_name"] and ["h1.album_name.noCaps"] *)
Definition q_album_name : css := Css (SC (comp (Some "h1") None ["album_name"] [])).
Definition q_album_name_nocaps : css := Css (SC (comp (Some "h1") None ["album_name"; "noCaps"] [])).

(** ["h2.band_name a"] and ["h2.band_name.noCaps a"] *)
Definition q_band_link : css := Css (SDesc (SC (comp (Some "h2") None ["band_name"] [])) (el "a")).
Definition q_band_link_nocaps : css :=
  Css (SDesc (SC (comp (Some "h2") None ["band_name"; "noCaps"] [])) (el "a")).

(** ["div.album_img a"] *)
Definition q_cover : css := Css (SDesc (SC (comp (Some "div") None ["album_img"] [])) (el "a")).

(** ["dt:-soup-contains('<label>') + dd"] *)
Definition q_dd (label : string) : css := Css (SAdj (SC (comp (Some "dt") None [] [label])) (el "dd")).

(** ["dt:has-text('Release date:') + dd"]: not a soupsieve selector;
    [select_one] raises [SelectorSyntaxError].  The message kept here is
    the first clause of its [str(e)], which goes on with soupsieve's
    advice to escape the colon and the line and column of the selector. *)
Definition q_release_has_text : css :=
  CssInvalid "':has-text' was detected as a pseudo-class and is either unsupported or invalid".

(** ["table.table_lyrics tr"] *)
Definition sel_lyrics_rows : selector := SDesc (SC (comp (Some "table") None ["table_lyrics"] [])) (el "tr").

(** ["div#album_tabs_notes .ui-tabs-panel-content"] *)
Definition sel_notes : selector :=
  SDesc (SC (comp (Some "div") (Some "album_tabs_notes") [] [])) (comp None None ["ui-tabs-panel-content"] []).

(** ** [get_text], [get_attr] and [or] *)

Definition get_text (doc : node) (q : css) : outcome string :=
  res_map (fun o => match o with Some n => py_strip (text n) | None => "" end) (select_one doc q).

Definition get_attr (doc : node) (q : css) (a : string) : outcome string :=
  res_map (fun o => match o with
                    | Some n => match attr a n with Some v => py_strip v | None => "" end
                    | None => ""
                    end) (select_one doc q).

(** [x or y] on strings: [y] is evaluated only when [x] is empty. *)
Definition py_or (x : outcome string) (y : unit -> outcome string) : outcome string :=
  let? v := x in if py_truthy_str v then Ok v else y tt.

(** ** The regular expressions *)

(** [\d{4}] *)
Definition year_re : re := exactly 4 d_.

(** [\(avg\.\s*([\d\.]+)%\)] *)
Definition rating_re : re :=
  seq [lit "(avg."; star s_; RGroup 1 (plus (RChar (fun c => cls_digit c || cls_eq "." c))); lit "%)"].

(** [Disc\s+(\d+)] *)
Definition disc_re : re := seq [lit "Disc"; plus s_; RGroup 1 (plus d_)].

(** [(\r?\n){3,}] and [[^\S\r\n]{2,}] *)
Definition nl3_re : re := RRep (RGroup 1 (seq [opt (RChar (cls_eq cr)); RChar (cls_eq nl)])) 3 None true.
Definition ws2_re : re :=
  RRep (RChar (fun c => cls_space c && negb (ceqb c cr) && negb (ceqb c nl))) 2 None true.

(** ** [extract_tracks] *)

Definition track_json (disc title bonus length instrumental : string) : json :=
  JObj [("discnumber", JStr disc); ("track", JStr title); ("bonus", JStr bonus);
        ("length", JStr length); ("instrumental", JStr instrumental)].

(** One row of the lyrics table: a disc row changes [disc_number], a
    track row with four cells gives a track. *)
Definition track_of (disc : string) (c1 c2 c3 : node) : json :=
  track_json disc (py_strip (text c1))
    (if existsb (String.eqb "bonus") (classes c1) then "1" else "")
    (py_strip (text c2))
    (if py_in "<em>instrumental</em>" (py_lower (render c3)) then "1" else "").

Fixpoint tracks_go (disc : string) (rows : list node) : list json :=
  match rows with
  | [] => []
  | row :: rs =>
      let html := render row in
      if py_in "discRow" html then
        let disc' := match re_search disc_re html with Some mo => group_s mo 1 | None => disc end in
        tracks_go disc' rs
      else if py_in "wrapWords" html then
        match find_all "td" row with
        | _ :: c1 :: c2 :: c3 :: _ => track_of disc c1 c2 c3 :: tracks_go disc rs
        | _ => tracks_go disc rs
        end
      else tracks_go disc rs
  end.

Definition extract_tracks (doc : node) : list json :=
  tracks_go "1" (map p_node (select_pos doc sel_lyrics_rows)).

(** ** [extract_addtional_info] *)

Definition unwrapped_tags : list string := ["i"; "b"; "a"; "td"].

(** One paragraph after its [br]s are replaced and its inline tags
    unwrapped. *)
Definition fix_p (p : node) : node := unwrap_below unwrapped_tags (replace_br p).

(** The container after the loop: every [p] below it fixed (a [p] inside
    another is fixed with it, and fixing is idempotent, so this is the
    tree the loop leaves). *)
Fixpoint fix_ps (n : node) : node :=
  match n with
  | Elem t a kids => if String.eqb t "p" then fix_p n else Elem t a (map fix_ps kids)
  | _ => n
  end.

Definition block_text (p : node) : string :=
  let t := get_text_strip (fix_p p) in
  if existsb (String.eqb (py_lower (py_strip t))) ["recording information:"; "title translation:"]
  then t ++ crlf else t.

(** The text and the document after the call. *)
Definition extract_addtional_info (doc : node) : string * node :=
  match hd_error (select_pos doc sel_notes) with
  | None => ("", doc)
  | Some pos =>
      let blocks := filter py_truthy_str (map block_text (find_all "p" (p_node pos))) in
      let final := String.concat (crlf ++ crlf) blocks in
      let final := re_sub nl3_re (crlf ++ crlf) final in
      let final := re_sub ws2_re " " final in
      (py_strip final,
       update_at (p_path pos) (fun c => match c with
                                        | Elem t a kids => Elem t a (map fix_ps kids)
                                        | _ => c
                                        end) doc)
  end.

(** ** The album record *)

Record album_vals := mk_album_vals {
  av_band_url : string; av_cover : string; av_album : string; av_artist : string;
  av_type : string; av_year : string; av_date : string; av_catalog : string;
  av_edition : string; av_publisher : string; av_rating : string; av_info : string;
  av_tracks : list json
}.

(** The dictionary literal of [result]. *)
Definition album_fields (url : string) (v : album_vals) : list (string * json) :=
  [("metal_archives_album_url", JStr url);
   ("metal_archives_band_url", JStr (av_band_url v));
   ("coverurl", JStr (av_cover v));
   ("album", JStr (av_album v));
   ("artist", JStr (av_artist v));
   ("metal_archives_type", JStr (av_type v));
   ("year", JStr (av_year v));
   ("metal_archives_date", JStr (av_date v));
   ("catalog", JStr (av_catalog v));
   ("metal_archives_edition", JStr (av_edition v));
   ("publisher", JStr (av_publisher v));
   ("metal_archives_rating", JStr (av_rating v));
   ("metal_archives_info", JStr (av_info v));
   ("tracks", JList (av_tracks v))].

Definition release_date_raw (doc : node) : outcome string :=
  py_or (get_text doc (q_dd "Release date:")) (fun _ => get_text doc q_release_has_text).

Definition year_of (raw : string) : string :=
  match re_search year_re raw with Some mo => group_s mo 0 | None => "" end.

Definition rating_of (reviews : string) : string :=
  match re_search rating_re reviews with Some mo => group_s mo 1 ++ "%" | None => "" end.

(** From [release_date_raw = ...] to the values of [result], in the
    order Python evaluates them. *)
Definition album_scrape (doc : node) : outcome album_vals :=
  let? raw := release_date_raw doc in
  let formatted := format_date raw in
  let? band_url := get_attr doc q_band_link "href" in
  let? cover := get_attr doc q_cover "href" in
  let? album := py_or (get_text doc q_album_name) (fun _ => get_text doc q_album_name_nocaps) in
  let? artist := py_or (get_text doc q_band_link) (fun _ => get_text doc q_band_link_nocaps) in
  let? typ := get_text doc (q_dd "Type:") in
  let? catalog := get_text doc (q_dd "Catalog ID:") in
  let? edition := get_text doc (q_dd "Version desc.:") in
  let? publisher := get_text doc (q_dd "Label:") in
  let? reviews := get_text doc (q_dd "Reviews:") in
  let (info, doc') := extract_addtional_info doc in
  Ok (mk_album_vals band_url cover album artist typ (year_of raw) formatted catalog edition
        publisher (rating_of reviews) info (extract_tracks doc')).

Definition album_record_soup (url : string) (doc : node) : outcome (list (string * json)) :=
  res_map (album_fields url) (album_scrape doc).

(** ** The band record *)

(** [get_dd_text(label)]: the first [dt] whose [.string] matches the
    label, then its next [dd] sibling. *)
Definition get_dd_text (doc : node) (label : string) : string :=
  match find (fun p => is_tag "dt" (p_node p) &&
                       match tag_string (p_node p) with
                       | Some s => match re_search (lit label) s with Some _ => true | None => false end
                       | None => false
                       end) (positions doc) with
  | Some p => match find_next_sibling "dd" p with Some dd => py_strip (text dd) | None => "" end
  | None => ""
  end.

Definition band_record_soup (url : string) (doc : node) : list (string * json) :=
  [("metal_archives_band_url", JStr url);
   ("country", JStr (get_dd_text doc "Country of origin:"));
   ("metal_archives_location", JStr (get_dd_text doc "Location:"));
   ("metal_archives_status", JStr (get_dd_text doc "Status:"));
   ("metal_archives_formation_year", JStr (get_dd_text doc "Formed in:"));
   ("genre", JStr (get_dd_text doc "Genre:"));
   ("metal_archives_lyrical_themes", JStr (get_dd_text doc "Themes:"))].

(** ** The instance *)

Lemma album_record_soup_no_error u doc r :
  album_record_soup u doc = Ok r -> jget "error" r = None.
Proof. unfold album_record_soup. intros H. apply res_map_ok in H as (v & _ & ->). reflexivity. Qed.

Lemma band_record_soup_no_error u doc : jget "error" (band_record_soup u doc) = None.
Proof. reflexivity. Qed.

#[export] Instance soup_extraction : Extraction := {|
  Page := node;
  album_record := album_record_soup;
  band_record := band_record_soup;
  album_record_no_error := album_record_soup_no_error;
  band_record_no_error := band_record_soup_no_error
|}.

(** ** The release date *)

(** The message with which [q_release_has_text] raises. *)
Definition has_text_msg : string :=
  "':has-text' was detected as a pseudo-class and is either unsupported or invalid".

(** An empty first release-date selector sends [or] to the fallback,
    which raises before any other field is read. *)
Lemma album_record_soup_no_release_date url doc :
  get_text doc (q_dd "Release date:") = Ok "" -> album_record_soup url doc = Exc has_text_msg.
Proof. intros H. unfold album_record_soup, album_scrape, release_date_raw, py_or. now rewrite H. Qed.

(** C9: on a miss after the sweep, an album page whose [Release date:]
    entry is missing or empty makes [get_album] fail with soupsieve's
    [SelectorSyntaxError] for [:has-text]: the answer is an error object
    with that message, nothing is stored and the session is closed. *)
Theorem get_album_no_release_date ev url w p s1 :
  cleanup_expired_cache (fun _ => e_now ev) (px_cache w) !! ("album:" ++ url) = None ->
  get_page (e_engine ev) (e_now ev) false (px_sess w) = (Ok (Some p), s1) ->
  e_goto_fails ev url = false -> e_io_fails ev = false ->
  get_text (e_page ev url) (q_dd "Release date:") = Ok "" ->
  run_out (get_album ev url) w = Ok (err has_text_msg) /\
  px_cache (run_st (get_album ev url) w) = cleanup_expired_cache (fun _ => e_now ev) (px_cache w) /\
  is_active (px_sess (run_st (get_album ev url) w)) = false.
Proof.
  intros Hk Hp Hg Hio Hd. unfold run_out, run_st.
  rewrite (get_album_record_fails ev url w p s1 has_text_msg Hk Hp Hg Hio)
    by exact (album_record_soup_no_release_date url _ Hd).
  cbn [fst snd px_cache px_sess]. destruct (close_state (e_engine ev) s1) as [cl ->].
  repeat split; reflexivity.
Qed.

(** ** The tracks *)

(** A disc number as [extract_tracks] keeps it: a non-empty run of digits. *)
Definition disc_ok (d : string) : Prop := exists g, d = str g /\ digits g /\ g <> [].

Definition track_ok (t : json) : Prop :=
  exists d title bonus length instrumental,
    t = track_json d title bonus length instrumental /\ disc_ok d /\
    (bonus = "" \/ bonus = "1") /\ (instrumental = "" \/ instrumental = "1").

Lemma disc_re_group s mo : re_search disc_re s = Some mo -> disc_ok (group_s mo 1).
Proof.
  intros H. unfold re_search in H. apply search_go_sound in H as (pre & suf & rest & Hs & HM & _).
  unfold disc_re, seq, d_, s_, plus in HM. inv_matches.
  exists pre0. repeat split; [take_group|assumption|].
  intros ->. simpl in *. lia.
Qed.

Lemma flag_ok (b : bool) : (if b then "1" else "") = "" \/ (if b then "1" else "") = "1".
Proof. destruct b; auto. Qed.

Lemma tracks_go_ok d rows :
  disc_ok d -> Forall track_ok (tracks_go d rows) /\ (length (tracks_go d rows) <= length rows)%nat.
Proof.
  revert d. induction rows as [|row rs IH]; intros d Hd; simpl; [split; [constructor|lia]|].
  destruct (py_in "discRow" (render row)).
  - assert (Hd' : disc_ok (match re_search disc_re (render row) with
                           | Some mo => group_s mo 1 | None => d end)).
    { destruct (re_search disc_re (render row)) eqn:E; [exact (disc_re_group _ _ E)|exact Hd]. }
    destruct (IH _ Hd'). split; [assumption|lia].
  - destruct (py_in "wrapWords" (render row)); [|destruct (IH d Hd); split; [assumption|lia]].
    destruct (find_all "td" row) as [|c0 [|c1 [|c2 [|c3 l]]]];
      try (destruct (IH d Hd); split; [assumption|lia]).
    destruct (IH d Hd) as [Hf Hl]. split; [|simpl; lia].
    constructor; [|exact Hf]. do 5 eexists. split; [reflexivity|].
    split; [exact Hd|split; apply flag_ok].
Qed.

(** ** The year *)

(** What [album_scrape] reads the date fields from. *)
Lemma album_scrape_date doc v :
  album_scrape doc = Ok v ->
  exists raw, release_date_raw doc = Ok raw /\ av_year v = year_of raw /\ av_date v = format_date raw.
Proof.
  unfold album_scrape, res_bind. intros H.
  repeat match type of H with
         | context [match ?o with Ok _ => _ | Exc _ => _ end] => destruct o eqn:?; try discriminate
         end.
  destruct (extract_addtional_info doc). injection H as <-. eauto.
Qed.

(** The year is empty or four digits read from the raw date. *)
Definition year_shape (raw year : string) : Prop :=
  year = "" \/
  exists pre g rest, chars raw = (pre ++ g ++ rest)%list /\ year = str g /\ digits g /\ length g = 4.

Lemma year_of_shape raw : year_shape raw (year_of raw).
Proof.
  unfold year_shape, year_of. destruct (re_search year_re raw) as [mo|] eqn:E; [right|left; reflexivity].
  destruct (group_s_0 _ _ _ E) as (pre & g & rest & Hc & HM & ->).
  unfold year_re, exactly, d_ in HM. apply matches_rep_char in HM as [_ [g' [Hs [Hf [Hlo Hhi]]]]].
  apply app_inv_tail in Hs as ->. specialize (Hhi 4 eq_refl). exists pre, g', rest. repeat split; auto. lia.
Qed.

(** ** Properties of the album record *)

(** C18: the [br] replacement and the unwrapping of [i], [b], [a] and
    [td] in [extract_addtional_info] do not change what
    [p.get_text(separator="", strip=True)] returns: where no [br] has
    children (as [html.parser] builds them), the text of the fixed
    paragraph is that of the paragraph as parsed, every string stripped
    on its own and the pieces glued, so the ["\r\n"] of a [br] and the
    spaces around an inline tag are lost. *)
Theorem fix_p_text p : br_empty p = true -> get_text_strip (fix_p p) = get_text_strip p.
Proof.
  intros H. unfold get_text_strip, fix_p.
  change (String.concat "" (kept (strings (unwrap_below unwrapped_tags (replace_br p)))) =
          String.concat "" (kept (strings p))).
  now rewrite strings_unwrap_below, kept_replace_br.
Qed.

(** C20: every track of [extract_tracks] is a five-key object whose
    [discnumber] is a non-empty run of digits (["1"] or the group of
    [Disc\s+(\d+)] of the last disc row) and whose [bonus] and
    [instrumental] flags are [""] or ["1"]; there are no more tracks than
    rows of [table.table_lyrics]. *)
Theorem extract_tracks_ok doc :
  Forall track_ok (extract_tracks doc) /\
  (length (extract_tracks doc) <= length (select_pos doc sel_lyrics_rows))%nat.
Proof.
  unfold extract_tracks. rewrite <- (length_map p_node).
  apply tracks_go_ok. exists ["1"%char]. repeat split; [repeat constructor|discriminate].
Qed.

(** C27: the [year] of an album record is [""] or four digits found in
    the raw release date that [metal_archives_date] is formatted from. *)
Theorem album_record_year url doc r :
  album_record_soup url doc = Ok r ->
  exists raw, release_date_raw doc = Ok raw /\
    jget "metal_archives_date" r = Some (JStr (format_date raw)) /\
    exists year, jget "year" r = Some (JStr year) /\ year_shape raw year.
Proof.
  unfold album_record_soup. intros H. apply res_map_ok in H as (v & Hv & ->).
  destruct (album_scrape_date doc v Hv) as (raw & Hr & Hy & Hd).
  exists raw. split; [exact Hr|]. simpl. rewrite Hd. split; [reflexivity|].
  eexists. split; [reflexivity|]. rewrite Hy. apply year_of_shape.
Qed.

(** ** Witnesses *)

Definition dt_dd (label value : string) : list node :=
  [Elem "dt" [] [Text label]; Elem "dd" [] [Text value]].

(** An album page with no release date. *)
Definition page_no_date : node :=
  Elem "html" [] [Elem "h1" [("class", "album_name")] [Text "Album"];
                  Elem "dl" [] (dt_dd "Type:" "EP")].

Definition soup_env (pg : node) : env :=
  mk_env 0%Z no_fail (fun _ => false) (fun _ => pg) (fun _ => []) false.

Lemma get_album_no_release_date_witness :
  let ev := soup_env page_no_date in
  run_out (get_album ev "A") demo_world = Ok (err has_text_msg) /\
  px_cache (run_st (get_album ev "A") demo_world) = cleanup_expired_cache (fun _ => 0%Z) ∅ /\
  is_active (px_sess (run_st (get_album ev "A") demo_world)) = false.
Proof.
  intros ev.
  apply (get_album_no_release_date ev "A" demo_world 3 (run_st (get_page no_fail 0 false) (init_world 0)));
    vm_compute; reflexivity.
Defined.

(** A paragraph of the notes tab: ["Recorded at X<br/>Mixed at <b>Y</b>"]. *)
Definition info_p : node :=
  Elem "p" [] [Text "Recorded at X"; Elem "br" [] []; Text "Mixed at "; Elem "b" [] [Text "Y"]].

Lemma fix_p_text_witness :
  br_empty info_p = true /\ get_text_strip (fix_p info_p) = get_text_strip info_p /\
  get_text_strip info_p = "Recorded at XMixed atY".
Proof.
  assert (H : br_empty info_p = true) by reflexivity.
  split; [exact H|split; [exact (fix_p_text info_p H)|vm_compute; reflexivity]].
Defined.

(** An album page with a release date, a rating, notes and one track. *)
Definition page_full : node :=
  Elem "html" [] [
    Elem "h1" [("class", "album_name")] [Text " Album "];
    Elem "h2" [("class", "band_name")] [Elem "a" [("href", "https://b/1")] [Text "Band"]];
    Elem "dl" [] (dt_dd "Type:" "Full-length" ++ dt_dd "Release date:" "March 3rd, 2001" ++
                  dt_dd "Reviews:" "3 reviews (avg. 85%)");
    Elem "div" [("id", "album_tabs_notes")]
      [Elem "div" [("class", "ui-tabs-panel-content")] [info_p]];
    Elem "table" [("class", "table_lyrics")]
      [Elem "tr" [("class", "discRow")] [Elem "td" [] [Text "Disc 2"]];
       Elem "tr" [("class", "even")]
         [Elem "td" [] [Text "1."]; Elem "td" [("class", "wrapWords bonus")] [Text "Song"];
          Elem "td" [] [Text "03:00"]; Elem "td" [] [Elem "em" [] [Text "instrumental"]]]]].

Definition page_full_record : list (string * json) :=
  album_fields "A" (mk_album_vals "https://b/1" "" "Album" "Band" "Full-length" "2001" "2001-03-03"
                      "" "" "" "85%" "Recorded at XMixed atY"
                      [track_json "2" "Song" "1" "03:00" "1"]).

Lemma album_record_year_witness :
  album_record_soup "A" page_full = Ok page_full_record /\
  exists raw, release_date_raw page_full = Ok raw /\
    jget "metal_archives_date" page_full_record = Some (JStr (format_date raw)) /\
    exists year, jget "year" page_full_record = Some (JStr year) /\ year_shape raw year.
Proof.
  assert (H : album_record_soup "A" page_full = Ok page_full_record) by (vm_compute; reflexivity).
  split; [exact H|exact (album_record_year "A" page_full page_full_record H)].
Defined.
