(* ===== verification/Server.v ===== *)
(** * Server: the request loop and [__main__] of [src/proxy_ma.py]

    [__main__] runs [preload_with_validation()], sweeps the store, and
    serves requests one at a time ([HTTPServer.serve_forever]) until a
    keyboard interrupt; its [finally] closes the session if it is active.
    Between two requests the inactivity monitor may run: a run of the
    server is a list of [event]s, each a request handled by [do_GET] to
    completion or one pass of a monitor loop. *)

From stdpp Require Import base gmap strings fin_maps list.
From Stdlib Require Import ZArith.
From S2P Require Import Prelude Cache Session Preload Orchestrator.

Open Scope string_scope.
Open Scope py_scope.

Section Server.
Context `{X : Extraction}.

Inductive event : Type :=
| Request (ev : env) (path : string) (params : list (string * list string))
| Tick (o : oracle) (now : Z) (t : nat).

(** [serve_forever] over the requests that arrive before the interrupt,
    with the responses sent ([None] when nothing is sent). *)
Fixpoint serve (evs : list event) : OM (list (option json)) :=
  match evs with
  | [] => py_ret []
  | Request ev path params :: rest =>
      let! r := do_GET ev path params in
      let! rs := serve rest in
      py_ret (r :: rs)
  | Tick o now t :: rest =>
      do! on_sess (monitor_tick o now t) in
      serve rest
  end.

(** The [finally] block: [if PlaywrightSessionManager.is_active(): close()]. *)
Definition shutdown (o_end : oracle) : OM unit :=
  let! w := py_get in
  if is_active (px_sess w) then on_sess (close o_end) else py_ret tt.

(** [if __name__ == "__main__": ...] with [retries = 3]; [o_end] is what
    the engine does during the final [close()].  The keyboard interrupt
    ends [serve_forever] normally, and its handler only installs a
    signal handler. *)
Definition main (pe : nat -> attempt_env) (clock : nat -> Z) (now0 : Z) (evs : list event)
    (o_end : oracle) : OM (list (option json)) :=
  let! _ok := on_sess (preload_with_validation pe clock 3) in
  do! cache_sweep now0 in
  py_finally (serve evs) (shutdown o_end).

End Server.

Section Facts.
Context `{X : Extraction}.

Lemma nce_serve evs : keeps no_cached_error (serve evs).
Proof.
  induction evs as [|[ev path params|o now t] rest IH]; simpl.
  - apply keeps_ret.
  - apply keeps_bind; [apply nce_do_GET|intros r].
    apply keeps_bind; [exact IH|intros rs]. apply keeps_ret.
  - apply keeps_bind; [apply nce_on_sess|intros _]. exact IH.
Qed.

Lemma nce_finally {A B} (c : OM A) (f : OM B) :
  keeps no_cached_error c -> keeps no_cached_error f -> keeps no_cached_error (py_finally c f).
Proof.
  intros Hc Hf w H. unfold run_st, py_finally. specialize (Hc w H). unfold run_st in Hc.
  destruct (c w) as [r w1]. specialize (Hf w1 Hc). unfold run_st in Hf.
  by destruct (f w1) as [[]].
Qed.

Lemma nce_shutdown o : keeps no_cached_error (shutdown o).
Proof.
  intros w H. unfold run_st, shutdown, py_bind, py_get.
  destruct (is_active (px_sess w)); [exact (nce_on_sess _ w H)|exact H].
Qed.

(** C38: invariant of a whole run of the server: if the store holds no
    error object when the process starts, it holds none when it stops,
    whatever the requests, the monitor passes, the engine and the site
    did: an error answer is never cached, so never replayed from the
    store. *)
Theorem main_no_cached_error pe clock now0 evs o_end w :
  no_cached_error w -> no_cached_error (run_st (main pe clock now0 evs o_end) w).
Proof.
  revert w. fold (keeps no_cached_error (main pe clock now0 evs o_end)). unfold main.
  apply keeps_bind; [apply nce_on_sess|intros _].
  apply keeps_bind; [apply nce_cache_sweep|intros _].
  apply nce_finally; [apply nce_serve|apply nce_shutdown].
Qed.

(** The [finally] block leaves no active session. *)
Lemma shutdown_inactive o w w' r :
  shutdown o w = (r, w') -> is_active (px_sess w') = false.
Proof.
  unfold shutdown, py_bind, py_get, on_sess.
  destruct (is_active (px_sess w)) eqn:Ha; [|intros [= _ <-]; exact Ha].
  pose proof (close_state o (px_sess w)) as [cl Hc]. unfold run_st in Hc.
  destruct (close o (px_sess w)) as [r0 s0]. simpl in Hc. subst s0.
  intros [= _ <-]. reflexivity.
Qed.

(** C39: the process ends with no active session: after the [finally]
    block [is_active()] is false, whatever the requests, the monitor
    passes, the engine and the site did. *)
Theorem main_ends_inactive pe clock now0 evs o_end w :
  is_active (px_sess (run_st (main pe clock now0 evs o_end) w)) = false.
Proof.
  unfold main, run_st, py_bind, on_sess.
  destruct (preload_go_total pe clock 3 3 1 (px_sess w)) as (b & s1 & E); [reflexivity|lia|].
  unfold preload_with_validation. rewrite E. cbn [cache_sweep py_modify px_cache px_sess].
  unfold py_finally. destruct (serve evs _) as [rs w2].
  destruct (shutdown o_end w2) as [[u|e] w3] eqn:Es; apply shutdown_inactive in Es; exact Es.
Qed.

End Facts.

(** ** Witnesses *)

#[local] Existing Instance demo_extraction.

Lemma no_cached_error_empty : no_cached_error demo_world.
Proof. intros k e H. unfold demo_world in H. simpl in H. rewrite lookup_empty in H. discriminate. Qed.

Lemma main_no_cached_error_witness :
  let pe := fun _ => mk_attempt no_fail false "Metal Archives" false in
  let evs := [Request (demo_env (fun _ => true) []) "/album" [("url", ["A"])];
              Request (demo_env (fun _ => false) demo_album_responses) "/search" [("artist", ["Band"])]] in
  no_cached_error (run_st (main pe (fun _ => 0%Z) 0 evs no_fail) demo_world).
Proof. intros pe evs. apply main_no_cached_error, no_cached_error_empty. Defined.
